(** * FinBuddy: intent router, metrics aggregator, forecast engine, amount entry

  A shallow embedding of the decision logic of the finance assistant:

  - [core/ai_services.py]  ([AiServices]): intent router and categoriser;
  - [core/analytics.py]    ([Analytics]): 30-day linear trend forecast;
  - [ui/forecast.py]       ([Forecast]): metrics aggregator, weather verdict;
  - [ui/sidebar.py]        ([Sidebar]): amount parsing and transaction edits.

  Conventions of the embedding.

  - Python [str] is a Rocq [string] holding the UTF-8 bytes of the text.
    Case mapping and white space are modelled on the ASCII range; bytes
    above 127 are left alone by [lower]/[upper] and are never white space.
  - Python [float] arithmetic on amounts is idealised as exact arithmetic
    on [Q]; the one explicit conversion [float(Decimal)] in the sidebar is
    modelled with round-to-nearest-even onto binary64 ([Float.of_Q]).
  - Calls that leave the process (Gemini, Granite) are oracles that either
    return a text or raise; every call is appended to a log.
  - Library functions whose code is not part of the repository
    ([pd.to_datetime], [DataFrame.to_string], [json.loads]) are fields of
    the record [library], so every statement holds for any behaviour of
    them; [today] is an explicit argument. *)

From Stdlib Require Import ZArith QArith Qpower Qabs Qround Qminmax List String Ascii Bool Lia Lqa.
From Stdlib Require Import Sorting.Sorted Sorting.Permutation.
Import ListNotations.

Set Implicit Arguments.

(* ================================================================== *)
(** ** Python string operations *)
(* ================================================================== *)

Module PyStr.

Local Open Scope string_scope.

Definition code (c : ascii) : N := N_of_ascii c.

Definition is_upper (c : ascii) : bool := ((65 <=? code c) && (code c <=? 90))%N.
Definition is_lower (c : ascii) : bool := ((97 <=? code c) && (code c <=? 122))%N.
Definition is_digit (c : ascii) : bool := ((48 <=? code c) && (code c <=? 57))%N.

(** [str.isspace] on the ASCII range: TAB, LF, VT, FF, CR, FS, GS, RS, US, SPACE. *)
Definition is_space (c : ascii) : bool :=
  (((9 <=? code c) && (code c <=? 13)) || ((28 <=? code c) && (code c <=? 32)))%N.

Definition lower_char (c : ascii) : ascii :=
  if is_upper c then ascii_of_N (code c + 32) else c.
Definition upper_char (c : ascii) : ascii :=
  if is_lower c then ascii_of_N (code c - 32) else c.

Fixpoint map_chars (f : ascii -> ascii) (s : string) : string :=
  match s with
  | EmptyString => EmptyString
  | String c r => String (f c) (map_chars f r)
  end.

Fixpoint all_chars (P : ascii -> bool) (s : string) : bool :=
  match s with
  | EmptyString => true
  | String c r => P c && all_chars P r
  end.

(** [s.lower()], [s.upper()] *)
Definition lower : string -> string := map_chars lower_char.
Definition upper : string -> string := map_chars upper_char.

Definition rev (s : string) : string :=
  string_of_list_ascii (List.rev (list_ascii_of_string s)).

Fixpoint lstrip (s : string) : string :=
  match s with
  | EmptyString => EmptyString
  | String c r => if is_space c then lstrip r else s
  end.
Definition rstrip (s : string) : string := rev (lstrip (rev s)).

(** [s.strip()] *)
Definition strip (s : string) : string := rstrip (lstrip s).

(** [needle in hay] *)
Fixpoint contains (needle hay : string) : bool :=
  prefix needle hay ||
  match hay with
  | EmptyString => false
  | String _ r => contains needle r
  end.

(** Left-to-right scan shared by [replace], [count] and [split]: after a
    match at the current position the next [length old - 1] characters
    belong to that match and are skipped. *)
Fixpoint replace_from (old new s : string) (skip : nat) : string :=
  match s with
  | EmptyString => EmptyString
  | String c r =>
      match skip with
      | S k => replace_from old new r k
      | O => if prefix old s
             then new ++ replace_from old new r (length old - 1)
             else String c (replace_from old new r 0)
      end
  end.

Fixpoint intersperse (new s : string) : string :=
  match s with
  | EmptyString => new
  | String c r => new ++ String c (intersperse new r)
  end.

(** [s.replace(old, new)] *)
Definition replace (old new s : string) : string :=
  match old with
  | EmptyString => intersperse new s
  | String _ _ => replace_from old new s 0
  end.

Fixpoint count_from (sub s : string) (skip : nat) : nat :=
  match s with
  | EmptyString => 0
  | String _ r =>
      match skip with
      | S k => count_from sub r k
      | O => if prefix sub s
             then S (count_from sub r (length sub - 1))
             else count_from sub r 0
      end
  end.

(** [s.count(sub)] for a non-empty [sub] *)
Definition count (sub s : string) : nat := count_from sub s 0.

Fixpoint split_from (sep s : string) (skip : nat) (cur : list ascii) : list string :=
  match s with
  | EmptyString => [string_of_list_ascii (List.rev cur)]
  | String c r =>
      match skip with
      | S k => split_from sep r k cur
      | O => if prefix sep s
             then string_of_list_ascii (List.rev cur)
                  :: split_from sep r (length sep - 1) []
             else split_from sep r 0 (c :: cur)
      end
  end.

(** [s.split(sep)] for a non-empty [sep] *)
Definition split (sep s : string) : list string := split_from sep s 0 [].

Fixpoint find_from (sub s : string) (i : Z) : Z :=
  if prefix sub s then i
  else match s with
       | EmptyString => (-1)%Z
       | String _ r => find_from sub r (i + 1)%Z
       end.

(** [s.find(sub)]: lowest index of an occurrence, [-1] when there is none *)
Definition find (sub s : string) : Z := find_from sub s 0.

Fixpoint rfind_from (sub s : string) (i : Z) (best : Z) : Z :=
  let best' := if prefix sub s then i else best in
  match s with
  | EmptyString => best'
  | String _ r => rfind_from sub r (i + 1)%Z best'
  end.

(** [s.rfind(sub)]: highest index of an occurrence, [-1] when there is none *)
Definition rfind (sub s : string) : Z := rfind_from sub s 0 (-1).

(** [s[a:b]] for indices [0 <= a], [0 <= b] *)
Definition slice (a b : Z) (s : string) : string :=
  substring (Z.to_nat a) (Z.to_nat (b - a)) s.

Definition join (ls : list string) : string := String.concat EmptyString ls.

(** The double quote and the line feed, which a literal cannot hold. *)
Definition dq : string := String (ascii_of_N 34) EmptyString.
Definition nl : string := String (ascii_of_N 10) EmptyString.

End PyStr.

(* ================================================================== *)
(** ** Exceptions, external calls and their log *)
(* ================================================================== *)

Module Effects.

(** The two classes the router tells apart; [detail] is [str(e)]. *)
Inductive exn : Type :=
| GoogleAPICallError (detail : string)
| PyException (detail : string).

Definition str_exn (e : exn) : string :=
  match e with
  | GoogleAPICallError d => d
  | PyException d => d
  end.

Inductive outcome (A : Type) : Type :=
| Returns (a : A)
| Raises (e : exn).
Arguments Returns {A} a.
Arguments Raises {A} e.

(** One entry per request that leaves the process. *)
Inductive call : Type :=
| GeminiCall (prompt : string) (max_output_tokens : option N)
| GraniteCall (prompt : string) (api_name : string).

(** The remote models: [generate_content] stands for
    [gemini_model.generate_content(prompt, ...)] followed by reading
    [.text]; [predict] for [granite_client.predict(prompt=, api_name=)]. *)
Record services : Type := {
  generate_content : string -> option N -> outcome string;
  predict : string -> string -> outcome string
}.

(** Computations that may call out and may raise. *)
Definition io (A : Type) : Type := list call -> outcome A * list call.

Definition ret {A} (a : A) : io A := fun log => (Returns a, log).
Definition raise {A} (e : exn) : io A := fun log => (Raises e, log).
Definition lift {A} (o : outcome A) : io A := fun log => (o, log).

Definition bind {A B} (m : io A) (k : A -> io B) : io B :=
  fun log =>
    match m log with
    | (Returns a, log') => k a log'
    | (Raises e, log') => (Raises e, log')
    end.

(** [try: m  except Exception as e: h e] *)
Definition try_except {A} (m : io A) (h : exn -> io A) : io A :=
  fun log =>
    match m log with
    | (Returns a, log') => (Returns a, log')
    | (Raises e, log') => h e log'
    end.

Definition gemini (S : services) (prompt : string) (cap : option N) : io string :=
  fun log => (generate_content S prompt cap, log ++ [GeminiCall prompt cap]).

Definition granite (S : services) (prompt api_name : string) : io string :=
  fun log => (predict S prompt api_name, log ++ [GraniteCall prompt api_name]).

Definition map_outcome {A B} (f : A -> B) (o : outcome A) : outcome B :=
  match o with
  | Returns a => Returns (f a)
  | Raises e => Raises e
  end.

End Effects.

Declare Scope io_scope.
Delimit Scope io_scope with io.
Notation "x <- m ;; k" := (Effects.bind m (fun x => k))
(at level 61, m at next level, right associativity) : io_scope.

(* ================================================================== *)
(** ** Transaction tables and the library functions around them *)
(* ================================================================== *)

Module Data.

(** One row of a project's table, columns [date, category, amount, note].
    The sidebar stores [str(date)] and a float amount. *)
Record row : Type := mk_row {
  date : string;
  category : string;
  amount : Q;
  note : string
}.

Definition table : Type := list row.

(** JSON values as [json.loads] builds them. *)
#[warnings="-register-all"]
Inductive json : Type :=
| JNull
| JBool (b : bool)
| JNum (q : Q)
| JStr (s : string)
| JArr (items : list json)
| JObj (fields : list (string * json)).

(** Library code outside the repository.
    - [to_datetime s]: the proleptic Gregorian ordinal of the calendar day
      [pd.to_datetime(s)] denotes, or the exception it raises (a text that
      pandas turns into [NaT] counts as one that does not parse);
    - [df_to_string]: [DataFrame.to_string(index=False)];
    - [json_loads]: [json.loads], [None] when it raises. *)
Record library : Type := {
  to_datetime : string -> Effects.outcome Z;
  df_to_string : table -> string;
  json_loads : string -> option json
}.

(** The part of [st.session_state] the core reads and the sidebar writes:
    the projects (a dict, in insertion order) and the selected one. *)
Record session : Type := {
  projects : list (string * table);
  selected_project : option string
}.

Fixpoint lookup (k : string) (d : list (string * table)) : option table :=
  match d with
  | [] => None
  | (k', v) :: rest => if String.eqb k k' then Some v else lookup k rest
  end.

(** [d[k] = v] *)
Fixpoint store (k : string) (v : table) (d : list (string * table))
  : list (string * table) :=
  match d with
  | [] => [(k, v)]
  | (k', v') :: rest =>
      if String.eqb k k' then (k', v) :: rest else (k', v') :: store k v rest
  end.

Definition Qsum (l : list Q) : Q := fold_right Qplus 0 l.

Section StableSort.
Variable A : Type.
(** [before x y]: [x] may stand before [y]. *)
Variable before : A -> A -> bool.

Fixpoint insert (x : A) (l : list A) : list A :=
  match l with
  | [] => [x]
  | y :: r => if before x y then x :: l else y :: insert x r
  end.

(** Stable: among elements that compare equal the earlier stays first. *)
Definition sort (l : list A) : list A := fold_right insert [] l.
End StableSort.

Section GroupBy.
Variable K : Type.
Variable cmp : K -> K -> comparison.

Definition same_key (k k' : K) : bool :=
  match cmp k k' with
  | Eq => true
  | _ => false
  end.

(** Keys are kept ascending and without repetition. *)
Fixpoint insert_key (k : K) (keys : list K) : list K :=
  match keys with
  | [] => [k]
  | k' :: rest =>
      match cmp k k' with
      | Eq => keys
      | Lt => k :: keys
      | Gt => k' :: insert_key k rest
      end
  end.

Definition group_keys (kvs : list (K * Q)) : list K :=
  fold_right insert_key [] (map fst kvs).

Definition group_total (k : K) (kvs : list (K * Q)) : Q :=
  Qsum (map snd (filter (fun kv => same_key (fst kv) k) kvs)).

(** [groupby(key)["amount"].sum()]: one entry per key, keys ascending,
    each with the sum of the amounts carrying that key. *)
Definition groupby_sum (kvs : list (K * Q)) : list (K * Q) :=
  map (fun k => (k, group_total k kvs)) (group_keys kvs).

(** [d.get(k, default)] on the resulting mapping. *)
Fixpoint get (k : K) (default : Q) (d : list (K * Q)) : Q :=
  match d with
  | [] => default
  | (k', v) :: rest => if same_key k' k then v else get k default rest
  end.
End GroupBy.

End Data.

(* ================================================================== *)
(** ** Number formatting *)
(* ================================================================== *)

Module Fmt.

Local Open Scope string_scope.

(** Nearest integer, ties to the even one. *)
Definition round_half_even (q : Q) : Z :=
  let f := Qfloor q in
  match Qcompare (q - inject_Z f) (1 # 2) with
  | Lt => f
  | Gt => (f + 1)%Z
  | Eq => if Z.even f then f else (f + 1)%Z
  end.

Fixpoint digits_fuel (fuel : nat) (n : N) (acc : list ascii) : list ascii :=
  match fuel with
  | O => acc
  | S f =>
      let acc' := ascii_of_N (48 + n mod 10) :: acc in
      if (n / 10 =? 0)%N then acc' else digits_fuel f (n / 10)%N acc'
  end.

(** Decimal digits of [n], most significant first. *)
Definition digits (n : N) : list ascii :=
  digits_fuel (S (N.to_nat (N.log2 n))) n [].

(** Thousands separators, on the digits least significant first. *)
Fixpoint group3 (l : list ascii) (i : nat) : list ascii :=
  match l with
  | [] => []
  | c :: r =>
      if (0 <? i)%nat && (i mod 3 =? 0)%nat
      then ","%char :: c :: group3 r (S i)
      else c :: group3 r (S i)
  end.

Definition with_commas (n : N) : string :=
  string_of_list_ascii (List.rev (group3 (List.rev (digits n)) 0)).

Definition two_digits (n : N) : string :=
  string_of_list_ascii [ascii_of_N (48 + n / 10); ascii_of_N (48 + n mod 10)].

(** [f"{q:,.2f}"] *)
Definition money (q : Q) : string :=
  let cents := Z.to_N (round_half_even (Qabs q * 100)) in
  (if Qlt_le_dec q 0 then "-" else EmptyString)
    ++ with_commas (cents / 100) ++ "." ++ two_digits (cents mod 100).

(** [f"{q:.0f}"] and [f"{q:,.0f}"] *)
Definition sign_of (q : Q) : string :=
  if Qlt_le_dec q 0 then "-" else EmptyString.
Definition fixed0 (q : Q) : string :=
  sign_of q ++ string_of_list_ascii (digits (Z.to_N (round_half_even (Qabs q)))).
Definition commas0 (q : Q) : string :=
  sign_of q ++ with_commas (Z.to_N (round_half_even (Qabs q))).

(** [str(n)] for an integer *)
Definition int (n : Z) : string :=
  (if (n <? 0)%Z then "-" else EmptyString)
    ++ string_of_list_ascii (digits (Z.abs_N n)).

End Fmt.

(* ================================================================== *)
(** ** core/analytics.py *)
(* ================================================================== *)

Module Analytics.

Import Effects Data.
Local Open Scope string_scope.

(** [df[df['category'] != 'Income']] *)
Definition expense_df (df : table) : table :=
  filter (fun r => negb (category r =? "Income")) df.

(** [pd.to_datetime(expense_df["date"])] together with the amounts: the
    conversion raises as soon as one text does not parse. *)
Fixpoint dated (L : library) (rows : table) : outcome (list (Z * Q)) :=
  match rows with
  | [] => Returns []
  | r :: rest =>
      match to_datetime L (date r) with
      | Raises e => Raises e
      | Returns d =>
          match dated L rest with
          | Raises e => Raises e
          | Returns l => Returns ((d, amount r) :: l)
          end
      end
  end.

(** [np.polyfit(x, y, 1)] in exact arithmetic, highest power first.  The
    days are distinct (they come out of a group-by), so with two or more
    points the least-squares line is unique; with a single point numpy
    returns the minimum-norm solution of the column-scaled system. *)
Definition polyfit (deg1_points : list (Z * Q)) : Q * Q :=
  match deg1_points with
  | [(x0, y0)] => (y0 / (2 * inject_Z x0), y0 / 2)
  | pts =>
      let n := inject_Z (Z.of_nat (List.length pts)) in
      let sx := Qsum (map (fun p => inject_Z (fst p)) pts) in
      let sy := Qsum (map snd pts) in
      let sxx := Qsum (map (fun p => inject_Z (fst p) * inject_Z (fst p)) pts) in
      let sxy := Qsum (map (fun p => inject_Z (fst p) * snd p) pts) in
      let slope := (n * sxy - sx * sy) / (n * sxx - sx * sx) in
      (slope, (sy - slope * sx) / n)
  end.

(** [np.poly1d(coeffs)(x)] *)
Definition poly1d (coeffs : Q * Q) (x : Z) : Q :=
  fst coeffs * inject_Z x + snd coeffs.

(** [np.arange(last_day_ord + 1, last_day_ord + 31)] *)
Definition future_ord (last_day_ord : Z) : list Z :=
  map (fun k => (last_day_ord + 1 + Z.of_nat k)%Z) (seq 0 30).

(** [future_preds[future_preds < 0] = 0] on one entry *)
Definition clamp (p : Q) : Q := if Qlt_le_dec p 0 then 0 else p.

Definition future_preds (coeffs : Q * Q) (last_day_ord : Z) : list Q :=
  map (fun x => clamp (poly1d coeffs x)) (future_ord last_day_ord).

Definition max_ord (l : list Z) : Z :=
  match l with
  | [] => 0%Z
  | x :: r => fold_right Z.max x r
  end.

(** The numbers the narrative is built from. *)
Record projection : Type := {
  daily_expenses : list (Z * Q);
  coeffs : Q * Q;
  last_day_ord : Z;
  preds : list Q;
  total_forecast : Q;
  avg_daily_spend : Q
}.

Definition project (daily : list (Z * Q)) : projection :=
  let c := polyfit daily in
  let last := max_ord (map fst daily) in
  let fp := future_preds c last in
  {| daily_expenses := daily;
     coeffs := c;
     last_day_ord := last;
     preds := fp;
     total_forecast := Qsum fp;
     avg_daily_spend := Qsum (map snd daily) / inject_Z (Z.of_nat (List.length daily)) |}.

Inductive forecast : Type :=
| NotEnoughData
| NotEnoughExpense
| Projected (p : projection).

Definition forecast_of (L : library) (df : table) : outcome forecast :=
  if (List.length df <? 3)%nat then Returns NotEnoughData
  else
    let e := expense_df df in
    if (List.length e <? 3)%nat then Returns NotEnoughExpense
    else
      match dated L e with
      | Raises x => Raises x
      | Returns rows => Returns (Projected (project (groupby_sum Z.compare rows)))
      end.

Definition render (f : forecast) : string :=
  match f with
  | NotEnoughData =>
      "Not enough transaction data to generate a forecast. Please add more entries."
  | NotEnoughExpense =>
      "Not enough expense data to generate a forecast. Please add more expense entries."
  | Projected p =>
      "### 🗓️ 30-Day Expense Forecast" ++ PyStr.nl ++ PyStr.nl
      ++ "Based on your recent spending habits, you are projected to spend approximately **₹"
      ++ Fmt.money (total_forecast p) ++ "** over the next 30 days." ++ PyStr.nl ++ PyStr.nl
      ++ "*Your average daily spend has been **₹" ++ Fmt.money (avg_daily_spend p) ++ "**.*"
      ++ PyStr.nl ++ PyStr.nl
      ++ "> **Disclaimer:** This is a simple trend-based projection and may not account for large, irregular expenses."
  end.

Definition get_forecast (L : library) (df : table) : outcome string :=
  map_outcome render (forecast_of L df).

End Analytics.

(* ================================================================== *)
(** ** core/ai_services.py *)
(* ================================================================== *)

Module AiServices.

Import Effects Data PyStr.
Local Open Scope string_scope.
Local Open Scope io_scope.

Definition category_prompt (description : string) : string :=
  "Categorize the following transaction into one of these: Income, Rent/EMI, Groceries, Utilities, Transport, Investment, Other. Transaction: '"
  ++ description ++ "'".

(** Uses the Granite model for transaction categorization; falls back to
    ["Other"] on error. *)
Definition get_transaction_category (S : services) (description : string) : io string :=
  try_except (granite S (category_prompt description) "/predict")
             (fun _ => ret "Other").

Definition classifier_prompt (user_query : string) : string :=
  nl ++ "    You are an intelligent routing system for a financial assistant app. Classify the user's request into ONE of the following categories based on their query. Respond with only the category name."
  ++ nl ++ nl
  ++ "    Categories:" ++ nl
  ++ "    - 'BUDGETING': For questions about creating or analyzing a spending budget." ++ nl
  ++ "    - 'FORECASTING': For questions about future spending projections or predictions." ++ nl
  ++ "    - 'CATEGORIZATION': For direct requests to categorize a single transaction description (e.g., "
  ++ dq ++ "categorize starbucks coffee" ++ dq ++ ")." ++ nl
  ++ "    - 'SAVINGS_INVESTMENT': For questions about saving money, investment plans, or financial goals." ++ nl
  ++ "    - 'TAX_INFO': For questions related to income tax, deductions, or tax planning." ++ nl
  ++ "    - 'CASH_MANAGEMENT': For questions about cash flow, income vs. expenses, or managing money." ++ nl
  ++ "    - 'REPORT_SUMMARY': For requests to summarize spending, find top expenses, or general data analysis." ++ nl
  ++ "    - 'GENERAL_QUERY': For all other financial questions, advice, or conversations." ++ nl
  ++ nl
  ++ "    User request: " ++ dq ++ user_query ++ dq ++ nl
  ++ "    Category:" ++ nl
  ++ "    ".

Definition GENERAL_QUERY_PROMPT : string :=
  "You are FinBuddy, a helpful and friendly financial assistant. Answer the user's question concisely and clearly based on their request and the provided context of their recent financial transactions.".

(** [system_prompts.get(intent, system_prompts["GENERAL_QUERY"])] *)
Definition system_prompts_get (intent : string) : string :=
  if intent =? "BUDGETING" then
    "You are a helpful financial advisor. Create a simple, actionable monthly budget based on the user's request and their transaction history. Present it clearly in markdown."
  else if intent =? "SAVINGS_INVESTMENT" then
    "You are a financial planning assistant. Provide guidance on savings strategies or investment options based on the user's query and financial data. Include a disclaimer that this is not professional financial advice."
  else if intent =? "TAX_INFO" then
    "You are a tax information assistant for India. Answer user questions about income tax concepts clearly and concisely. Include a disclaimer that you are not a certified tax professional and the user should consult one for official advice."
  else if intent =? "CASH_MANAGEMENT" then
    "You are a financial analyst. Explain concepts of cash flow and analyze the provided transaction data to give insights on managing income and expenses."
  else if intent =? "REPORT_SUMMARY" then
    "You are a data analyst. Summarize the provided transaction history, highlighting key insights like top spending categories, spending trends, and total income vs. expenses. Use markdown for clear formatting."
  else GENERAL_QUERY_PROMPT.

(** [df.sort_values(by="date", ascending=False).head(20).to_string(index=False)],
    or the placeholder for an empty table.  Dates are compared as texts. *)
Definition context_snippet (L : library) (df : table) : string :=
  match df with
  | [] => "No transactions yet."
  | _ => df_to_string L
           (firstn 20 (sort (fun x y => String.leb (date y) (date x)) df))
  end.

(** [user_query.lower().replace("categorize", "").strip()] *)
Definition description_of (user_query : string) : string :=
  strip (replace "categorize" EmptyString (lower user_query)).

(** The two [except] clauses. *)
Definition apology (e : exn) : string :=
  match e with
  | GoogleAPICallError d =>
      "Sorry, there was an issue with the AI service: API call failed. Details: " ++ d
  | PyException d =>
      "An unexpected error occurred while processing your request: " ++ d
  end.

(** Intelligent router: classify the intent, then answer with the matching
    tool or model. *)
Definition get_ai_response (S : services) (L : library)
    (user_query : string) (df : table) : io string :=
  let context := context_snippet L df in
  try_except
    (response <- gemini S (classifier_prompt user_query) (Some 20%N) ;;
     let intent := upper (strip response) in
     if contains "CATEGORIZATION" intent then
       let description := description_of user_query in
       category <- get_transaction_category S description ;;
       ret ("The transaction '" ++ description ++ "' is best categorized as: **"
            ++ category ++ "**")
     else if contains "FORECASTING" intent then
       lift (Analytics.get_forecast L df)
     else
       let system_prompt := system_prompts_get intent in
       let full_prompt :=
         system_prompt ++ nl ++ nl ++ "User Request: " ++ user_query ++ nl ++ nl
         ++ "Transaction History (for context):" ++ nl ++ context in
       gemini S full_prompt None)
    (fun e => ret (apology e)).

End AiServices.

(* ================================================================== *)
(** ** ui/forecast.py *)
(* ================================================================== *)

Module Forecast.

Import Effects Data PyStr.
Local Open Scope string_scope.

(** A row after [_prep_df]: the date is a calendar day (its ordinal) and the
    flag [is_income] has been added. *)
Record prow : Type := mk_prow {
  p_date : Z;
  p_category : string;
  p_amount : Q;
  p_note : string;
  is_income : bool
}.

Definition _to_date (L : library) (x : string) : option Z :=
  match to_datetime L x with
  | Returns d => Some d
  | Raises _ => None
  end.

(** Rows whose date does not parse are dropped;
    [is_income = category.strip().lower() == "income"]. *)
Definition _prep_df (L : library) (df : table) : list prow :=
  flat_map
    (fun r =>
       match _to_date L (date r) with
       | None => []
       | Some d =>
           [ {| p_date := d;
                p_category := category r;
                p_amount := amount r;
                p_note := note r;
                is_income := lower (strip (category r)) =? "income" |} ]
       end)
    df.

Definition _window (df : list prow) (start end_ : Z) : list prow :=
  filter (fun r => (start <=? p_date r)%Z && (p_date r <=? end_)%Z) df.

Record spike : Type := mk_spike {
  s_category : string;
  cur : Q;
  prev : Q;
  delta : Q;
  pct_change : Q
}.

Record metrics : Type := mk_metrics {
  period_days : Z;
  today : Z;
  income : Q;
  expense : Q;
  net : Q;
  savings_rate_pct : Q;
  top_categories : list (string * Q);
  prev_income : Q;
  prev_expense : Q;
  prev_net : Q;
  category_spikes : list spike
}.

(** [df.loc[mask, "amount"].sum()] *)
Definition sum_where (mask : prow -> bool) (df : list prow) : Q :=
  Qsum (map p_amount (filter mask df)).

(** [df.loc[~df["is_income"]].groupby("category")["amount"].sum()] *)
Definition expense_by_category (df : list prow) : list (string * Q) :=
  groupby_sum String.compare
    (map (fun r => (p_category r, p_amount r))
         (filter (fun r => negb (is_income r)) df)).

(** Descending by amount. *)
Definition larger_first (x y : string * Q) : bool := Qle_bool (snd y) (snd x).

(** [.sort_values(ascending=False).head(5).to_dict()] *)
Definition top5 (by_cat : list (string * Q)) : list (string * Q) :=
  firstn 5 (sort larger_first by_cat).

(** One pass of the loop over [by_cat.items()]. *)
Definition spike_of (prev_by_cat : list (string * Q)) (cv : string * Q) : spike :=
  let (cat, v) := cv in
  let pv := get String.compare cat 0 prev_by_cat in
  let change := v - pv in
  let pct :=
    if Qlt_le_dec 0 pv then change / pv * 100
    else if Qlt_le_dec 0 v then 100 else 0 in
  {| s_category := cat; cur := v; prev := pv; delta := change; pct_change := pct |}.

(** Order of the tuples [(-pct_change, -delta)]. *)
Definition key_le (x y : spike) : bool :=
  match Qcompare (- pct_change x) (- pct_change y) with
  | Lt => true
  | Gt => false
  | Eq => Qle_bool (- delta x) (- delta y)
  end.

(** [sorted(spikes, key=lambda x: (-x["pct_change"], -x["delta"]))[:3]] *)
Definition top_spikes (spikes : list spike) : list spike :=
  firstn 3 (sort key_le spikes).

Definition _last_n_days_metrics (df : list prow) (days : Z) (today : Z) : metrics :=
  let start := (today - (days - 1))%Z in
  let prev_start := (start - days)%Z in
  let prev_end := (start - 1)%Z in
  let cur := _window df start today in
  let prev := _window df prev_start prev_end in
  let cur_income := sum_where is_income cur in
  let cur_exp := sum_where (fun r => negb (is_income r)) cur in
  let cur_net := cur_income - cur_exp in
  let cur_savings_rate :=
    if Qlt_le_dec 0 cur_income then cur_net / cur_income * 100 else 0 in
  let prev_income := sum_where is_income prev in
  let prev_exp := sum_where (fun r => negb (is_income r)) prev in
  let prev_net := prev_income - prev_exp in
  let by_cat := top5 (expense_by_category cur) in
  let prev_by_cat := expense_by_category prev in
  let spikes := top_spikes (map (spike_of prev_by_cat) by_cat) in
  {| period_days := days;
     today := today;
     income := cur_income;
     expense := cur_exp;
     net := cur_net;
     savings_rate_pct := cur_savings_rate;
     top_categories := by_cat;
     prev_income := prev_income;
     prev_expense := prev_exp;
     prev_net := prev_net;
     category_spikes := spikes |}.


(** Sum of the expenses of category [c] dated from [lo] to [hi]. *)
Definition spent (df : list prow) (lo hi : Z) (c : string) : Q :=
  Qsum (map p_amount
          (filter (fun r => (lo <=? p_date r)%Z && (p_date r <=? hi)%Z
                            && negb (is_income r) && String.eqb (p_category r) c)
                  df)).

(** Python's [max(a, b)]: [a] unless [b] is greater. *)
Definition max2 (a b : Q) : Q := if Qlt_le_dec a b then b else a.

(** [max((s["pct_change"] for s in spikes), default=0)] *)
Definition big_spike_of (spikes : list spike) : Q :=
  match spikes with
  | [] => 0
  | s :: rest => fold_left max2 (map pct_change rest) (pct_change s)
  end.

Definition _local_status (m : metrics) : string * string :=
  let inc := income m in
  let exp := expense m in
  let net := net m in
  let sr := savings_rate_pct m in
  let big_spike := big_spike_of (category_spikes m) in
  if Qle_bool inc 0 && negb (Qle_bool exp 0) then ("THUNDERSTORMS", "⛈️")
  else if Qle_bool 0 net && Qle_bool 20 sr && negb (Qle_bool 15 big_spike)
  then ("CLEAR_SKIES", "☀️")
  else if Qle_bool 0 net && (Qle_bool 5 sr || negb (Qle_bool 25 big_spike))
  then ("PARTLY_CLOUDY", "🌤️")
  else if negb (Qle_bool 0 net) && Qle_bool (Qabs net) ((2 # 10) * max2 inc 1)
  then ("LIGHT_SHOWERS", "🌧️")
  else ("THUNDERSTORMS", "⛈️").

(** Text renderings the prompt needs and the repository leaves to Python:
    [str(float)] and [json.dumps] of the two collections. *)
Record printers : Type := {
  str_float : Q -> string;
  dumps_categories : list (string * Q) -> string;
  dumps_spikes : list spike -> string
}.

(** [PROMPT.format(...)] *)
Definition PROMPT (P : printers) (m : metrics) : string :=
  "You are a concise finance coach. The app computed summary metrics for the last "
  ++ Fmt.int (period_days m) ++ " days." ++ nl
  ++ "Using the WEATHER metaphor, output a short forecast and one to three next steps." ++ nl
  ++ "Pick EXACTLY ONE status from this set:" ++ nl
  ++ "- CLEAR_SKIES (☀️): everything on track." ++ nl
  ++ "- PARTLY_CLOUDY (🌤️): mostly fine, a few minor issues." ++ nl
  ++ "- LIGHT_SHOWERS (🌧️): caution; noticeable overspend or savings risk." ++ nl
  ++ "- THUNDERSTORMS (⛈️): critical issues; urgent action." ++ nl
  ++ nl
  ++ "Return strictly valid JSON (no markdown, no backticks):" ++ nl
  ++ "{" ++ nl
  ++ "  " ++ dq ++ "status" ++ dq ++ ": " ++ dq
  ++ "CLEAR_SKIES|PARTLY_CLOUDY|LIGHT_SHOWERS|THUNDERSTORMS" ++ dq ++ "," ++ nl
  ++ "  " ++ dq ++ "emoji" ++ dq ++ ": " ++ dq ++ "☀️|🌤️|🌧️|⛈️" ++ dq ++ "," ++ nl
  ++ "  " ++ dq ++ "headline" ++ dq ++ ": " ++ dq ++ "one-sentence summary" ++ dq ++ "," ++ nl
  ++ "  " ++ dq ++ "explanation" ++ dq ++ ": " ++ dq
  ++ "2-3 short sentences using the numbers in plain English" ++ dq ++ "," ++ nl
  ++ "  " ++ dq ++ "actions" ++ dq ++ ": [" ++ dq ++ "action 1" ++ dq ++ ", "
  ++ dq ++ "action 2" ++ dq ++ ", " ++ dq ++ "action 3" ++ dq ++ "]," ++ nl
  ++ "  " ++ dq ++ "score" ++ dq ++ ": 0-100" ++ nl
  ++ "}" ++ nl
  ++ nl
  ++ "Numbers (INR):" ++ nl
  ++ "current_income: " ++ str_float P (income m) ++ nl
  ++ "current_expense: " ++ str_float P (expense m) ++ nl
  ++ "current_net: " ++ str_float P (net m) ++ nl
  ++ "savings_rate_pct: " ++ str_float P (savings_rate_pct m) ++ nl
  ++ "previous_income: " ++ str_float P (prev_income m) ++ nl
  ++ "previous_expense: " ++ str_float P (prev_expense m) ++ nl
  ++ "previous_net: " ++ str_float P (prev_net m) ++ nl
  ++ "top_categories: " ++ dumps_categories P (top_categories m) ++ nl
  ++ "category_spikes: " ++ dumps_spikes P (category_spikes m) ++ nl
  ++ nl
  ++ "Rules:" ++ nl
  ++ "- Negative net or >25% category spikes → lean 🌧️/⛈️ with specific actions." ++ nl
  ++ "- Positive net AND savings rate ≥20% and no big spikes → lean ☀️." ++ nl
  ++ "- Keep under ~80 words total." ++ nl.

Definition _call_gemini (S : services) (P : printers) (m : metrics) : io string :=
  gemini S (PROMPT P m) None.

(** [json.loads(text)], and on failure [json.loads] of the text between the
    first opening and the last closing brace; Python's [None] is [JNull]. *)
Definition _parse_json_maybe (L : library) (text : string) : json :=
  match json_loads L text with
  | Some v => v
  | None =>
      let start := find "{" text in
      let end_ := rfind "}" text in
      if negb (start =? -1)%Z && negb (end_ =? -1)%Z && (start <? end_)%Z
      then match json_loads L (slice start (end_ + 1) text) with
           | Some v => v
           | None => JNull
           end
      else JNull
  end.

(** Truth value of a Python object. *)
Definition truthy (v : json) : bool :=
  match v with
  | JNull => false
  | JBool b => b
  | JNum q => negb (Qeq_bool q 0)
  | JStr s => negb (s =? EmptyString)
  | JArr items => match items with [] => false | _ => true end
  | JObj fields => match fields with [] => false | _ => true end
  end.

(** [key in obj]: keys of a dict, elements of a list, substrings of a text;
    a [TypeError] on numbers and booleans. *)
Definition py_in (key : string) (obj : json) : outcome bool :=
  match obj with
  | JObj fields => Returns (existsb (fun kv => fst kv =? key) fields)
  | JArr items =>
      Returns (existsb (fun x => match x with JStr s => s =? key | _ => false end) items)
  | JStr s => Returns (contains key s)
  | JNull | JBool _ | JNum _ => Raises (PyException "argument is not iterable")
  end.

Definition _fallback_headline (status : string) (m : metrics) : string :=
  if status =? "CLEAR_SKIES" then
    "Clear skies — healthy net (₹" ++ Fmt.commas0 (net m) ++ ") and "
    ++ Fmt.fixed0 (savings_rate_pct m) ++ "% savings rate."
  else if status =? "PARTLY_CLOUDY" then
    "Partly cloudy — mostly on track with a few minor hotspots."
  else if status =? "LIGHT_SHOWERS" then
    "Light showers — caution: spending is pressuring savings."
  else "Thunderstorms — urgent attention needed to stabilize cash flow.".

(** The verdict both fallback branches build from the local rule. *)
Definition local_verdict (m : metrics) : json :=
  let (status, emoji) := _local_status m in
  JObj [ ("status", JStr status);
         ("emoji", JStr emoji);
         ("headline", JStr (_fallback_headline status m));
         ("explanation", JStr EmptyString);
         ("actions", JArr [JStr "Pre-commit a small saving";
                           JStr "Cap top category for 2 weeks"]);
         ("score", JNum (if (status =? "CLEAR_SKIES") || (status =? "PARTLY_CLOUDY")
                         then 65 else 35)) ].

(** Second component of the result: [{"period_days": days}] for an empty
    table, the full snapshot otherwise. *)
Inductive metrics_dict : Type :=
| PeriodOnly (days : Z)
| Snapshot (m : metrics).

(** [_prep_df(projects.get(proj) if proj in projects else None)] *)
Definition selected_df (L : library) (st : session) : list prow :=
  match selected_project st with
  | None => []
  | Some proj =>
      match lookup proj (projects st) with
      | Some t => _prep_df L t
      | None => []
      end
  end.

(** [err] is the second component of [_get_gemini()]: [None] when a model
    is available. *)
Definition compute_forecast (S : services) (L : library) (P : printers)
    (err : option string) (st : session) (days today : Z)
  : io (json * metrics_dict) :=
  let df := selected_df L st in
  match df with
  | [] => ret (JObj [("empty", JBool true)], PeriodOnly days)
  | _ =>
      let metrics := _last_n_days_metrics df days today in
      match err with
      | Some _ => ret (local_verdict metrics, Snapshot metrics)
      | None =>
          bind
            (try_except
               (bind (_call_gemini S P metrics)
                     (fun raw =>
                        let v := _parse_json_maybe L raw in
                        ret (if truthy v then v else JObj [])))
               (fun _ => ret (JObj [])))
            (fun obj =>
               if negb (truthy obj)
               then ret (local_verdict metrics, Snapshot metrics)
               else
                 bind (lift (py_in "status" obj))
                      (fun has_status =>
                         if negb has_status
                         then ret (local_verdict metrics, Snapshot metrics)
                         else ret (obj, Snapshot metrics)))
      end
  end.

End Forecast.

(* ================================================================== *)
(** ** [decimal.Decimal] and [float] *)
(* ================================================================== *)

Module Dec.

Import PyStr.
Local Open Scope string_scope.

(** A finite [Decimal]: [(-1)^negative * coefficient * 10^exponent], as
    [as_tuple()] shows it. *)
Record decimal : Type := mk_decimal {
  negative : bool;
  coefficient : N;
  exponent : Z
}.

Definition value (d : decimal) : Q :=
  (if negative d then -1 else 1) * inject_Z (Z.of_N (coefficient d)) * 10 ^ exponent d.

Definition digit_val (c : ascii) : N := (code c - 48)%N.

Fixpoint digits_value (s : string) (acc : N) : N :=
  match s with
  | EmptyString => acc
  | String c r => digits_value r (10 * acc + digit_val c)%N
  end.

Fixpoint all_digits (s : string) : bool :=
  match s with
  | EmptyString => true
  | String c r => is_digit c && all_digits r
  end.

(** [Decimal(s)] on texts made of digits and points, which is all the
    sanitised amount text can hold: digits, optionally a point and more
    digits, at least one digit in all; [None] stands for
    [InvalidOperation]. *)
Definition of_string (s : string) : option decimal :=
  match split "." s with
  | [int_part] =>
      if all_digits int_part && negb (int_part =? EmptyString)
      then Some (mk_decimal false (digits_value int_part 0) 0)
      else None
  | [int_part; frac_part] =>
      if all_digits int_part && all_digits frac_part
         && negb ((int_part =? EmptyString) && (frac_part =? EmptyString))
      then Some (mk_decimal false
                   (digits_value (int_part ++ frac_part) 0)
                   (- Z.of_nat (length frac_part)))
      else None
  | _ => None
  end.

(** [n / 10^shift] rounded to the nearest integer, ties to even. *)
Definition div_half_even (n : N) (shift : Z) : N :=
  let p := (10 ^ Z.to_N shift)%N in
  let q := (n / p)%N in
  let r := (n mod p)%N in
  match (2 * r ?= p)%N with
  | Lt => q
  | Gt => (q + 1)%N
  | Eq => if N.even q then q else (q + 1)%N
  end.

(** Precision of the default context. *)
Definition PREC : N := 28.

(** [d.quantize(Decimal("0.0000000001"))] under the default context
    (ROUND_HALF_EVEN); [None] stands for [InvalidOperation], raised when
    the result would need more than [PREC] digits. *)
Definition quantize10 (d : decimal) : option decimal :=
  let c :=
    if (-10 <=? exponent d)%Z
    then (coefficient d * 10 ^ Z.to_N (exponent d + 10))%N
    else div_half_even (coefficient d) (-10 - exponent d) in
  if (c <? 10 ^ PREC)%N then Some (mk_decimal (negative d) c (-10)) else None.

End Dec.

Module Float.

(** [floor(log2 q)] for [0 < q]. *)
Definition ilog2 (q : Q) : Z :=
  let e0 := (Z.log2 (Qnum q) - Z.log2 (Zpos (Qden q)))%Z in
  if Qle_bool (2 ^ e0) q then e0 else (e0 - 1)%Z.

(** Nearest binary64 to a positive rational, ties to even; subnormals
    included, overflow to infinity not represented. *)
Definition round_pos (q : Q) : Q :=
  let e := Z.max (ilog2 q) (-1022) in
  let ulp := 2 ^ (e - 52) in
  inject_Z (Fmt.round_half_even (q / ulp)) * ulp.

(** [float(x)] for an exact [x]. *)
Definition of_Q (q : Q) : Q :=
  match Qcompare q 0 with
  | Eq => 0
  | Gt => round_pos q
  | Lt => - round_pos (- q)
  end.

(** [float(d)] for a [Decimal]. *)
Definition of_decimal (d : Dec.decimal) : Q := of_Q (Dec.value d).

End Float.

(* ================================================================== *)
(** ** ui/sidebar.py *)
(* ================================================================== *)

Module Sidebar.

Import Effects Data PyStr Dec.
Local Open Scope string_scope.

(** [Decimal("999999999999.9999999999")]: 12 digits and 10 decimals. *)
Definition MAX_AMOUNT_DEC : decimal :=
  mk_decimal false 9999999999999999999999 (-10).
Definition SLIDER_MIN : Q := 0.
Definition SLIDER_MAX : Q := 100000.

(** U+00A0 in UTF-8 *)
Definition NBSP : string := String (ascii_of_N 194) (String (ascii_of_N 160) EmptyString).

Fixpoint filter_chars (keep : ascii -> bool) (s : string) : string :=
  match s with
  | EmptyString => EmptyString
  | String c r => if keep c then String c (filter_chars keep r) else filter_chars keep r
  end.

(** The characters [[^\d\.]] does not match: the (ASCII) digits and the
    point. *)
Definition amount_char (c : ascii) : bool := is_digit c || (code c =? 46)%N.

(** [re.compile(r"[^\d\.]").sub("", t)]: keep digits and the point. *)
Definition _amount_sanitize (t : string) : string := filter_chars amount_char t.

Definition _normalize_amount_text (text : string) : string :=
  if text =? EmptyString then EmptyString
  else
    let t := strip text in
    let t := replace "," " " t in
    let t := replace NBSP " " t in
    let t := replace "INR" EmptyString t in
    let t := replace "inr" EmptyString t in
    let t := replace "Rs." EmptyString t in
    let t := replace "Rs" EmptyString t in
    let t := replace "rs" EmptyString t in
    let t := replace "रु" EmptyString t in
    let t := replace "₹" EmptyString t in
    let t := _amount_sanitize t in
    let t :=
      if (1 <? count "." t)%nat
      then match split "." t with
           | head :: rest => head ++ "." ++ join rest
           | [] => t
           end
      else t in
    strip t.

(** The [try] covers the constructor only, so a failing [quantize] would
    escape as an exception. *)
Definition _decimal_from_text (text : string) : outcome (option decimal) :=
  let norm := _normalize_amount_text text in
  if norm =? EmptyString then Returns None
  else
    match of_string norm with
    | None => Returns None
    | Some d =>
        if negb (Qle_bool 0 (value d)) || negb (Qle_bool (value d) (value MAX_AMOUNT_DEC))
        then Returns None
        else if (exponent d <? -10)%Z
        then match quantize10 d with
             | Some d' => Returns (Some d')
             | None => Raises (PyException "InvalidOperation")
             end
        else Returns (Some d)
    end.

(** Identity on a table whose amounts are already numbers. *)
Definition _force_numeric (df : table) : table := df.

(** The four cells both editing functions write: [dt] is the text
    [str(dt)] of the chosen date, the amount is [float(amount_dec)], the
    note is [(note or "").strip()]. *)
Definition transaction_row (dt category : string) (amount_dec : decimal)
    (note : string) : row :=
  {| date := dt;
     category := category;
     amount := Float.of_decimal amount_dec;
     note := strip note |}.

Definition _append_transaction (df : table) (dt category : string)
    (amount_dec : decimal) (note : string) : table :=
  _force_numeric (df ++ [transaction_row dt category amount_dec note])%list.

Fixpoint set_row (idx : nat) (r : row) (df : table) : table :=
  match df, idx with
  | [], _ => [r]
  | _ :: rest, O => r :: rest
  | x :: rest, S k => x :: set_row k r rest
  end.

(** [df.loc[idx, col] = ...] for the four columns; labels are positions,
    and a label past the end enlarges the table by one row. *)
Definition _update_transaction (df : table) (idx : nat) (dt category : string)
    (amount_dec : decimal) (note : string) : table :=
  _force_numeric (set_row idx (transaction_row dt category amount_dec note) df).

Inductive amount_mode : Type :=
| UseSlider      (* "Use slider (bar)" *)
| TypeExact.     (* "Type exact value" *)

(** What the three widgets of [amount_block] hold in the session state:
    the radio choice, the slider value as [Decimal(str(val_f))], and the
    content of the text input. *)
Record amount_widgets : Type := {
  amount_mode_of : amount_mode;
  amount_slider : decimal;
  amount_text : string
}.

(** The slider is created with [min_value=SLIDER_MIN], [max_value=SLIDER_MAX]. *)
Definition slider_in_range (w : amount_widgets) : Prop :=
  SLIDER_MIN <= value (amount_slider w) /\ value (amount_slider w) <= SLIDER_MAX.

(** Returns a [Decimal], or [None] if the input is invalid. *)
Definition amount_block (w : amount_widgets) : outcome (option decimal) :=
  match amount_mode_of w with
  | UseSlider =>
      match quantize10 (amount_slider w) with
      | Some d => Returns (Some d)
      | None => Raises (PyException "InvalidOperation")
      end
  | TypeExact => _decimal_from_text (amount_text w)
  end.

Inductive feedback : Type :=
| st_error (msg : string)
| st_success (msg : string).

Definition INVALID_AMOUNT : string :=
  "Please enter a valid amount (up to 999999999999.9999999999).".

Definition current_table (st : session) (proj : string) : table :=
  match lookup proj (projects st) with
  | Some t => _force_numeric t
  | None => []
  end.

Definition set_table (st : session) (proj : string) (t : table) : session :=
  {| projects := store proj t (projects st);
     selected_project := selected_project st |}.

(** The "Add" button. *)
Definition add_clicked (st : session) (proj : string) (w : amount_widgets)
    (add_date add_cat add_note : string) : outcome (session * feedback) :=
  let df := current_table st proj in
  match amount_block w with
  | Raises e => Raises e
  | Returns None => Returns (st, st_error INVALID_AMOUNT)
  | Returns (Some add_amount) =>
      Returns (set_table st proj
                 (_append_transaction df add_date add_cat add_amount add_note),
               st_success ("Added ₹" ++ Fmt.money (Float.of_decimal add_amount)))
  end.

(** The "Save Changes" button. *)
Definition save_clicked (st : session) (proj : string) (selected_idx : nat)
    (w : amount_widgets) (edit_date edit_cat edit_note : string)
  : outcome (session * feedback) :=
  let df := current_table st proj in
  match amount_block w with
  | Raises e => Raises e
  | Returns None => Returns (st, st_error INVALID_AMOUNT)
  | Returns (Some edit_amount) =>
      Returns (set_table st proj
                 (_update_transaction df selected_idx edit_date edit_cat
                    edit_amount edit_note),
               st_success ("Updated to ₹" ++ Fmt.money (Float.of_decimal edit_amount)))
  end.

End Sidebar.

(* ================================================================== *)
(** ** A concrete library for the worked examples *)
(* ================================================================== *)

Module Iso.

Import Effects Data PyStr.
Local Open Scope string_scope.
Local Open Scope Z_scope.

(** [datetime.date.toordinal], as CPython computes it. *)
Definition _is_leap (year : Z) : bool :=
  (year mod 4 =? 0) && (negb (year mod 100 =? 0) || (year mod 400 =? 0)).

Definition _days_before_year (year : Z) : Z :=
  let y := year - 1 in y * 365 + y / 4 - y / 100 + y / 400.

Definition _days_in_month (year month : Z) : Z :=
  if (month =? 2) && _is_leap year then 29
  else nth (Z.to_nat month) [0; 31; 28; 31; 30; 31; 30; 31; 31; 30; 31; 30; 31] 0.

Definition _days_before_month (year month : Z) : Z :=
  nth (Z.to_nat month) [0; 0; 31; 59; 90; 120; 151; 181; 212; 243; 273; 304; 334] 0
  + (if (2 <? month) && _is_leap year then 1 else 0).

Definition _ymd2ord (year month day : Z) : Z :=
  _days_before_year year + _days_before_month year month + day.

Definition number (s : string) : option Z :=
  if Dec.all_digits s && negb (s =? EmptyString)%string
  then Some (Z.of_N (Dec.digits_value s 0)) else None.

(** Dates in the form the sidebar writes them, [YYYY-MM-DD]; any other
    text is refused. *)
Definition to_datetime (s : string) : outcome Z :=
  match number (substring 0 4 s), number (substring 5 2 s), number (substring 8 2 s) with
  | Some y, Some m, Some d =>
      if (String.length s =? 10)%nat
         && (substring 4 1 s =? "-")%string && (substring 7 1 s =? "-")%string
         && (1 <=? y) && (1 <=? m) && (m <=? 12)
         && (1 <=? d) && (d <=? _days_in_month y m)
      then Returns (_ymd2ord y m d)
      else Raises (PyException ("Unknown datetime string format, unable to parse: " ++ s))
  | _, _, _ => Raises (PyException ("Unknown datetime string format, unable to parse: " ++ s))
  end.

(** One line per row, columns separated by a blank. *)
Definition df_to_string (t : table) : string :=
  String.concat nl
    (" date category amount note"
       :: map (fun r => date r ++ " " ++ category r ++ " "
                        ++ Fmt.money (amount r) ++ " " ++ note r) t).

(** A loader that knows the empty object and [null]. *)
Definition json_loads (s : string) : option json :=
  if (s =? "{}")%string then Some (JObj [])
  else if (s =? "null")%string then Some JNull
  else None.

Definition lib : library :=
  {| Data.to_datetime := to_datetime;
     Data.df_to_string := df_to_string;
     Data.json_loads := json_loads |}.

End Iso.

(** Sample services and tables for the worked examples. *)
Module Demo.

Import Effects Data.
Local Open Scope string_scope.


(** Every Gemini request fails at the API level. *)
Definition gemini_down : services :=
  {| generate_content := fun _ _ => Raises (GoogleAPICallError "503 Service Unavailable");
     predict := fun _ _ => Returns "Other" |}.

(** Gemini answers every request with a plain sentence. *)
Definition gemini_chatty : services :=
  {| generate_content := fun _ _ => Returns "Sunny with a chance of savings";
     predict := fun _ _ => Returns "Other" |}.

(** Three expenses of 10, 20 and 30 on three consecutive days. *)
Definition rising : table :=
  [ mk_row "2024-01-01" "Groceries" 10 EmptyString;
    mk_row "2024-01-02" "Groceries" 20 EmptyString;
    mk_row "2024-01-03" "Groceries" 30 EmptyString ].

(** A salary entered with a lower-case category, and two expenses. *)
Definition salary_row : row := mk_row "2024-01-01" "income" 1000 "salary".
Definition lowercase_income : table :=
  [ salary_row;
    mk_row "2024-01-02" "Groceries" 20 EmptyString;
    mk_row "2024-01-03" "Transport" 30 EmptyString ].

(** Earnings and spending that cancel out. *)
Definition break_even : table :=
  [ mk_row "2024-01-02" "Income" 100 EmptyString;
    mk_row "2024-01-03" "Rent" 100 EmptyString ].

(** Two months of entries around the turn of the year. *)
Definition two_months : table :=
  [ mk_row "2023-11-20" "Groceries" 100 EmptyString;
    mk_row "2023-11-25" "Rent" 500 EmptyString;
    mk_row "2023-12-20" "Groceries" 150 EmptyString;
    mk_row "2023-12-28" "Rent" 500 EmptyString;
    mk_row "2024-01-01" "Income" 2000 EmptyString;
    mk_row "2024-01-02" "Dining" 80 EmptyString ].

Definition one_project (t : table) : session :=
  {| projects := [("Default", t)]; selected_project := Some "Default" |}.

Definition plain_printers : Forecast.printers :=
  {| Forecast.str_float := Fmt.money;
     Forecast.dumps_categories := fun _ => "{}";
     Forecast.dumps_spikes := fun _ => "[]" |}.

(** 2024-01-03 as an ordinal. *)
Definition jan3 : Z := 738888.

End Demo.

(* ================================================================== *)
(** ** ui/sidebar.py: deleting a transaction, creating a project *)
(* ================================================================== *)

Module Projects.

Import Effects Data PyStr Sidebar.
Local Open Scope string_scope.

(** [df.drop(index=idx).reset_index(drop=True)]: labels are positions;
    [None] stands for the [KeyError] of a label that is not there. *)
Fixpoint drop_row (idx : nat) (df : table) : option table :=
  match df, idx with
  | [], _ => None
  | _ :: rest, O => Some rest
  | x :: rest, S k =>
      match drop_row k rest with
      | Some rest' => Some (x :: rest')
      | None => None
      end
  end.

(** The "Delete" button. *)
Definition delete_clicked (st : session) (proj : string) (selected_idx : nat)
  : outcome (session * feedback) :=
  let df := current_table st proj in
  match drop_row selected_idx df with
  | None =>
      Raises (PyException ("'[" ++ Fmt.int (Z.of_nat selected_idx)
                           ++ "] not found in axis'"))
  | Some new_df =>
      Returns (set_table st proj (_force_numeric new_df),
               st_success "Transaction deleted.")
  end.

(** [name in st.session_state.projects] *)
Definition has_project (name : string) (st : session) : bool :=
  match lookup name (projects st) with
  | Some _ => true
  | None => false
  end.

(** The "Create" button of the new-project expander; [name] is what the
    text input holds. *)
Definition create_clicked (st : session) (name : string) : session * feedback :=
  let name := strip name in
  if negb (name =? EmptyString) && negb (has_project name st)
  then ({| projects := store name [] (projects st);
           selected_project := Some name |},
        st_success ("Project '" ++ name ++ "' created."))
  else (st, st_error "Name cannot be empty or already exist.").

(** What the sidebar guarantees about a stored table: every amount is a
    float between 0 and 10^12. *)
Definition amounts_bounded (t : table) : Prop :=
  Forall (fun r => (0 <= amount r /\ amount r <= 1000000000000)%Q) t.

End Projects.

(** No character of [s] is [c]. *)
Definition lacks (c : ascii) (s : string) : bool :=
  PyStr.all_chars (fun x => negb (Ascii.eqb x c)) s.

(** Later dates first, dates compared as the texts they are stored as. *)
Definition latest_first (x y : Data.row) : Prop :=
  String.leb (Data.date y) (Data.date x) = true.


(* ================================================================== *)
(** ** core/stock_market.py *)
(* ================================================================== *)

Module StockMarket.

Import Effects Data PyStr.
Local Open Scope string_scope.

Definition info_dict : Type := list (string * json).

(** [key in info] *)
Definition has_key (key : string) (info : info_dict) : bool :=
  existsb (fun kv => fst kv =? key) info.

Section Fetch.

(** The price history, a [DataFrame] the function only hands on. *)
Variable History : Type.

(** [yfinance], as far as [get_stock_data] uses it:
    - [yf_import]: the exception of [import yfinance], if any;
    - [ticker_info s]: [yf.Ticker(s).info];
    - [ticker_history s]: [yf.Ticker(s).history(period="1y")];
    - [nonempty_frame h]: [isinstance(h, pd.DataFrame) and not h.empty];
    - [datetime_index h]: [h] with [pd.to_datetime(h.index)] as index, [None]
      when that conversion raises. *)
Record yfinance : Type := {
  yf_import : option exn;
  ticker_info : string -> outcome (option info_dict);
  ticker_history : string -> outcome History;
  nonempty_frame : History -> bool;
  datetime_index : History -> option History
}.

Inductive fetch : Type :=
| InfoFetch (symbol : string)
| HistoryFetch (symbol : string).

(** [(info, hist)] or [(None, error_str)]. *)
Inductive stock_data : Type :=
| Quote (info : info_dict) (hist : History)
| NoData (error_str : string).

Definition get_stock_data (Y : yfinance) (ticker_symbol : string)
  : stock_data * list fetch :=
  match yf_import Y with
  | Some e => (NoData ("yfinance not installed or failed to import: " ++ str_exn e), [])
  | None =>
      let ticker_symbol := strip ticker_symbol in
      if ticker_symbol =? EmptyString then (NoData "Empty ticker symbol.", [])
      else
        match ticker_info Y ticker_symbol with
        | Raises e =>
            (NoData ("Error while fetching data: " ++ str_exn e),
             [InfoFetch ticker_symbol])
        | Returns i =>
            let info := match i with
                        | Some ((_ :: _) as d) => d
                        | _ => []
                        end in
            let has_price :=
              has_key "currentPrice" info || has_key "regularMarketPrice" info in
            if negb has_price
            then (NoData ("Could not find data for '" ++ ticker_symbol ++ "'. "
                          ++ "Check the symbol (e.g., 'MSFT' for US, 'RELIANCE.NS' for India)."),
                  [InfoFetch ticker_symbol])
            else
              match ticker_history Y ticker_symbol with
              | Raises e =>
                  (NoData ("Error while fetching data: " ++ str_exn e),
                   [InfoFetch ticker_symbol; HistoryFetch ticker_symbol])
              | Returns hist =>
                  let hist :=
                    if nonempty_frame Y hist
                    then match datetime_index Y hist with
                         | Some h => h
                         | None => hist
                         end
                    else hist in
                  (Quote info hist,
                   [InfoFetch ticker_symbol; HistoryFetch ticker_symbol])
              end
        end
  end.

End Fetch.

Arguments NoData {History} error_str.

(** [get_ai_response(prompt)]: the router takes [(user_query, df)], so the
    call with one positional argument raises before its body runs. *)
Definition get_ai_response_1 (prompt : string) : io string :=
  raise (PyException
           "get_ai_response() missing 1 required positional argument: 'df'").

(** [relevant_info] holds twelve entries read with [info.get]; the price is
    [info.get("currentPrice") or info.get("regularMarketPrice")]. *)
Fixpoint dict_get (key : string) (info : info_dict) : json :=
  match info with
  | [] => JNull
  | (k, v) :: rest => if k =? key then v else dict_get key rest
  end.

Definition relevant_info (info : info_dict) : info_dict :=
  [ ("Company Name", dict_get "longName" info);
    ("Symbol", dict_get "symbol" info);
    ("Sector", dict_get "sector" info);
    ("Industry", dict_get "industry" info);
    ("Business Summary", dict_get "longBusinessSummary" info);
    ("Current Price",
     if Forecast.truthy (dict_get "currentPrice" info)
     then dict_get "currentPrice" info
     else dict_get "regularMarketPrice" info);
    ("Market Cap", dict_get "marketCap" info);
    ("52-Week High", dict_get "fiftyTwoWeekHigh" info);
    ("52-Week Low", dict_get "fiftyTwoWeekLow" info);
    ("Volume", dict_get "volume" info);
    ("P/E Ratio", dict_get "trailingPE" info);
    ("Currency", dict_get "currency" info) ].

(** [json_dumps] is [json.dumps(..., ensure_ascii=False)]. *)
Definition analysis_prompt (json_dumps : info_dict -> string) (info : info_dict)
  : string :=
  strip
    (nl ++ "You are a financial data analyst. Provide a neutral, objective summary of the company" ++ nl
     ++ "based ONLY on the JSON below. Do NOT give investment advice." ++ nl
     ++ nl
     ++ "JSON:" ++ nl
     ++ json_dumps (relevant_info info) ++ nl
     ++ nl
     ++ "FORMAT:" ++ nl
     ++ "1) 1 short paragraph describing the business." ++ nl
     ++ "2) Key metrics as concise bullet points." ++ nl
     ++ "3) " ++ dq ++ "Fundamental Snapshot" ++ dq
     ++ " with 2â€“3 neutral observations (e.g., what a high/low P/E might imply)." ++ nl
     ++ "4) Mandatory disclaimer:" ++ nl
     ++ "   " ++ dq ++ "Disclaimer: This is an AI-generated analysis based on public data and is for informational purposes only." ++ nl
     ++ "    It is not financial advice. Please consult a qualified financial advisor before making any investment decisions." ++ dq ++ nl
     ++ nl
     ++ "Rules:" ++ nl
     ++ "- Avoid words like buy/sell/hold or prescriptive advice." ++ nl
     ++ "- No price predictions." ++ nl).

Definition get_stock_analysis (json_dumps : info_dict -> string) (info : info_dict)
  : io string :=
  let prompt := analysis_prompt json_dumps info in
  try_except (get_ai_response_1 prompt)
             (fun e => ret ("An error occurred during AI analysis: " ++ str_exn e)).

End StockMarket.

(* ================================================================== *)
(** ** ui/reports.py *)
(* ================================================================== *)

Module Reports.

Import Effects Data PyStr.
Local Open Scope string_scope.

(** [pd.to_datetime(df["date"], errors="coerce")] followed by
    [dropna(subset=["date"])]: the rows whose date parses. *)
Definition dated_rows (L : library) (df : table) : table :=
  filter (fun r => match to_datetime L (date r) with
                   | Returns _ => true
                   | Raises _ => false
                   end) df.

(** [df["category"].str.strip().str.lower() == "income"] *)
Definition income_row (r : row) : bool := lower (strip (category r)) =? "income".

Record key_metrics : Type := {
  total_income : Q;
  total_expense : Q;
  net_savings : Q
}.

(** The three figures of the dashboard; [None] for the early return on an
    empty table. *)
Definition dashboard_metrics (L : library) (df : table) : option key_metrics :=
  match df with
  | [] => None
  | _ =>
      let df := dated_rows L df in
      let total_income := Qsum (map amount (filter income_row df)) in
      let total_expense :=
        Qsum (map amount (filter (fun r => negb (income_row r)) df)) in
      Some {| total_income := total_income;
              total_expense := total_expense;
              net_savings := total_income - total_expense |}
  end.

(** [exp_only.groupby("category", as_index=False)["amount"].sum()
    .sort_values("amount", ascending=False)] *)
Definition cat_sum (L : library) (df : table) : list (string * Q) :=
  sort Forecast.larger_first
    (groupby_sum String.compare
       (map (fun r => (category r, amount r))
            (filter (fun r => negb (income_row r)) (dated_rows L df)))).

End Reports.

(* ================================================================== *)
(** ** ui/planning.py *)
(* ================================================================== *)

Module Planning.

Import Effects Data PyStr.
Local Open Scope string_scope.

Definition BUDGET_PROMPT : string :=
  "Based on my transaction history, create a simple monthly budget plan for me. Suggest categories and amounts.".

(** The "Generate My Budget Plan" button.  [budget_plan] is the entry of
    the session state, [None] when the key is absent or holds [None]. *)
Definition generate_clicked (S : services) (L : library)
    (budget_plan : option string) (df : table) : io (option string) :=
  match budget_plan with
  | None =>
      Effects.bind (AiServices.get_ai_response S L BUDGET_PROMPT df)
                   (fun plan => ret (Some plan))
  | Some plan => ret (Some plan)
  end.

(** What is rendered under the button: the plan if the entry is truthy. *)
Definition plan_shown (budget_plan : option string) : option string :=
  match budget_plan with
  | Some plan => if plan =? EmptyString then None else Some plan
  | None => None
  end.

(** One run of the tab: the forecast panel, then the budget panel.
    [clicked] tells whether the button was pressed in this run.  The
    result is the new [budget_plan] entry, the forecast text and the plan
    that is displayed. *)
Definition render_planning_tab (S : services) (L : library)
    (budget_plan : option string) (clicked : bool) (df : table)
  : io (option string * (string * option string)) :=
  Effects.bind (lift (Analytics.get_forecast L df)) (fun forecast_result =>
  Effects.bind (if clicked then generate_clicked S L budget_plan df
                else ret budget_plan) (fun budget_plan =>
  ret (budget_plan, (forecast_result, plan_shown budget_plan)))).

End Planning.

(* ================================================================== *)
(** ** ui/chat.py *)
(* ================================================================== *)

Module Chat.

Import Effects Data PyStr.
Local Open Scope string_scope.

(** [{"role": ..., "content": ...}] *)
Record message : Type := {
  role : string;
  content : string
}.

(** The entries of the session state the tab uses; [prompt_from_button] is
    [None] when the key is absent or holds [None]. *)
Record chat_state : Type := {
  messages : list message;
  prompt_from_button : option string
}.

(** The two example buttons, drawn only while there are no messages. *)
Inductive click : Type :=
| NoClick
| SummarizeClick
| BudgetClick.

Definition example_prompt (st : chat_state) (clicked : click) : option string :=
  match messages st, clicked with
  | [], SummarizeClick => Some "Summarize my spending"
  | [], BudgetClick => Some "Create a budget for me"
  | _, _ => None
  end.

(** Truth value of a text that may be [None]. *)
Definition nonempty_text (s : option string) : bool :=
  match s with
  | Some (String _ _) => true
  | _ => false
  end.

(** One run of the tab, up to its [st.rerun()] or its end.  [chat_input]
    is what [st.chat_input] returns. *)
Definition render_chat_tab (S : services) (L : library) (df : table)
    (clicked : click) (chat_input : option string) (st : chat_state)
  : io chat_state :=
  match example_prompt st clicked with
  | Some p => ret {| messages := messages st; prompt_from_button := Some p |}
  | None =>
      let pending := nonempty_text (prompt_from_button st) in
      let prompt := if pending then prompt_from_button st else chat_input in
      let button := if pending then None else prompt_from_button st in
      match prompt with
      | Some (String _ _ as prompt) =>
          Effects.bind (AiServices.get_ai_response S L prompt df) (fun response =>
          ret {| messages :=
                   (messages st
                    ++ [ {| role := "user"; content := prompt |};
                         {| role := "assistant"; content := response |} ])%list;
                 prompt_from_button := button |})
      | _ => ret {| messages := messages st; prompt_from_button := button |}
      end
  end.

(** A transcript of whole exchanges: a question, then its answer. *)
Fixpoint exchanges (ms : list message) : bool :=
  match ms with
  | [] => true
  | q :: a :: rest =>
      (role q =? "user") && (role a =? "assistant")
      && negb (content q =? EmptyString) && exchanges rest
  | _ => false
  end.

End Chat.

(* ================================================================== *)
(** ** More sample data *)
(* ================================================================== *)

Module Samples.

Import Effects Data PyStr.
Local Open Scope string_scope.

(** A verdict as JSON text, and an answer that wraps it in prose. *)
Definition verdict_json : string :=
  "{" ++ dq ++ "status" ++ dq ++ ": " ++ dq ++ "HURRICANE" ++ dq ++ "}".

Definition verdict_answer : string := "Sure! " ++ verdict_json ++ " Good luck.".

(** A loader that also knows that verdict. *)
Definition verdict_lib : library :=
  {| to_datetime := Iso.to_datetime;
     df_to_string := Iso.df_to_string;
     json_loads := fun s =>
       if s =? verdict_json then Some (JObj [("status", JStr "HURRICANE")])
       else Iso.json_loads s |}.

Definition gemini_verdict : services :=
  {| generate_content := fun _ _ => Returns verdict_answer;
     predict := fun _ _ => Returns "Other" |}.


(** Three expenses, one of them with a date that is no date. *)
Definition bad_date : table :=
  [ mk_row "2024-01-01" "Groceries" 10 EmptyString;
    mk_row "yesterday" "Groceries" 20 EmptyString;
    mk_row "2024-01-03" "Groceries" 30 EmptyString ].

(** A snapshot with a deficit of 50. *)
Definition deficit : Forecast.metrics :=
  Forecast.mk_metrics 30 Demo.jan3 100 150 (-50) (-50) [] 0 0 0 [].

(** The slider at 30000. *)
Definition slider_30000 : Sidebar.amount_widgets :=
  {| Sidebar.amount_mode_of := Sidebar.UseSlider;
     Sidebar.amount_slider := Dec.mk_decimal false 300000 (-1);
     Sidebar.amount_text := EmptyString |}.

(** A data source that knows one symbol. *)
Definition yahoo : StockMarket.yfinance (list Q) :=
  {| StockMarket.yf_import := None;
     StockMarket.ticker_info := fun s =>
       if s =? "MSFT"
       then Returns (Some [("symbol", JStr "MSFT"); ("currentPrice", JNum 400)])
       else Returns None;
     StockMarket.ticker_history := fun _ => Returns [398; 401; 400]%Q;
     StockMarket.nonempty_frame := fun h => negb (Nat.eqb (List.length h) 0);
     StockMarket.datetime_index := fun h => Some h |}.

Definition new_chat : Chat.chat_state :=
  {| Chat.messages := []; Chat.prompt_from_button := None |}.

End Samples.

(* ================================================================== *)
(** * Properties *)
(* ================================================================== *)

(** ** Intent router *)

Section Router.

Import Effects Data PyStr AiServices.
Local Open Scope string_scope.

Variable S : services.
Variable L : library.

Lemma get_transaction_category_returns description log :
  exists c,
    get_transaction_category S description log
    = (Returns c, (log ++ [GraniteCall (category_prompt description) "/predict"])%list).
Proof.
  unfold get_transaction_category, try_except, granite, ret.
  destruct (predict S (category_prompt description) "/predict"); eauto.
Qed.

Lemma get_transaction_category_fallback description log e :
  predict S (category_prompt description) "/predict" = Raises e ->
  fst (get_transaction_category S description log) = Returns "Other".
Proof.
  intros H. unfold get_transaction_category, try_except, granite, ret.
  now rewrite H.
Qed.

Lemma apology_embeds_detail e :
  exists prefix, apology e = prefix ++ str_exn e.
Proof.
  destruct e as [d|d].
  - now exists "Sorry, there was an issue with the AI service: API call failed. Details: ".
  - now exists "An unexpected error occurred while processing your request: ".
Qed.

(** C1. Whatever the query, the table, the remote services and the library
    do, [get_ai_response] hands a text back to its caller and raises
    nothing; a failure of the classification call, of the generation call,
    or of the trend forecast it delegates to, is turned into the apology
    for that exception, and every apology ends with the exception's
    detail.  Exceptions are the subclasses of [Exception]. *)
Theorem get_ai_response_total (user_query : string) (df : table) (log : list call) :
  (exists s log', get_ai_response S L user_query df log = (Returns s, log'))
  /\ (forall e,
         generate_content S (classifier_prompt user_query) (Some 20%N) = Raises e ->
         fst (get_ai_response S L user_query df log) = Returns (apology e))
  /\ (forall text e,
         generate_content S (classifier_prompt user_query) (Some 20%N) = Returns text ->
         contains "CATEGORIZATION" (upper (strip text)) = false ->
         contains "FORECASTING" (upper (strip text)) = true ->
         Analytics.get_forecast L df = Raises e ->
         fst (get_ai_response S L user_query df log) = Returns (apology e))
  /\ (forall text e,
         generate_content S (classifier_prompt user_query) (Some 20%N) = Returns text ->
         contains "CATEGORIZATION" (upper (strip text)) = false ->
         contains "FORECASTING" (upper (strip text)) = false ->
         generate_content S
           (system_prompts_get (upper (strip text)) ++ nl ++ nl
            ++ "User Request: " ++ user_query ++ nl ++ nl
            ++ "Transaction History (for context):" ++ nl ++ context_snippet L df)
           None = Raises e ->
         fst (get_ai_response S L user_query df log) = Returns (apology e))
  /\ (forall e, exists prefix, apology e = prefix ++ str_exn e).
Proof.
  unfold get_ai_response, try_except, bind, gemini, lift, ret.
  repeat split.
  - destruct (generate_content S (classifier_prompt user_query) (Some 20%N)) as [text|e];
      [|eauto].
    destruct (contains "CATEGORIZATION" (upper (strip text))).
    + destruct (get_transaction_category_returns (description_of user_query)
                  (log ++ [GeminiCall (classifier_prompt user_query) (Some 20%N)])%list)
        as [c Hc].
      rewrite Hc. eauto.
    + destruct (contains "FORECASTING" (upper (strip text))).
      * destruct (Analytics.get_forecast L df); eauto.
      * match goal with
        | |- context [generate_content S ?p None] =>
            destruct (generate_content S p None)
        end; eauto.
  - intros e He. now rewrite He.
  - intros text e Hc Hcat Hfor Hf. now rewrite Hc, Hcat, Hfor, Hf.
  - intros text e Hc Hcat Hfor Hg. now rewrite Hc, Hcat, Hfor, Hg.
  - apply apology_embeds_detail.
Qed.


End Router.


(** With Gemini down the caller still receives a text. *)
Lemma get_ai_response_total_witness :
  fst (AiServices.get_ai_response Demo.gemini_down Iso.lib "how do I save more?" [] [])
  = Effects.Returns
      "Sorry, there was an issue with the AI service: API call failed. Details: 503 Service Unavailable"%string.
Proof.
  pose proof (@get_ai_response_total Demo.gemini_down Iso.lib
                "how do I save more?" [] []) as H.
  destruct H as (_ & H & _).
  exact (H (Effects.GoogleAPICallError "503 Service Unavailable") eq_refl).
Defined.

(** ** Stable sort and group-by *)

Section SortFacts.

Import Data.

Variable A : Type.
Variable before : A -> A -> bool.
Hypothesis before_total : forall x y, before x y = true \/ before y x = true.
Hypothesis before_trans :
  forall x y z, before x y = true -> before y z = true -> before x z = true.

Let R (x y : A) : Prop := before x y = true.

Lemma insert_perm x l : Permutation (insert before x l) (x :: l).
Proof.
  induction l as [|y r IH]; simpl; [reflexivity|].
  destruct (before x y); [reflexivity|].
  rewrite IH. apply perm_swap.
Qed.

Lemma sort_perm l : Permutation (sort before l) l.
Proof.
  induction l as [|x r IH]; simpl; [constructor|].
  rewrite insert_perm. now constructor.
Qed.

Lemma sort_In x l : In x (sort before l) <-> In x l.
Proof.
  split; apply Permutation_in; [|symmetry]; apply sort_perm.
Qed.

Lemma sort_length l : List.length (sort before l) = List.length l.
Proof. apply Permutation_length, sort_perm. Qed.

Lemma insert_sorted x l :
  StronglySorted R l -> StronglySorted R (insert before x l).
Proof.
  induction 1 as [|y r Hs IH Hall]; simpl.
  - repeat constructor.
  - destruct (before x y) eqn:E.
    + constructor; [now constructor|].
      constructor; [exact E|].
      rewrite Forall_forall in *. intros z Hz.
      eapply before_trans; [exact E|]. now apply Hall.
    + constructor; [exact IH|].
      rewrite Forall_forall in *. intros z Hz.
      apply (Permutation_in _ (insert_perm x r)) in Hz.
      destruct Hz as [<-|Hz]; [|now apply Hall].
      destruct (before_total x y) as [H|H]; [congruence|exact H].
Qed.

Lemma sort_sorted l : StronglySorted R (sort before l).
Proof.
  induction l; simpl; [constructor|now apply insert_sorted].
Qed.

Lemma firstn_sorted (P : A -> A -> Prop) n l :
  StronglySorted P l -> StronglySorted P (firstn n l).
Proof.
  revert l. induction n as [|n IH]; intros l H; simpl; [constructor|].
  destruct H as [|x r Hs Hall]; [constructor|].
  constructor; [now apply IH|].
  rewrite Forall_forall in *. intros z Hz. apply Hall.
  rewrite <- (firstn_skipn n r). apply in_or_app. now left.
Qed.

Lemma sorted_split (P : A -> A -> Prop) n l :
  StronglySorted P l ->
  forall y x, In y (firstn n l) -> In x (skipn n l) -> P y x.
Proof.
  revert l. induction n as [|n IH]; intros l H y x Hy Hx; simpl in *; [tauto|].
  destruct H as [|z r Hs Hall]; simpl in *; [tauto|].
  destruct Hy as [<-|Hy].
  - rewrite Forall_forall in Hall. apply Hall.
    rewrite <- (firstn_skipn n r). apply in_or_app. now right.
  - now apply (IH r).
Qed.

(** The first [n] of the sorted list, together with what is cut off: a
    rearrangement of the input in which every kept element may stand before
    every dropped one. *)
Lemma top_of_sort n l :
  let kept := firstn n (sort before l) in
  let dropped := skipn n (sort before l) in
  (List.length kept <= n)%nat
  /\ StronglySorted R kept
  /\ Permutation (kept ++ dropped) l
  /\ (forall y x, In y kept -> In x dropped -> R y x).
Proof.
  cbv zeta. repeat split.
  - apply firstn_le_length.
  - apply firstn_sorted, sort_sorted.
  - rewrite firstn_skipn. apply sort_perm.
  - intros y x. apply sorted_split, sort_sorted.
Qed.

End SortFacts.

Section GroupFacts.

Import Data.

Variable K : Type.
Variable cmp : K -> K -> comparison.
Hypothesis cmp_eq : forall a b, cmp a b = Eq <-> a = b.

Lemma same_key_eq a b : same_key cmp a b = true <-> a = b.
Proof.
  unfold same_key. rewrite <- cmp_eq. destruct (cmp a b); intuition congruence.
Qed.

Lemma insert_key_In k k0 keys :
  In k (insert_key cmp k0 keys) <-> k = k0 \/ In k keys.
Proof.
  induction keys as [|k' r IH]; simpl; [intuition|].
  destruct (cmp k0 k') eqn:E; simpl.
  - apply cmp_eq in E. subst. intuition.
  - intuition.
  - rewrite IH. intuition.
Qed.

Lemma group_keys_In k kvs : In k (group_keys cmp kvs) <-> In k (map fst kvs).
Proof.
  unfold group_keys. induction (map fst kvs) as [|k0 r IH]; simpl; [tauto|].
  rewrite insert_key_In, IH. intuition.
Qed.

Lemma groupby_sum_In k v kvs :
  In (k, v) (groupby_sum cmp kvs) ->
  v = group_total cmp k kvs /\ In k (map fst kvs).
Proof.
  unfold groupby_sum. rewrite in_map_iff. intros (k' & [= <- <-] & Hk).
  split; [reflexivity|]. now apply group_keys_In.
Qed.

Lemma groupby_sum_keys kvs :
  map fst (groupby_sum cmp kvs) = group_keys cmp kvs.
Proof.
  unfold groupby_sum. rewrite map_map. simpl. apply map_id.
Qed.




End GroupFacts.

(** ** Trend forecast *)

Section Trend.

Import Effects Data Analytics.
Local Open Scope Q_scope.











End Trend.

Section LeastSquares.

Import Data Analytics.
Local Open Scope Q_scope.

Lemma inject_length_cons (A : Type) (x : A) l :
  inject_Z (Z.of_nat (List.length (x :: l))) == inject_Z (Z.of_nat (List.length l)) + 1.
Proof.
  cbn [List.length]. rewrite Nat2Z.inj_succ. unfold Z.succ.
  now rewrite inject_Z_plus.
Qed.

Lemma residual_sum (a b : Q) pts :
  Qsum (map (fun p => snd p - poly1d (a, b) (fst p)) pts)
  == Qsum (map snd pts) - a * Qsum (map (fun p => inject_Z (fst p)) pts)
     - inject_Z (Z.of_nat (List.length pts)) * b.
Proof.
  induction pts as [|p r IH].
  - simpl. ring.
  - rewrite inject_length_cons. cbn [map Qsum fold_right] in *.
    unfold Qsum in IH. rewrite IH. unfold poly1d. cbn [fst snd]. ring.
Qed.

Lemma residual_moment (a b : Q) pts :
  Qsum (map (fun p => inject_Z (fst p) * (snd p - poly1d (a, b) (fst p))) pts)
  == Qsum (map (fun p => inject_Z (fst p) * snd p) pts)
     - a * Qsum (map (fun p => inject_Z (fst p) * inject_Z (fst p)) pts)
     - b * Qsum (map (fun p => inject_Z (fst p)) pts).
Proof.
  induction pts as [|p r IH].
  - simpl. ring.
  - cbn [map Qsum fold_right] in *.
    unfold Qsum in IH. rewrite IH. unfold poly1d. cbn [fst snd]. ring.
Qed.

(** With two or more days and a regular system, the line of [polyfit] is
    the least-squares line: its residuals sum to zero and are orthogonal
    to the days (the normal equations). *)
Lemma polyfit_normal_equations pts :
  (2 <= List.length pts)%nat ->
  let n := inject_Z (Z.of_nat (List.length pts)) in
  let sx := Qsum (map (fun p => inject_Z (fst p)) pts) in
  let sxx := Qsum (map (fun p => inject_Z (fst p) * inject_Z (fst p)) pts) in
  ~ n * sxx - sx * sx == 0 ->
  let c := polyfit pts in
  Qsum (map (fun p => snd p - poly1d c (fst p)) pts) == 0
  /\ Qsum (map (fun p => inject_Z (fst p) * (snd p - poly1d c (fst p))) pts) == 0.
Proof.
  intros Hlen n sx sxx HD c.
  assert (Hn : ~ n == 0).
  { subst n. intros E.
    apply (proj1 (inject_Z_injective (Z.of_nat (List.length pts)) 0)) in E. lia. }
  assert (Hc : c = ((n * Qsum (map (fun p => inject_Z (fst p) * snd p) pts)
                     - sx * Qsum (map snd pts)) / (n * sxx - sx * sx),
                    (Qsum (map snd pts)
                     - (n * Qsum (map (fun p => inject_Z (fst p) * snd p) pts)
                        - sx * Qsum (map snd pts)) / (n * sxx - sx * sx) * sx) / n)).
  { subst c. destruct pts as [|p1 [|p2 r]]; simpl in Hlen; try lia.
    destruct p1. reflexivity. }
  rewrite Hc. split.
  - rewrite residual_sum. fold n sx. field. now split.
  - rewrite residual_moment. fold sx sxx. field. now split.
Qed.

End LeastSquares.


(** ** Income is recognised differently by the two engines *)

Section IncomeCase.

Import Effects Data PyStr.
Local Open Scope string_scope.

Variable L : library.

Lemma prep_df_In (df : table) (r : row) (d : Z) :
  In r df -> to_datetime L (date r) = Returns d ->
  In {| Forecast.p_date := d;
        Forecast.p_category := category r;
        Forecast.p_amount := amount r;
        Forecast.p_note := note r;
        Forecast.is_income := lower (strip (category r)) =? "income" |}
     (Forecast._prep_df L df).
Proof.
  intros Hin Hd. unfold Forecast._prep_df. apply in_flat_map.
  exists r. split; [exact Hin|].
  unfold Forecast._to_date. rewrite Hd. now left.
Qed.

(** C9. [get_forecast] drops exactly the rows whose category is the text
    "Income", compared as it stands; the aggregator flags a row as income
    when its category, trimmed and lower-cased, is "income".  So a row
    whose category is "income" stays among the expenses of the trend
    forecast, while the aggregator flags the same row as income. *)
Theorem income_case_mismatch (df : table) (r : row) :
  In r df ->
  category r = "income" ->
  In r (Analytics.expense_df df)
  /\ (forall r', In r' (Analytics.expense_df df) <-> In r' df /\ category r' <> "Income")
  /\ (forall d, to_datetime L (date r) = Returns d ->
        exists pr,
          In pr (Forecast._prep_df L df)
          /\ Forecast.p_date pr = d
          /\ Forecast.p_category pr = "income"
          /\ Forecast.p_amount pr = amount r
          /\ Forecast.is_income pr = true).
Proof.
  intros Hin Hcat.
  assert (Hfilter : forall r', In r' (Analytics.expense_df df)
                               <-> In r' df /\ category r' <> "Income").
  { intros r'. unfold Analytics.expense_df. rewrite filter_In.
    rewrite negb_true_iff, String.eqb_neq. reflexivity. }
  split; [|split].
  - apply Hfilter. split; [exact Hin|]. rewrite Hcat. discriminate.
  - exact Hfilter.
  - intros d Hd. eexists. split; [exact (prep_df_In df r Hin Hd)|].
    cbn [Forecast.p_date Forecast.p_category Forecast.p_amount Forecast.is_income].
    rewrite Hcat. repeat split.
Qed.

End IncomeCase.

(** The salary of [Demo.lowercase_income] is one of the three points the
    trend is fitted to, and the whole income of the aggregator. *)
Lemma income_case_mismatch_witness :
  In Demo.salary_row (Analytics.expense_df Demo.lowercase_income)
  /\ (exists p,
         Analytics.forecast_of Iso.lib Demo.lowercase_income
         = Effects.Returns (Analytics.Projected p)
         /\ Analytics.daily_expenses p
            = [(738886%Z, 1000 + 0); (738887%Z, 20 + 0); (738888%Z, 30 + 0)])
  /\ (let m := Forecast._last_n_days_metrics
                 (Forecast._prep_df Iso.lib Demo.lowercase_income) 30 Demo.jan3 in
      Forecast.income m == 1000 /\ Forecast.expense m == 50).
Proof.
  split; [|split].
  - exact (proj1 (@income_case_mismatch Iso.lib Demo.lowercase_income
                    Demo.salary_row (or_introl eq_refl) eq_refl)).
  - eexists. split; reflexivity.
  - split; reflexivity.
Defined.

(** ** Metrics aggregator and local weather rule *)

Lemma Qle_bool_false (x y : Q) : Qle_bool x y = false <-> y < x.
Proof.
  split.
  - intros H. apply Qnot_le_lt. intros Hle.
    apply Qle_bool_iff in Hle. congruence.
  - intros H. destruct (Qle_bool x y) eqn:E; [|reflexivity].
    apply Qle_bool_iff in E. exfalso. exact (Qlt_not_le _ _ H E).
Qed.

(** Case analysis on every comparison the code makes. *)
Ltac q_tests :=
  repeat match goal with
    | |- context [Qle_bool ?a ?b] =>
        let E := fresh "T" in
        destruct (Qle_bool a b) eqn:E;
        [apply Qle_bool_iff in E | apply Qle_bool_false in E]
    | |- context [Qlt_le_dec ?a ?b] => destruct (Qlt_le_dec a b)
    end.

Section Aggregator.

Import Effects Data PyStr Forecast.
Local Open Scope Q_scope.

Variable L : library.

(** C2 (amended). For any table, window length and current day:
    [net = income - expense]; the savings rate is [net / income * 100]
    when the income is positive and [0] otherwise; hence it is [0] when
    the income is not positive, and it is [0] exactly when the income is
    not positive or the net is zero. *)
Theorem savings_rate_formula (t : table) (days today : Z) :
  let m := _last_n_days_metrics (_prep_df L t) days today in
  net m = income m - expense m
  /\ (0 < income m -> savings_rate_pct m = net m / income m * 100)
  /\ (income m <= 0 -> savings_rate_pct m = 0)
  /\ (savings_rate_pct m == 0 <-> income m <= 0 \/ net m == 0).
Proof.
  cbv zeta. unfold _last_n_days_metrics.
  cbn [net income expense savings_rate_pct].
  set (inc := sum_where is_income _).
  set (n := inc - sum_where _ _).
  split; [reflexivity|]. split; [|split].
  - intros H. destruct (Qlt_le_dec 0 inc) as [_|Hle]; [reflexivity|].
    exfalso. exact (Qlt_not_le _ _ H Hle).
  - intros H. destruct (Qlt_le_dec 0 inc) as [Hlt|_]; [|reflexivity].
    exfalso. exact (Qlt_not_le _ _ Hlt H).
  - destruct (Qlt_le_dec 0 inc) as [Hlt|Hle].
    + split.
      * intros H. right.
        assert (Hne : ~ inc == 0) by (intros E; rewrite E in Hlt; discriminate).
        assert (Hn : n == n / inc * 100 * (inc / 100)) by (field; exact Hne).
        rewrite Hn, H. ring.
      * intros [Hle|Hz]; [exfalso; exact (Qlt_not_le _ _ Hlt Hle)|].
        rewrite Hz. unfold Qdiv. ring.
    + split; [now left|reflexivity].
Qed.

End Aggregator.

(** Income 100 and expenses 100 in the window: the savings rate is 0 although
    the income is positive. *)
Lemma savings_rate_counterexample :
  let m := Forecast._last_n_days_metrics
             (Forecast._prep_df Iso.lib Demo.break_even) 30 Demo.jan3 in
  ~ (Forecast.savings_rate_pct m == 0 <-> Forecast.income m <= 0).
Proof.
  cbv zeta. intros [H _].
  assert (Hsr : Forecast.savings_rate_pct
                  (Forecast._last_n_days_metrics
                     (Forecast._prep_df Iso.lib Demo.break_even) 30 Demo.jan3) == 0)
    by reflexivity.
  apply H in Hsr. revert Hsr. vm_compute. intros Hle. now apply Hle.
Qed.

Lemma savings_rate_formula_witness :
  let m := Forecast._last_n_days_metrics
             (Forecast._prep_df Iso.lib Demo.lowercase_income) 30 Demo.jan3 in
  0 < Forecast.income m /\ Forecast.savings_rate_pct m == 95.
Proof.
  cbv zeta.
  destruct (savings_rate_formula Iso.lib Demo.lowercase_income 30 Demo.jan3)
    as (_ & H & _).
  assert (Hinc : 0 < Forecast.income
                       (Forecast._last_n_days_metrics
                          (Forecast._prep_df Iso.lib Demo.lowercase_income) 30 Demo.jan3))
    by reflexivity.
  split; [exact Hinc|]. rewrite (H Hinc). reflexivity.
Defined.

Section LocalRule.

Import Data Forecast.
Local Open Scope Q_scope.


Lemma fold_max2_spec l a :
  let M := fold_left max2 l a in
  (M = a \/ In M l) /\ a <= M /\ (forall x, In x l -> x <= M).
Proof.
  revert a. induction l as [|y r IH]; intros a; simpl.
  - split; [now left|]. split; [apply Qle_refl|tauto].
  - destruct (IH (max2 a y)) as (Hin & Hle & Hall).
    assert (Ha : a <= max2 a y /\ y <= max2 a y /\ (max2 a y = a \/ max2 a y = y)).
    { unfold max2. destruct (Qlt_le_dec a y) as [H|H].
      - repeat split; [now apply Qlt_le_weak|apply Qle_refl|now right].
      - repeat split; [apply Qle_refl|exact H|now left]. }
    destruct Ha as (Ha1 & Ha2 & Ha3).
    split; [|split].
    + destruct Hin as [->|Hin]; [|now right; right].
      destruct Ha3 as [->| ->]; [now left|now right; left].
    + eapply Qle_trans; eassumption.
    + intros x [<-|Hx]; [eapply Qle_trans; eassumption|now apply Hall].
Qed.

(** [big_spike] is [0] without spikes, and otherwise the largest
    [pct_change] among them. *)
Lemma big_spike_spec spikes :
  (spikes = [] -> big_spike_of spikes = 0)
  /\ (spikes <> [] ->
      In (big_spike_of spikes) (map pct_change spikes)
      /\ (forall s, In s spikes -> pct_change s <= big_spike_of spikes)).
Proof.
  split; [now intros ->|]. destruct spikes as [|s rest]; [congruence|intros _].
  simpl. destruct (fold_max2_spec (map pct_change rest) (pct_change s))
    as (Hin & Hle & Hall).
  split.
  - destruct Hin as [->|Hin]; [now left|now right].
  - intros s' [<-|Hs']; [exact Hle|]. apply Hall. now apply in_map.
Qed.


End LocalRule.


(** ** Top categories and category spikes *)

Section Spikes.

Import Data PyStr Forecast.
Local Open Scope Q_scope.




Lemma larger_first_total x y : larger_first x y = true \/ larger_first y x = true.
Proof.
  unfold larger_first. rewrite !Qle_bool_iff.
  destruct (Qlt_le_dec (snd x) (snd y)); [right; lra|now left].
Qed.

Lemma larger_first_trans x y z :
  larger_first x y = true -> larger_first y z = true -> larger_first x z = true.
Proof.
  unfold larger_first. rewrite !Qle_bool_iff. intros; lra.
Qed.

Lemma string_compare_eq a b : String.compare a b = Eq <-> a = b.
Proof.
  split; [apply String.compare_eq_iff|intros ->].
  pose proof (String.compare_antisym b b) as H.
  destruct (String.compare b b); simpl in H; congruence.
Qed.

Lemma same_key_string a b : same_key String.compare a b = String.eqb a b.
Proof.
  unfold same_key. destruct (String.eqb_spec a b) as [->|Hne].
  - now rewrite (proj2 (string_compare_eq b b) eq_refl).
  - destruct (String.compare a b) eqn:E; try reflexivity.
    apply string_compare_eq in E. contradiction.
Qed.

Lemma expense_total df lo hi c :
  group_total String.compare c
    (map (fun r => (p_category r, p_amount r))
         (filter (fun r => negb (is_income r)) (_window df lo hi)))
  = spent df lo hi c.
Proof.
  unfold group_total, spent, _window.
  induction df as [|r rest IH]; simpl; [reflexivity|].
  destruct ((lo <=? p_date r)%Z && (p_date r <=? hi)%Z); simpl; [|exact IH].
  destruct (is_income r); simpl; [exact IH|].
  rewrite same_key_string.
  destruct (String.eqb (p_category r) c); simpl; [|exact IH].
  now rewrite IH.
Qed.

Lemma expense_by_category_In df lo hi c v :
  In (c, v) (expense_by_category (_window df lo hi)) ->
  v = spent df lo hi c.
Proof.
  intros H. apply (groupby_sum_In String.compare string_compare_eq) in H.
  destruct H as [-> _]. apply expense_total.
Qed.



End Spikes.

Section SpikesOfSnapshot.

Import Data PyStr Forecast.
Local Open Scope Q_scope.

Variable L : library.

Lemma sorted_weaken (A : Type) (P Q' : A -> A -> Prop) l :
  (forall x y, P x y -> Q' x y) -> StronglySorted P l -> StronglySorted Q' l.
Proof.
  intros HPQ. induction 1 as [|x r Hs IH Hall]; constructor; [exact IH|].
  eapply Forall_impl; [|exact Hall]. intros y. apply HPQ.
Qed.


End SpikesOfSnapshot.


(** ** Weather verdict: falling back to the local rule *)

Section Fallback.

Import Effects Data PyStr Forecast.
Local Open Scope string_scope.

Variable S : services.
Variable L : library.
Variable P : printers.




(** Beyond JSON objects: an answer that parses to a non-zero number is
    neither replaced nor returned; the membership test raises. *)
Lemma weather_number_answer_raises (st : session) (days today : Z)
    (log : list call) (text : string) (q : Q) :
  selected_df L st <> [] ->
  generate_content S
    (PROMPT P (_last_n_days_metrics (selected_df L st) days today)) None
  = Returns text ->
  _parse_json_maybe L text = JNum q ->
  ~ (q == 0)%Q ->
  fst (compute_forecast S L P None st days today log)
  = Raises (PyException "argument is not iterable").
Proof.
  intros Hne Ha Hp Hq. unfold compute_forecast.
  destruct (selected_df L st) as [|r0 rest] eqn:Hdf; [congruence|].
  unfold bind, try_except, _call_gemini, gemini, lift, ret.
  rewrite Ha, Hp.
  assert (Ht : truthy (JNum q) = true).
  { simpl. destruct (Qeq_bool q 0) eqn:E; [|reflexivity].
    apply Qeq_bool_iff in E. contradiction. }
  rewrite Ht. cbn [negb]. rewrite Ht. reflexivity.
Qed.

End Fallback.


(** ** Rounding: to an integer, to binary64, to ten decimals *)

Section Rounding.

Local Open Scope Q_scope.

Lemma round_half_even_cases x :
  (Fmt.round_half_even x = Qfloor x /\ x - inject_Z (Qfloor x) <= 1 # 2)
  \/ (Fmt.round_half_even x = (Qfloor x + 1)%Z /\ 1 # 2 <= x - inject_Z (Qfloor x)).
Proof.
  unfold Fmt.round_half_even.
  destruct (Qcompare (x - inject_Z (Qfloor x)) (1 # 2)) eqn:E.
  - apply Qeq_alt in E. destruct (Z.even (Qfloor x)); [left|right]; split; trivial; lra.
  - apply Qlt_alt in E. left. split; trivial; lra.
  - apply Qgt_alt in E. right. split; trivial; lra.
Qed.

Lemma round_half_even_nonneg x : 0 <= x -> (0 <= Fmt.round_half_even x)%Z.
Proof.
  intros H. assert (Hf : (0 <= Qfloor x)%Z).
  { rewrite <- (Qfloor_Z 0). now apply Qfloor_resp_le. }
  destruct (round_half_even_cases x) as [[-> _]|[-> _]]; lia.
Qed.

Lemma round_half_even_le x (n : Z) : x <= inject_Z n -> (Fmt.round_half_even x <= n)%Z.
Proof.
  intros H. assert (Hf : (Qfloor x <= n)%Z).
  { rewrite <- (Qfloor_Z n). now apply Qfloor_resp_le. }
  destruct (round_half_even_cases x) as [[-> _]|[-> Hhalf]]; [exact Hf|].
  destruct (Z.eq_dec (Qfloor x) n) as [E|E]; [|lia].
  rewrite E in Hhalf. lra.
Qed.

Lemma pow2_pos e : 0 < 2 ^ e.
Proof. apply Qpower_0_lt. reflexivity. Qed.

Lemma pow2_Z a : (0 <= a)%Z -> inject_Z (2 ^ a) == 2 ^ a.
Proof. intros H. now rewrite Zpower_Qpower. Qed.

Lemma pow2_succ e : 2 ^ (e + 1) == 2 * 2 ^ e.
Proof. rewrite Qpower_plus by discriminate. change (2 ^ 1) with 2. ring. Qed.

Lemma pow2_le a b : (a <= b)%Z -> 2 ^ a <= 2 ^ b.
Proof. intros H. apply Qpower_le_compat_l; [exact H|discriminate]. Qed.

(** Bounds of a positive rational by powers of two of the bit lengths. *)
Lemma log2_frame (n : Z) (d : positive) :
  (0 < n)%Z ->
  let e0 := (Z.log2 n - Z.log2 (Zpos d))%Z in
  2 ^ (e0 - 1) < n # d /\ n # d < 2 ^ (e0 + 1).
Proof.
  intros Hn e0.
  destruct (Z.log2_spec n Hn) as [Hn1 Hn2].
  destruct (Z.log2_spec (Zpos d) (Pos2Z.is_pos d)) as [Hd1 Hd2].
  pose proof (Z.log2_nonneg n) as Ha. pose proof (Z.log2_nonneg (Zpos d)) as Hc.
  set (a := Z.log2 n) in *. set (c := Z.log2 (Zpos d)) in *.
  assert (Hq : n # d == inject_Z n / inject_Z (Zpos d)) by apply Qmake_Qdiv.
  assert (Hdpos : 0 < inject_Z (Zpos d)) by reflexivity.
  assert (Qn1 : 2 ^ a <= inject_Z n).
  { rewrite <- pow2_Z by assumption. now rewrite <- Zle_Qle. }
  assert (Qn2 : inject_Z n < 2 ^ (a + 1)).
  { rewrite <- pow2_Z by lia. rewrite <- Zlt_Qlt. exact Hn2. }
  assert (Qd1 : 2 ^ c <= inject_Z (Zpos d)).
  { rewrite <- pow2_Z by assumption. now rewrite <- Zle_Qle. }
  assert (Qd2 : inject_Z (Zpos d) < 2 ^ (c + 1)).
  { rewrite <- pow2_Z by lia. rewrite <- Zlt_Qlt. exact Hd2. }
  pose proof (pow2_pos c) as Pc. pose proof (pow2_pos (c + 1)) as Pc1.
  pose proof (pow2_pos a) as Pa.
  assert (Hnpos : 0 < inject_Z n) by (rewrite (Zlt_Qlt 0 n) in Hn; exact Hn).
  split.
  - replace (e0 - 1)%Z with (a - (c + 1))%Z by (subst e0; lia).
    rewrite Qpower_minus by discriminate. rewrite Hq.
    apply Qlt_shift_div_l; [exact Hdpos|].
    setoid_replace (2 ^ a / 2 ^ (c + 1) * inject_Z (Z.pos d))
      with (2 ^ a * inject_Z (Z.pos d) / 2 ^ (c + 1))
      by (field; intros E; rewrite E in Pc1; discriminate).
    apply Qlt_shift_div_r; [exact Pc1|]. nra.
  - replace (e0 + 1)%Z with ((a + 1) - c)%Z by (subst e0; lia).
    rewrite Qpower_minus by discriminate. rewrite Hq.
    apply Qlt_shift_div_l; [exact Pc|].
    setoid_replace (inject_Z n / inject_Z (Z.pos d) * 2 ^ c)
      with (inject_Z n * 2 ^ c / inject_Z (Z.pos d))
      by (field; discriminate).
    apply Qlt_shift_div_r; [exact Hdpos|]. nra.
Qed.

Lemma ilog2_spec q :
  0 < q -> 2 ^ Float.ilog2 q <= q /\ q < 2 ^ (Float.ilog2 q + 1).
Proof.
  intros Hq. destruct q as [n d].
  assert (Hn : (0 < n)%Z).
  { unfold Qlt in Hq. simpl in Hq. lia. }
  destruct (@log2_frame n d Hn) as [Hlo Hhi]. cbv zeta in Hlo, Hhi.
  unfold Float.ilog2. cbn [Qnum Qden].
  set (e0 := (Z.log2 n - Z.log2 (Z.pos d))%Z) in *.
  destruct (Qle_bool (2 ^ e0) (n # d)) eqn:E.
  - apply Qle_bool_iff in E. split; [exact E|exact Hhi].
  - apply Qle_bool_false in E. split; [now apply Qlt_le_weak|].
    now replace (e0 - 1 + 1)%Z with e0 by lia.
Qed.

Lemma inject_Z_nonneg z : (0 <= z)%Z -> 0 <= inject_Z z.
Proof. intros H. change 0 with (inject_Z 0). now rewrite <- Zle_Qle. Qed.

Lemma round_pos_nonneg q : 0 < q -> 0 <= Float.round_pos q.
Proof.
  intros Hq. unfold Float.round_pos.
  set (ulp := 2 ^ (Z.max (Float.ilog2 q) (-1022) - 52)).
  assert (Hulp : 0 < ulp) by apply pow2_pos.
  apply Qmult_le_0_compat; [|now apply Qlt_le_weak].
  apply inject_Z_nonneg, round_half_even_nonneg.
  apply Qle_shift_div_l; [exact Hulp|]. lra.
Qed.

(** Rounding never passes a binary64 number: a bound [R * 2^(b-52)] with a
    53-bit significand [R] on the input is a bound on the result. *)
Lemma round_pos_le q (R b : Z) :
  0 < q ->
  (2 ^ 52 <= R < 2 ^ 53)%Z -> (-1022 <= b)%Z ->
  q <= inject_Z R * 2 ^ (b - 52) ->
  Float.round_pos q <= inject_Z R * 2 ^ (b - 52).
Proof.
  intros Hq [HR1 HR2] Hb Hle.
  destruct (ilog2_spec Hq) as [Hlo Hhi].
  assert (Q52 : inject_Z (2 ^ 52) == 2 ^ 52) by (apply pow2_Z; lia).
  assert (Q53 : inject_Z (2 ^ 53) == 2 ^ 53) by (apply pow2_Z; lia).
  assert (QR1 : 2 ^ 52 <= inject_Z R) by (rewrite <- Q52, <- Zle_Qle; exact HR1).
  assert (QR2 : inject_Z R < 2 ^ 53) by (rewrite <- Q53, <- Zlt_Qlt; exact HR2).
  pose proof (pow2_pos (b - 52)) as Pb.
  assert (Hb1 : 2 ^ (b + 1) == 2 ^ 53 * 2 ^ (b - 52)).
  { rewrite <- Qpower_plus by discriminate. now replace (53 + (b - 52))%Z with (b + 1)%Z by lia. }
  assert (Hb0 : 2 ^ b == 2 ^ 52 * 2 ^ (b - 52)).
  { rewrite <- Qpower_plus by discriminate. now replace (52 + (b - 52))%Z with b by lia. }
  assert (Hlog : (Float.ilog2 q <= b)%Z).
  { assert (H : 2 ^ Float.ilog2 q < 2 ^ (b + 1)).
    { rewrite Hb1. apply Qle_lt_trans with q; [exact Hlo|].
      apply Qle_lt_trans with (inject_Z R * 2 ^ (b - 52)); [exact Hle|].
      now apply Qmult_lt_compat_r. }
    apply Qpower_lt_compat_l_inv in H; [lia|reflexivity]. }
  unfold Float.round_pos.
  set (e := Z.max (Float.ilog2 q) (-1022)).
  assert (He : (e <= b)%Z) by (subst e; lia).
  assert (Heq : (Float.ilog2 q <= e)%Z) by (subst e; lia).
  set (ulp := 2 ^ (e - 52)).
  assert (Hulp : 0 < ulp) by apply pow2_pos.
  destruct (Z.eq_dec e b) as [E|E].
  - assert (Hx : q / ulp <= inject_Z R).
    { apply Qle_shift_div_r; [exact Hulp|]. subst ulp. now rewrite E. }
    apply round_half_even_le in Hx. rewrite Zle_Qle in Hx.
    subst ulp. rewrite <- E. apply Qmult_le_compat_r; [exact Hx|].
    now apply Qlt_le_weak.
  - assert (He1 : 2 ^ (e + 1) == 2 ^ 53 * ulp).
    { subst ulp. rewrite <- Qpower_plus by discriminate.
      now replace (53 + (e - 52))%Z with (e + 1)%Z by lia. }
    assert (Hq2 : q < 2 ^ (e + 1)).
    { apply Qlt_le_trans with (2 ^ (Float.ilog2 q + 1)); [exact Hhi|].
      apply pow2_le. lia. }
    assert (Hx : q / ulp <= inject_Z (2 ^ 53)).
    { apply Qle_shift_div_r; [exact Hulp|]. rewrite Q53, <- He1.
      now apply Qlt_le_weak. }
    apply round_half_even_le in Hx. rewrite Zle_Qle in Hx.
    apply Qle_trans with (inject_Z (2 ^ 53) * ulp).
    + apply Qmult_le_compat_r; [exact Hx|now apply Qlt_le_weak].
    + rewrite Q53, <- He1.
      apply Qle_trans with (2 ^ b); [apply pow2_le; lia|].
      rewrite Hb0. apply Qmult_le_compat_r; [exact QR1|now apply Qlt_le_weak].
Qed.

Lemma of_Q_bounds q (R b : Z) :
  (2 ^ 52 <= R < 2 ^ 53)%Z -> (-1022 <= b)%Z ->
  0 <= q -> q <= inject_Z R * 2 ^ (b - 52) ->
  0 <= Float.of_Q q /\ Float.of_Q q <= inject_Z R * 2 ^ (b - 52).
Proof.
  intros HR Hb H0 Hle. unfold Float.of_Q.
  destruct (Qcompare q 0) eqn:E.
  - split; [apply Qle_refl|].
    apply Qmult_le_0_compat; [|apply Qlt_le_weak, pow2_pos].
    apply inject_Z_nonneg. lia.
  - apply Qlt_alt in E. lra.
  - apply Qgt_alt in E. split.
    + now apply round_pos_nonneg.
    + now apply round_pos_le.
Qed.

(** The two bounds the sidebar needs: [10^12 = 8192 * 10^12 * 2^-13] and
    [10^5 = 10^5 * 2^36 * 2^-36]. *)
Lemma of_Q_le_1e12 q :
  0 <= q -> q <= 1000000000000 -> 0 <= Float.of_Q q <= 1000000000000.
Proof.
  intros H0 H1.
  assert (E : 1000000000000 == inject_Z 8192000000000000 * 2 ^ (39 - 52)) by reflexivity.
  rewrite E in *. apply of_Q_bounds; try assumption; lia.
Qed.

Lemma of_Q_le_1e5 q :
  0 <= q -> q <= 100000 -> 0 <= Float.of_Q q <= 100000.
Proof.
  intros H0 H1.
  assert (E : 100000 == inject_Z 6871947673600000 * 2 ^ (16 - 52)) by reflexivity.
  rewrite E in *. apply of_Q_bounds; try assumption; lia.
Qed.

End Rounding.

Section Quantize.

Import Effects Data Dec.
Local Open Scope Q_scope.


Lemma pow10_pos e : 0 < 10 ^ e.
Proof. apply Qpower_0_lt. reflexivity. Qed.

Lemma pow10_N (k : N) : inject_Z (Z.of_N (10 ^ k)%N) == 10 ^ Z.of_N k.
Proof.
  rewrite N2Z.inj_pow. change (Z.of_N 10) with 10%Z.
  rewrite Zpower_Qpower by lia. reflexivity.
Qed.

Lemma inject_N_le (a b : N) : (a <= b)%N <-> inject_Z (Z.of_N a) <= inject_Z (Z.of_N b).
Proof. rewrite <- Zle_Qle. lia. Qed.

Lemma div_half_even_le (n M : N) (s : Z) :
  (n <= M * 10 ^ Z.to_N s)%N -> (div_half_even n s <= M)%N.
Proof.
  intros H. unfold div_half_even.
  set (p := (10 ^ Z.to_N s)%N) in *.
  assert (Hp : (0 < p)%N) by (subst p; apply N.neq_0_lt_0, N.pow_nonzero; lia).
  pose proof (N.div_mod n p ltac:(lia)) as Hdm.
  pose proof (N.mod_lt n p ltac:(lia)) as Hr.
  set (q := (n / p)%N) in *. set (r := (n mod p)%N) in *.
  assert (Hq : (q <= M)%N) by nia.
  assert (Hq1 : (0 < r -> q + 1 <= M)%N) by nia.
  destruct (N.compare_spec (2 * r) p) as [E|E|E].
  - destruct (N.even q); [exact Hq|]. apply Hq1. lia.
  - exact Hq.
  - apply Hq1. lia.
Qed.

Lemma div_half_even_zero s : div_half_even 0 s = 0%N.
Proof.
  unfold div_half_even.
  assert (Hp : (0 < 10 ^ Z.to_N s)%N) by (apply N.neq_0_lt_0, N.pow_nonzero; lia).
  rewrite N.Div0.div_0_l, N.Div0.mod_0_l.
  destruct (N.compare_spec (2 * 0) (10 ^ Z.to_N s)) as [E|E|E]; try reflexivity; lia.
Qed.

Lemma value_unsigned c e :
  value (mk_decimal false c e) == inject_Z (Z.of_N c) * 10 ^ e.
Proof. unfold value. cbn [negative coefficient exponent]. ring. Qed.

Lemma value_signed c e :
  value (mk_decimal true c e) == - (inject_Z (Z.of_N c) * 10 ^ e).
Proof. unfold value. cbn [negative coefficient exponent]. ring. Qed.

(** Rounding to ten decimals keeps a value inside [0, Bc * 10^-10] and
    within the context precision. *)
Lemma quantize10_bounds (d : decimal) (Bc : N) :
  (Bc < 10 ^ PREC)%N ->
  0 <= value d -> value d <= inject_Z (Z.of_N Bc) * 10 ^ (-10) ->
  exists d',
    quantize10 d = Some d'
    /\ exponent d' = (-10)%Z
    /\ 0 <= value d'
    /\ value d' <= inject_Z (Z.of_N Bc) * 10 ^ (-10).
Proof.
  intros HB H0 Hle. destruct d as [sg c e].
  pose proof (pow10_pos e) as Pe. pose proof (pow10_pos (-10)) as P10.
  assert (Hc0 : 0 <= inject_Z (Z.of_N c)) by (apply inject_Z_nonneg; lia).
  assert (HBc0 : 0 <= inject_Z (Z.of_N Bc)) by (apply inject_Z_nonneg; lia).
  unfold quantize10. cbn [negative coefficient exponent].
  set (c' := if (-10 <=? e)%Z then (c * 10 ^ Z.to_N (e + 10))%N
             else div_half_even c (-10 - e)).
  assert (Hc' : (c' <= Bc)%N /\ (sg = true -> c' = 0%N)).
  { destruct sg.
    - rewrite value_signed in H0.
      assert (Hz : c = 0%N).
      { destruct (N.eq_dec c 0) as [E|E]; [exact E|exfalso].
        assert (0 < inject_Z (Z.of_N c)).
        { change 0 with (inject_Z 0). rewrite <- Zlt_Qlt. lia. }
        nra. }
      subst c. assert (c' = 0%N).
      { subst c'. destruct (-10 <=? e)%Z; [reflexivity|apply div_half_even_zero]. }
      split; [lia|auto].
    - split; [|discriminate]. rewrite value_unsigned in Hle.
      subst c'. destruct (-10 <=? e)%Z eqn:E.
      + apply Z.leb_le in E. apply inject_N_le.
        rewrite N2Z.inj_mul, inject_Z_mult, pow10_N, Z2N.id by lia.
        assert (Hs : 10 ^ e == 10 ^ (e + 10) * 10 ^ (-10)).
        { rewrite <- Qpower_plus by discriminate.
          now replace (e + 10 + -10)%Z with e by lia. }
        rewrite Hs in Hle. apply (Qmult_le_r _ _ (10 ^ (-10))); [exact P10|]. lra.
      + apply Z.leb_gt in E. apply div_half_even_le. apply inject_N_le.
        rewrite N2Z.inj_mul, inject_Z_mult, pow10_N, Z2N.id by lia.
        assert (Hs : 10 ^ (-10) == 10 ^ (-10 - e) * 10 ^ e).
        { rewrite <- Qpower_plus by discriminate.
          now replace (-10 - e + e)%Z with (-10)%Z by lia. }
        rewrite Hs in Hle. apply (Qmult_le_r _ _ (10 ^ e)); [exact Pe|]. lra. }
  destruct Hc' as [Hc'le Hc'neg].
  assert (Hprec : (c' <? 10 ^ PREC)%N = true) by (apply N.ltb_lt; lia).
  rewrite Hprec. eexists. split; [reflexivity|]. split; [reflexivity|].
  apply inject_N_le in Hc'le.
  assert (Hc'0 : 0 <= inject_Z (Z.of_N c')) by (apply inject_Z_nonneg; lia).
  destruct sg.
  - rewrite (Hc'neg eq_refl). rewrite value_signed.
    change (inject_Z (Z.of_N 0)) with 0.
    split; [lra|]. nra.
  - rewrite value_unsigned. split; nra.
Qed.

End Quantize.

(** ** The alphabet of the sanitised amount text *)

Section Alphabet.

Import PyStr Sidebar.
Local Open Scope string_scope.

Variable P : ascii -> bool.











End Alphabet.

Section Sanitised.

Import PyStr Sidebar.
Local Open Scope string_scope.


End Sanitised.

(** ** Amount entry in the sidebar *)

Section AmountFacts.

Import Effects Data Dec Sidebar.
Local Open Scope Q_scope.


Lemma of_string_unsigned s d : of_string s = Some d -> negative d = false.
Proof.
  unfold of_string. intros H.
  destruct (PyStr.split "." s) as [|a [|b [|c l]]]; try discriminate.
  - destruct (_ && _); [|discriminate]. now injection H as <-.
  - destruct (_ && _); [|discriminate]. now injection H as <-.
Qed.

Lemma MAX_value :
  value MAX_AMOUNT_DEC == inject_Z (Z.of_N 9999999999999999999999) * 10 ^ (-10).
Proof. apply value_unsigned. Qed.

(** [_decimal_from_text] raises nothing, and what it accepts lies between
    0 and the maximum. *)
Lemma decimal_from_text_accepts text :
  (exists r, _decimal_from_text text = Returns r)
  /\ (forall d, _decimal_from_text text = Returns (Some d) ->
                0 <= value d /\ value d <= value MAX_AMOUNT_DEC).
Proof.
  unfold _decimal_from_text.
  destruct (String.eqb (_normalize_amount_text text) EmptyString).
  { split; [eauto|discriminate]. }
  destruct (of_string (_normalize_amount_text text)) as [d|].
  2: { split; [eauto|discriminate]. }
  destruct (Qle_bool 0 (value d)) eqn:T0; simpl.
  2: { split; [eauto|discriminate]. }
  destruct (Qle_bool (value d) (value MAX_AMOUNT_DEC)) eqn:T1; simpl.
  2: { split; [eauto|discriminate]. }
  apply Qle_bool_iff in T0, T1.
  destruct (exponent d <? -10)%Z.
  - assert (T1' := T1). rewrite MAX_value in T1'.
    destruct (@quantize10_bounds d 9999999999999999999999 eq_refl T0 T1')
      as (d' & -> & _ & H0 & H1).
    split; [eauto|]. intros d0 [= <-]. split; [exact H0|].
    now rewrite MAX_value.
  - split; [eauto|]. intros d0 [= <-]. now split.
Qed.

Lemma lookup_store k v d : lookup k (store k v d) = Some v.
Proof.
  induction d as [|[k' v'] r IH]; simpl.
  - now rewrite String.eqb_refl.
  - destruct (String.eqb k k') eqn:E; simpl; rewrite E; [reflexivity|exact IH].
Qed.

Lemma current_table_set st proj t : current_table (set_table st proj t) proj = t.
Proof. unfold current_table, set_table. simpl. now rewrite lookup_store. Qed.

(** What [amount_block] yields: nothing is raised, the manual path is
    [_decimal_from_text], and every amount lies in the range of its path. *)
Lemma amount_block_range (w : amount_widgets) :
  (amount_mode_of w = UseSlider -> slider_in_range w) ->
  exists a,
    amount_block w = Returns a
    /\ (amount_mode_of w = TypeExact -> _decimal_from_text (amount_text w) = Returns a)
    /\ (amount_mode_of w = UseSlider -> a <> None)
    /\ (forall d, a = Some d ->
          0 <= value d /\ value d <= value MAX_AMOUNT_DEC
          /\ (amount_mode_of w = UseSlider -> value d <= SLIDER_MAX)).
Proof.
  intros Hw. unfold amount_block. destruct (amount_mode_of w) eqn:M.
  - destruct (Hw eq_refl) as [H0 H1]. unfold SLIDER_MIN, SLIDER_MAX in *.
    assert (E : 100000 == inject_Z (Z.of_N 1000000000000000) * 10 ^ (-10)) by reflexivity.
    assert (H1' := H1). rewrite E in H1'.
    destruct (@quantize10_bounds (amount_slider w) 1000000000000000 eq_refl H0 H1')
      as (d' & -> & _ & Hd0 & Hd1).
    rewrite <- E in Hd1.
    exists (Some d'). split; [reflexivity|]. split; [discriminate|].
    split; [discriminate|]. intros d [= <-]. split; [exact Hd0|]. split; [|auto].
    apply Qle_trans with 100000; [exact Hd1|]. vm_compute. discriminate.
  - destruct (decimal_from_text_accepts (amount_text w)) as [[a Ha] Hacc].
    exists a. split; [exact Ha|]. split; [auto|]. split; [discriminate|].
    intros d ->. destruct (Hacc d Ha) as [H0 H1]. split; [exact H0|]. split; [exact H1|].
    discriminate.
Qed.

Lemma float_of_accepted d :
  0 <= value d -> value d <= value MAX_AMOUNT_DEC ->
  0 <= Float.of_decimal d <= 1000000000000.
Proof.
  intros H0 H1. apply of_Q_le_1e12; [exact H0|].
  apply Qle_trans with (value MAX_AMOUNT_DEC); [exact H1|]. vm_compute. discriminate.
Qed.

End AmountFacts.

Section Amounts.

Local Open Scope Q_scope.

Import Effects Data Dec Sidebar.


(** The sign does not survive the sanitising, so no parsed value is
    negative: "-5" is accepted as 5. *)
Lemma parsed_value_nonneg text d :
  of_string (_normalize_amount_text text) = Some d -> 0 <= value d.
Proof.
  intros H. apply of_string_unsigned in H. destruct d as [sg c e].
  simpl in H. subst sg. rewrite value_unsigned.
  apply Qmult_le_0_compat; [apply inject_Z_nonneg; lia|apply Qlt_le_weak, pow10_pos].
Qed.

Example minus_five_is_five :
  _decimal_from_text "-5" = Returns (Some (mk_decimal false 5 0)).
Proof. reflexivity. Qed.

(** C10 (amended). With the slider inside its configured range, neither
    button raises.  An invalid amount (the parser's [None]) rejects the
    action and leaves the session as it was.  Otherwise exactly one row is
    written: appended by "Add", put at the chosen position by "Save
    Changes"; its amount is [float(d)] for a decimal [d] with
    [0 <= d <= 999999999999.9999999999], which on the manual path is the
    decimal [_decimal_from_text] accepted and on the slider path lies in
    [0, 100000]; the amount is a non-negative float no greater than
    1000000000000.0, and no greater than 100000.0 on the slider path. *)
Theorem sidebar_amounts (st : session) (proj : string) (w : amount_widgets)
    (dt cat note : string) (selected_idx : nat) :
  (amount_mode_of w = UseSlider -> slider_in_range w) ->
  let df := current_table st proj in
  let accepted (d : decimal) :=
    amount_block w = Returns (Some d)
    /\ (amount_mode_of w = TypeExact ->
        _decimal_from_text (amount_text w) = Returns (Some d))
    /\ 0 <= value d /\ value d <= value MAX_AMOUNT_DEC
    /\ 0 <= Float.of_decimal d /\ Float.of_decimal d <= 1000000000000
    /\ (amount_mode_of w = UseSlider ->
        value d <= 100000 /\ Float.of_decimal d <= 100000) in
  ((amount_block w = Returns None
    /\ amount_mode_of w = TypeExact
    /\ add_clicked st proj w dt cat note = Returns (st, st_error INVALID_AMOUNT)
    /\ save_clicked st proj selected_idx w dt cat note
       = Returns (st, st_error INVALID_AMOUNT))
   \/ (exists d st1 st2 msg1 msg2,
          accepted d
          /\ add_clicked st proj w dt cat note = Returns (st1, st_success msg1)
          /\ current_table st1 proj = (df ++ [transaction_row dt cat d note])%list
          /\ save_clicked st proj selected_idx w dt cat note
             = Returns (st2, st_success msg2)
          /\ current_table st2 proj = set_row selected_idx (transaction_row dt cat d note) df)).
Proof.
  intros Hw df accepted.
  destruct (@amount_block_range w Hw) as (a & Ha & Hman & Hsl & Hrange).
  destruct a as [d|].
  - right. destruct (Hrange d eq_refl) as (H0 & H1 & H2).
    destruct (@float_of_accepted d H0 H1) as [F0 F1].
    exists d. do 4 eexists. split; [|split; [|split; [|split]]].
    + unfold accepted. split; [exact Ha|]. split; [exact Hman|].
      split; [exact H0|]. split; [exact H1|]. split; [exact F0|]. split; [exact F1|].
      intros M. specialize (H2 M). split; [exact H2|].
      now apply of_Q_le_1e5.
    + unfold add_clicked. rewrite Ha. reflexivity.
    + apply current_table_set.
    + unfold save_clicked. rewrite Ha. reflexivity.
    + apply current_table_set.
  - left. split; [exact Ha|]. split.
    + destruct (amount_mode_of w); [now elim Hsl|reflexivity].
    + unfold add_clicked, save_clicked. rewrite Ha. now split.
Qed.

End Amounts.

(** Typing the maximum itself: it is accepted, and the float written is
    1000000000000.0, above the maximum. *)
Lemma sidebar_amounts_counterexample :
  let typed :=
    {| Sidebar.amount_mode_of := Sidebar.TypeExact;
       Sidebar.amount_slider := Dec.mk_decimal false 0 0;
       Sidebar.amount_text := "999999999999.9999999999" |} in
  let r := Sidebar.transaction_row "2024-01-03" "Rent" Sidebar.MAX_AMOUNT_DEC EmptyString in
  Sidebar.amount_block typed = Effects.Returns (Some Sidebar.MAX_AMOUNT_DEC)
  /\ Sidebar.add_clicked (Demo.one_project []) "Default" typed
       "2024-01-03" "Rent" EmptyString
     = Effects.Returns
         (Sidebar.set_table (Demo.one_project []) "Default" [r],
          Sidebar.st_success "Added ₹1,000,000,000,000.00")
  /\ Sidebar.current_table
       (Sidebar.set_table (Demo.one_project []) "Default" [r]) "Default" = [r]
  /\ Data.amount r == 1000000000000
  /\ ~ Data.amount r <= Dec.value Sidebar.MAX_AMOUNT_DEC.
Proof.
  cbv zeta. split; [vm_compute; reflexivity|].
  split; [vm_compute; reflexivity|].
  split; [vm_compute; reflexivity|].
  split; [vm_compute; reflexivity|].
  vm_compute. intros H. now apply H.
Qed.


Lemma sidebar_amounts_witness :
  let slid :=
    {| Sidebar.amount_mode_of := Sidebar.UseSlider;
       Sidebar.amount_slider := Dec.mk_decimal false 300000 (-1);
       Sidebar.amount_text := EmptyString |} in
  let d := Dec.mk_decimal false 300000000000000 (-10) in
  exists st1 msg,
    Sidebar.add_clicked (Demo.one_project Demo.rising) "Default" slid
      "2024-01-03" "Rent" " flat "
    = Effects.Returns (st1, Sidebar.st_success msg)
    /\ Sidebar.current_table st1 "Default"
       = (Demo.rising ++ [Sidebar.transaction_row "2024-01-03" "Rent" d " flat "])%list
    /\ Float.of_decimal d == 30000.
Proof.
  intros slid d.
  assert (Hb : Sidebar.amount_block slid = Effects.Returns (Some d))
    by (vm_compute; reflexivity).
  assert (Hin : Sidebar.amount_mode_of slid = Sidebar.UseSlider ->
                Sidebar.slider_in_range slid)
    by (intros _; split; vm_compute; discriminate).
  destruct (@sidebar_amounts (Demo.one_project Demo.rising) "Default" slid
              "2024-01-03" "Rent" " flat " 0 Hin)
    as [(Hnone & _)|(d' & st1 & st2 & msg1 & msg2 & Hacc & Hadd & Htab & _)].
  - rewrite Hb in Hnone. discriminate Hnone.
  - exists st1, msg1. split; [exact Hadd|].
    destruct Hacc as (Hblock & _). rewrite Hb in Hblock.
    injection Hblock as <-. split; [exact Htab|].
    vm_compute. reflexivity.
Defined.

(** ** More on the amount parser *)

Section ParserFacts.

Import Effects Data PyStr Dec Sidebar.
Local Open Scope Q_scope.

(** X1. The amount parser raises nothing (rounding to ten decimals cannot
    exceed the context precision), and every decimal it accepts is
    unsigned, lies between 0 and 999999999999.9999999999, and has at most
    ten decimals. *)
Theorem decimal_from_text_safe (text : string) :
  (exists r, _decimal_from_text text = Returns r)
  /\ (forall d, _decimal_from_text text = Returns (Some d) ->
        negative d = false
        /\ 0 <= value d /\ value d <= value MAX_AMOUNT_DEC
        /\ (-10 <= exponent d)%Z).
Proof.
  destruct (decimal_from_text_accepts text) as [Htot Hacc].
  split; [exact Htot|]. intros d Hd.
  destruct (Hacc d Hd) as [H0 H1].
  split; [|split; [exact H0|split; [exact H1|]]].
  - unfold _decimal_from_text in Hd.
    destruct (String.eqb (_normalize_amount_text text) EmptyString); [discriminate|].
    destruct (of_string (_normalize_amount_text text)) as [d0|] eqn:E; [|discriminate].
    apply of_string_unsigned in E.
    destruct (_ || _); [discriminate|].
    destruct (exponent d0 <? -10)%Z.
    + unfold quantize10 in Hd. destruct (_ <? _)%N; [|discriminate].
      injection Hd as <-. exact E.
    + now injection Hd as <-.
  - unfold _decimal_from_text in Hd.
    destruct (String.eqb (_normalize_amount_text text) EmptyString); [discriminate|].
    destruct (of_string (_normalize_amount_text text)) as [d0|]; [|discriminate].
    destruct (_ || _); [discriminate|].
    destruct (exponent d0 <? -10)%Z eqn:E.
    + unfold quantize10 in Hd. destruct (_ <? _)%N; [|discriminate].
      injection Hd as <-. simpl. lia.
    + injection Hd as <-. apply Z.ltb_ge in E. exact E.
Qed.

End ParserFacts.

Lemma decimal_from_text_safe_witness :
  exists d,
    Sidebar._decimal_from_text "0.123456789012345" = Effects.Returns (Some d)
    /\ Dec.exponent d = (-10)%Z /\ Dec.coefficient d = 1234567890%N.
Proof.
  assert (H : Sidebar._decimal_from_text "0.123456789012345"
              = Effects.Returns (Some (Dec.mk_decimal false 1234567890 (-10))))
    by (vm_compute; reflexivity).
  destruct (decimal_from_text_safe "0.123456789012345") as [_ Hacc].
  destruct (Hacc _ H) as (_ & _ & _ & _).
  eexists. split; [exact H|]. split; reflexivity.
Defined.

(** ** Shape of the sanitised amount text *)

Section NormalForm.

Import PyStr Sidebar.
Local Open Scope string_scope.















End NormalForm.

(** ** The project store under the sidebar's actions *)

Section StoreFacts.

Import Effects Data PyStr Dec Sidebar Projects.
Local Open Scope string_scope.

Lemma lookup_store_other k k' v d : k' <> k -> lookup k' (store k v d) = lookup k' d.
Proof.
  intros Hne. induction d as [|[k0 v0] r IH]; simpl.
  - apply String.eqb_neq in Hne. now rewrite Hne.
  - destruct (String.eqb k k0) eqn:E; simpl.
    + apply String.eqb_eq in E. subst k0.
      apply String.eqb_neq in Hne. now rewrite Hne.
    + destruct (String.eqb k' k0); [reflexivity|exact IH].
Qed.

Lemma store_keys_present k v d :
  lookup k d <> None -> map fst (store k v d) = map fst d.
Proof.
  induction d as [|[k0 v0] r IH]; simpl; [congruence|].
  destruct (String.eqb k k0) eqn:E; simpl; [reflexivity|].
  intros H. now rewrite IH.
Qed.

Lemma store_keys_absent k v d :
  lookup k d = None -> map fst (store k v d) = (map fst d ++ [k])%list.
Proof.
  induction d as [|[k0 v0] r IH]; simpl; [reflexivity|].
  destruct (String.eqb k k0) eqn:E; simpl; [discriminate|].
  intros H. now rewrite IH.
Qed.

Lemma current_table_other st proj t q :
  q <> proj -> current_table (set_table st proj t) q = current_table st q.
Proof.
  intros Hne. unfold current_table, set_table. simpl.
  now rewrite lookup_store_other.
Qed.

Lemma drop_row_spec idx df t :
  drop_row idx df = Some t ->
  (idx < List.length df)%nat
  /\ t = (firstn idx df ++ skipn (S idx) df)%list
  /\ List.length df = S (List.length t).
Proof.
  revert idx t. induction df as [|x r IH]; intros idx t H; [destruct idx; discriminate|].
  destruct idx as [|k]; simpl in H.
  - injection H as <-. simpl. repeat split. lia.
  - destruct (drop_row k r) as [r'|] eqn:E; [|discriminate].
    injection H as <-. destruct (IH k r' E) as (H1 & H2 & H3).
    simpl. repeat split; [lia|now rewrite H2|lia].
Qed.

Lemma drop_row_none idx df :
  drop_row idx df = None <-> (List.length df <= idx)%nat.
Proof.
  revert idx. induction df as [|x r IH]; intros idx.
  - destruct idx; simpl; split; auto; lia.
  - destruct idx as [|k]; simpl.
    + split; [discriminate|lia].
    + destruct (drop_row k r) eqn:E.
      * split; [discriminate|]. intros H.
        assert (drop_row k r = None) by (apply IH; lia). congruence.
      * split; [|reflexivity]. intros _.
        assert (List.length r <= k)%nat by now apply IH. lia.
Qed.

Lemma drop_row_last (df : table) r :
  drop_row (List.length df) (df ++ [r])%list = Some df.
Proof.
  induction df as [|x rest IH]; simpl; [reflexivity|]. now rewrite IH.
Qed.

Lemma set_row_spec idx (r : row) df :
  ((idx < List.length df)%nat ->
   List.length (set_row idx r df) = List.length df
   /\ nth_error (set_row idx r df) idx = Some r
   /\ (forall j, j <> idx -> nth_error (set_row idx r df) j = nth_error df j))
  /\ ((List.length df <= idx)%nat -> set_row idx r df = (df ++ [r])%list).
Proof.
  revert idx. induction df as [|x rest IH]; intros idx.
  - split; [simpl; lia|]. intros _. now destruct idx.
  - destruct idx as [|k]; simpl.
    + split; [|lia]. intros _. repeat split. intros [|j] Hj; [congruence|reflexivity].
    + destruct (IH k) as [Hin Hout]. split.
      * intros Hk. destruct (Hin ltac:(lia)) as (H1 & H2 & H3).
        repeat split; [lia|exact H2|].
        intros [|j] Hj; [reflexivity|]. simpl. apply H3. lia.
      * intros Hk. now rewrite Hout by lia.
Qed.

Lemma Forall_set_row (P : row -> Prop) idx r df :
  P r -> Forall P df -> Forall P (set_row idx r df).
Proof.
  intros Hr. revert idx. induction df as [|x rest IH]; intros idx H; simpl.
  - destruct idx; repeat constructor; exact Hr.
  - inversion H as [|? ? Hx Hrest]; subst.
    destruct idx; constructor; auto.
Qed.

Lemma Forall_drop_row (P : row -> Prop) idx df t :
  drop_row idx df = Some t -> Forall P df -> Forall P t.
Proof.
  revert idx t. induction df as [|x rest IH]; intros idx t H HP;
    [destruct idx; discriminate|].
  inversion HP as [|? ? Hx Hrest]; subst.
  destruct idx as [|k]; simpl in H.
  - now injection H as <-.
  - destruct (drop_row k rest) as [r'|] eqn:E; [|discriminate].
    injection H as <-. constructor; [exact Hx|]. eapply IH; eassumption.
Qed.

End StoreFacts.

Section Actions.

Import Effects Data PyStr Dec Sidebar Projects.
Local Open Scope string_scope.

Variable st : session.
Variable proj : string.

Lemma written_row_bounded w d dt cat note :
  (amount_mode_of w = UseSlider -> slider_in_range w) ->
  amount_block w = Returns (Some d) ->
  (0 <= amount (transaction_row dt cat d note)
   /\ amount (transaction_row dt cat d note) <= 1000000000000)%Q.
Proof.
  intros Hw Hb. destruct (@amount_block_range w Hw) as (a & Ha & _ & _ & Hr).
  rewrite Hb in Ha. injection Ha as <-.
  destruct (Hr d eq_refl) as (H0 & H1 & _).
  exact (@float_of_accepted d H0 H1).
Qed.

(** X3. If every stored amount lies between 0 and 10^12, it still does
    after any of the four sidebar actions: adding, saving or deleting a
    transaction, or creating a project. *)
Theorem sidebar_keeps_amounts_bounded (w : amount_widgets)
    (dt cat note name : string) (idx : nat) (st' : session) (fb : feedback) :
  (amount_mode_of w = UseSlider -> slider_in_range w) ->
  (forall q, amounts_bounded (current_table st q)) ->
  add_clicked st proj w dt cat note = Returns (st', fb)
  \/ save_clicked st proj idx w dt cat note = Returns (st', fb)
  \/ delete_clicked st proj idx = Returns (st', fb)
  \/ create_clicked st name = (st', fb) ->
  forall q, amounts_bounded (current_table st' q).
Proof.
  intros Hw Hinv Hact q.
  assert (Hset : forall t, amounts_bounded t ->
                           amounts_bounded (current_table (set_table st proj t) q)).
  { intros t Ht. destruct (String.eqb_spec q proj) as [->|Hne].
    - now rewrite current_table_set.
    - rewrite current_table_other by exact Hne. apply Hinv. }
  destruct Hact as [H|[H|[H|H]]].
  - unfold add_clicked in H. destruct (amount_block w) as [[d|]|] eqn:Hb;
      try discriminate; injection H as <- <-; [|apply Hinv].
    apply Hset. unfold _append_transaction, _force_numeric.
    apply Forall_app. split; [apply Hinv|].
    constructor; [|constructor]. exact (written_row_bounded dt cat note Hw Hb).
  - unfold save_clicked in H. destruct (amount_block w) as [[d|]|] eqn:Hb;
      try discriminate; injection H as <- <-; [|apply Hinv].
    apply Hset. unfold _update_transaction, _force_numeric.
    apply Forall_set_row; [exact (written_row_bounded dt cat note Hw Hb)|apply Hinv].
  - unfold delete_clicked in H.
    destruct (drop_row idx (current_table st proj)) as [t|] eqn:Hd; [|discriminate].
    injection H as <- <-. apply Hset. unfold _force_numeric.
    eapply Forall_drop_row; [exact Hd|apply Hinv].
  - unfold create_clicked in H. destruct (_ && _); injection H as <- <-; [|apply Hinv].
    unfold current_table. cbn [projects].
    destruct (String.eqb_spec q (strip name)) as [->|Hne].
    + rewrite lookup_store. constructor.
    + rewrite lookup_store_other by exact Hne. apply Hinv.
Qed.

(** X4. Deleting the row that "Add" has just appended gives back the table
    as it was, in every project. *)
Theorem add_then_delete_restores (w : amount_widgets) (dt cat note msg : string)
    (st1 : session) :
  add_clicked st proj w dt cat note = Returns (st1, st_success msg) ->
  exists st2,
    delete_clicked st1 proj (List.length (current_table st proj))
    = Returns (st2, st_success "Transaction deleted.")
    /\ forall q, current_table st2 q = current_table st q.
Proof.
  intros H. unfold add_clicked in H.
  destruct (amount_block w) as [[d|]|]; try discriminate.
  injection H as <- _. unfold delete_clicked.
  rewrite current_table_set. unfold _append_transaction, _force_numeric.
  rewrite drop_row_last. eexists. split; [reflexivity|].
  intros q. destruct (String.eqb_spec q proj) as [->|Hne].
  - now rewrite current_table_set.
  - now rewrite !current_table_other by exact Hne.
Qed.

(** X5. "Save Changes" on an existing position replaces that row by the
    one entered and leaves the number of rows and every other row as they
    were. *)
Theorem save_replaces_one_row (w : amount_widgets) (dt cat note msg : string)
    (idx : nat) (st' : session) :
  save_clicked st proj idx w dt cat note = Returns (st', st_success msg) ->
  (idx < List.length (current_table st proj))%nat ->
  List.length (current_table st' proj) = List.length (current_table st proj)
  /\ (exists d, amount_block w = Returns (Some d)
                /\ nth_error (current_table st' proj) idx
                   = Some (transaction_row dt cat d note))
  /\ (forall j, j <> idx ->
        nth_error (current_table st' proj) j = nth_error (current_table st proj) j).
Proof.
  intros H Hidx. unfold save_clicked in H.
  destruct (amount_block w) as [[d|]|]; try discriminate.
  injection H as <- _. rewrite current_table_set.
  unfold _update_transaction, _force_numeric.
  destruct (set_row_spec idx (transaction_row dt cat d note) (current_table st proj))
    as [Hin _].
  destruct (Hin Hidx) as (H1 & H2 & H3).
  split; [exact H1|]. split; [|exact H3]. exists d. now split.
Qed.

(** X6. "Delete" on an existing position removes exactly that row and
    keeps the order of the others; on a position that does not exist it
    raises and stores nothing. *)
Theorem delete_removes_one_row (idx : nat) :
  let df := current_table st proj in
  ((idx < List.length df)%nat ->
   exists st',
     delete_clicked st proj idx = Returns (st', st_success "Transaction deleted.")
     /\ current_table st' proj = (firstn idx df ++ skipn (S idx) df)%list
     /\ List.length df = S (List.length (current_table st' proj)))
  /\ ((List.length df <= idx)%nat ->
      exists e, delete_clicked st proj idx = Raises e).
Proof.
  cbv zeta. unfold delete_clicked. split; intros H.
  - destruct (drop_row idx (current_table st proj)) as [t|] eqn:E.
    + destruct (drop_row_spec _ _ E) as (_ & H2 & H3).
      eexists. split; [reflexivity|]. rewrite current_table_set.
      unfold _force_numeric. now split.
    + apply drop_row_none in E. lia.
  - apply drop_row_none in H. rewrite H. eauto.
Qed.

(** X7. Adding, saving and deleting act on the chosen project only: the
    selection and every other project's table stay as they were, and so
    does the list of projects when the chosen one exists. *)
Theorem actions_touch_one_project (w : amount_widgets) (dt cat note : string)
    (idx : nat) (st' : session) (fb : feedback) :
  add_clicked st proj w dt cat note = Returns (st', fb)
  \/ save_clicked st proj idx w dt cat note = Returns (st', fb)
  \/ delete_clicked st proj idx = Returns (st', fb) ->
  selected_project st' = selected_project st
  /\ (forall q, q <> proj -> lookup q (projects st') = lookup q (projects st))
  /\ (has_project proj st = true ->
      map fst (projects st') = map fst (projects st)).
Proof.
  assert (Hset : forall t,
             selected_project (set_table st proj t) = selected_project st
             /\ (forall q, q <> proj ->
                   lookup q (projects (set_table st proj t)) = lookup q (projects st))
             /\ (has_project proj st = true ->
                 map fst (projects (set_table st proj t)) = map fst (projects st))).
  { intros t. unfold set_table. cbn [projects selected_project].
    split; [reflexivity|]. split.
    - intros q Hq. now apply lookup_store_other.
    - unfold has_project. intros H. apply store_keys_present.
      destruct (lookup proj (projects st)); [discriminate|discriminate]. }
  intros [H|[H|H]].
  - unfold add_clicked in H. destruct (amount_block w) as [[d|]|];
      try discriminate; injection H as <- _; [apply Hset|].
    repeat split.
  - unfold save_clicked in H. destruct (amount_block w) as [[d|]|];
      try discriminate; injection H as <- _; [apply Hset|].
    repeat split.
  - unfold delete_clicked in H.
    destruct (drop_row idx (current_table st proj)); [|discriminate].
    injection H as <- _. apply Hset.
Qed.

End Actions.

Section Create.

Import Effects Data PyStr Dec Sidebar Projects.
Local Open Scope string_scope.

(** X8. "Create" with a blank name or the name of an existing project is
    refused and changes nothing.  Otherwise the trimmed name becomes a new
    project with an empty table, placed last and selected, and no existing
    project's table changes. *)
Theorem create_project_spec (st : session) (name : string) :
  let n := strip name in
  let st' := fst (create_clicked st name) in
  (n = EmptyString \/ has_project n st = true ->
   create_clicked st name = (st, st_error "Name cannot be empty or already exist."))
  /\ (n <> EmptyString -> has_project n st = false ->
      selected_project st' = Some n
      /\ lookup n (projects st') = Some []
      /\ map fst (projects st') = (map fst (projects st) ++ [n])%list
      /\ (forall q, q <> n -> lookup q (projects st') = lookup q (projects st))).
Proof.
  cbv zeta. unfold create_clicked. split.
  - intros [H|H].
    + rewrite H. reflexivity.
    + rewrite H. now rewrite andb_false_r.
  - intros Hn Hp. apply String.eqb_neq in Hn. rewrite Hn, Hp.
    cbn [negb andb fst projects selected_project].
    split; [reflexivity|]. split; [apply lookup_store|]. split.
    + apply store_keys_absent. unfold has_project in Hp.
      destruct (lookup (strip name) (projects st)); [discriminate|reflexivity].
    + intros q Hq. now apply lookup_store_other.
Qed.

End Create.

(** ** The two windows of the snapshot *)

Section Windows.

Import Data Forecast.
Local Open Scope Z_scope.

Lemma window_In (df : list prow) lo hi r :
  In r (_window df lo hi) <-> In r df /\ lo <= p_date r <= hi.
Proof.
  unfold _window. rewrite filter_In, andb_true_iff, !Z.leb_le. tauto.
Qed.

Lemma window_empty (df : list prow) lo hi : hi < lo -> _window df lo hi = [].
Proof.
  intros H. unfold _window. induction df as [|r rest IH]; [reflexivity|].
  simpl. rewrite IH.
  destruct (lo <=? p_date r) eqn:E1; destruct (p_date r <=? hi) eqn:E2;
    try reflexivity.
  apply Z.leb_le in E1, E2. lia.
Qed.

(** X9. The current window holds the rows of the last [days] days up to
    today, the previous window those of the [days] days before; no row is
    in both, and for [days <= 0] both are empty, so that the snapshot has
    no income, no expense, no top category and no spike. *)
Theorem windows_partition (df : list prow) (days today : Z) :
  let start := today - (days - 1) in
  let cur := _window df start today in
  let prev := _window df (start - days) (start - 1) in
  let m := _last_n_days_metrics df days today in
  (forall r, In r cur <-> In r df /\ today - days < p_date r <= today)
  /\ (forall r, In r prev <->
                In r df /\ today - 2 * days < p_date r <= today - days)
  /\ (forall r, ~ (In r cur /\ In r prev))
  /\ (days <= 0 ->
      cur = [] /\ prev = []
      /\ income m = 0%Q /\ expense m = 0%Q /\ savings_rate_pct m = 0%Q
      /\ top_categories m = [] /\ category_spikes m = []).
Proof.
  cbv zeta. split; [|split; [|split]].
  - intros r. rewrite window_In. intuition lia.
  - intros r. rewrite window_In. intuition lia.
  - intros r [H1 H2]. apply window_In in H1, H2. lia.
  - intros Hd. unfold _last_n_days_metrics.
    cbn [income expense savings_rate_pct top_categories category_spikes].
    rewrite !window_empty by lia. repeat split.
Qed.

End Windows.

(** ** Sums of the snapshot *)

Section Totals.

Import Data Forecast.
Local Open Scope Q_scope.

Lemma Qsum_nonneg l : (forall x, In x l -> 0 <= x) -> 0 <= Qsum l.
Proof.
  induction l as [|x r IH]; intros H; simpl; [apply Qle_refl|].
  assert (0 <= x) by (apply H; now left).
  assert (0 <= Qsum r) by (apply IH; intros y Hy; apply H; now right).
  unfold Qsum in *. lra.
Qed.

Lemma sum_where_split (mask : prow -> bool) (df : list prow) :
  sum_where mask df + sum_where (fun r => negb (mask r)) df
  == Qsum (map p_amount df).
Proof.
  unfold sum_where. induction df as [|r rest IH]; simpl; [reflexivity|].
  destruct (mask r); simpl; unfold Qsum in *; lra.
Qed.

Lemma sum_where_nonneg (mask : prow -> bool) (df : list prow) :
  (forall r, In r df -> 0 <= p_amount r) -> 0 <= sum_where mask df.
Proof.
  intros H. unfold sum_where. apply Qsum_nonneg. intros x Hx.
  apply in_map_iff in Hx. destruct Hx as (r & <- & Hr).
  apply filter_In in Hr. apply H, Hr.
Qed.

Lemma spent_le_expense (df : list prow) lo hi c :
  (forall r, In r df -> 0 <= p_amount r) ->
  spent df lo hi c <= sum_where (fun r => negb (is_income r)) (_window df lo hi).
Proof.
  unfold spent, sum_where, _window. induction df as [|r rest IH]; intros H.
  - apply Qle_refl.
  - assert (Hr : 0 <= p_amount r) by (apply H; now left).
    assert (IH' := IH (fun x Hx => H x (or_intror Hx))). clear IH.
    simpl.
    destruct ((lo <=? p_date r)%Z && (p_date r <=? hi)%Z); simpl; [|exact IH'].
    destruct (is_income r); simpl; [exact IH'|].
    destruct (String.eqb (p_category r) c); simpl; unfold Qsum in *; lra.
Qed.

(** X10. In every snapshot income and expense together are the sum of all
    amounts in the current window.  If no amount is negative, then income
    and expense are not negative, the net is at most the income, the
    savings rate is at most 100, and each top category carries an amount
    between 0 and the total expense. *)
Theorem snapshot_totals (df : list prow) (days today : Z) :
  let m := _last_n_days_metrics df days today in
  income m + expense m
  == Qsum (map p_amount (_window df (today - (days - 1)) today))
  /\ ((forall r, In r df -> 0 <= p_amount r) ->
      0 <= income m /\ 0 <= expense m
      /\ net m <= income m
      /\ savings_rate_pct m <= 100
      /\ (forall c v, In (c, v) (top_categories m) -> 0 <= v /\ v <= expense m)).
Proof.
  cbv zeta. unfold _last_n_days_metrics.
  cbn [income expense net savings_rate_pct top_categories].
  set (cur := _window df (today - (days - 1)) today).
  split; [apply sum_where_split|]. intros Hpos.
  assert (Hcur : forall r, In r cur -> 0 <= p_amount r).
  { intros r Hr. apply Hpos. subst cur. unfold _window in Hr.
    apply filter_In in Hr. apply Hr. }
  pose proof (sum_where_nonneg is_income cur Hcur) as Hi.
  pose proof (sum_where_nonneg (fun r => negb (is_income r)) cur Hcur) as He.
  split; [exact Hi|]. split; [exact He|]. split; [lra|]. split.
  - destruct (Qlt_le_dec 0 (sum_where is_income cur)) as [Hlt|_]; [|lra].
    assert (H : (sum_where is_income cur
                 - sum_where (fun r => negb (is_income r)) cur)
                / sum_where is_income cur <= 1).
    { apply Qle_shift_div_r; [exact Hlt|]. lra. }
    set (x := _ / _) in *. lra.
  - intros c v Hin. unfold top5 in Hin.
    assert (Hin' : In (c, v) (sort larger_first (expense_by_category cur))).
    { rewrite <- (firstn_skipn 5). apply in_or_app. now left. }
    apply (proj1 (@sort_In _ larger_first (c, v) _)) in Hin'.
    clear Hin. rename Hin' into Hin. subst cur.
    apply expense_by_category_In in Hin. subst v. split.
    + unfold spent. apply Qsum_nonneg. intros x Hx.
      apply in_map_iff in Hx. destruct Hx as (r & <- & Hr).
      apply filter_In in Hr. apply Hpos, Hr.
    + now apply spent_le_expense.
Qed.

End Totals.

(** ** Safety of the local verdict *)

Section VerdictSafety.

Import Effects Data PyStr Forecast.
Local Open Scope Q_scope.

(** X11. The local rule answers with one of the four statuses and its own
    emoji.  A negative net is never rated CLEAR_SKIES or PARTLY_CLOUDY;
    CLEAR_SKIES needs a savings rate of at least 20 and PARTLY_CLOUDY a net
    that is not negative; LIGHT_SHOWERS is given to a negative net only. *)
Theorem local_status_safety (m : metrics) :
  let status := fst (_local_status m) in
  (_local_status m = ("CLEAR_SKIES", "☀️")%string
   \/ _local_status m = ("PARTLY_CLOUDY", "🌤️")%string
   \/ _local_status m = ("LIGHT_SHOWERS", "🌧️")%string
   \/ _local_status m = ("THUNDERSTORMS", "⛈️")%string)
  /\ (net m < 0 ->
      status = "LIGHT_SHOWERS"%string \/ status = "THUNDERSTORMS"%string)
  /\ (status = "CLEAR_SKIES"%string -> 0 <= net m /\ 20 <= savings_rate_pct m)
  /\ (status = "PARTLY_CLOUDY"%string -> 0 <= net m)
  /\ (status = "LIGHT_SHOWERS"%string -> net m < 0).
Proof.
  cbv zeta. unfold _local_status.
  set (spike := big_spike_of (category_spikes m)).
  set (bound := (2 # 10) * max2 (income m) 1).
  repeat match goal with |- _ /\ _ => split end.
  - q_tests; simpl; auto.
  - intros H. q_tests; simpl; auto; exfalso; lra.
  - q_tests; simpl; intros H; try discriminate H; split; lra.
  - q_tests; simpl; intros H; try discriminate H; lra.
  - q_tests; simpl; intros H; try discriminate H; lra.
Qed.

End VerdictSafety.

(** ** Requests made by [compute_forecast] *)

Section ForecastCalls.

Import Effects Data PyStr Forecast.
Local Open Scope string_scope.

Variable S : services.
Variable L : library.
Variable P : printers.

(** X12. [compute_forecast] makes at most one request.  With no project
    selected, an unknown project, or no row whose date parses, it returns
    the "empty" marker with the period alone and asks nothing; with a
    table but no model it returns the local verdict and asks nothing; with
    both it sends exactly the one prompt built from the snapshot. *)
Theorem compute_forecast_requests (err : option string) (st : session)
    (days today : Z) (log : list call) :
  let run := compute_forecast S L P err st days today log in
  let m := _last_n_days_metrics (selected_df L st) days today in
  (selected_project st = None -> selected_df L st = [])
  /\ (forall proj, selected_project st = Some proj ->
        lookup proj (projects st) = None -> selected_df L st = [])
  /\ (forall proj t, selected_project st = Some proj ->
        lookup proj (projects st) = Some t ->
        (forall r, In r t -> exists e, to_datetime L (date r) = Raises e) ->
        selected_df L st = [])
  /\ (selected_df L st = [] ->
      run = (Returns (JObj [("empty", JBool true)], PeriodOnly days), log))
  /\ (selected_df L st <> [] -> err <> None ->
      run = (Returns (local_verdict m, Snapshot m), log))
  /\ (selected_df L st <> [] -> err = None ->
      snd run = (log ++ [GeminiCall (PROMPT P m) None])%list).
Proof.
  cbv zeta. unfold selected_df.
  split; [now intros ->|]. split; [now intros proj -> ->|]. split.
  { intros proj t -> -> Hbad. unfold _prep_df.
    induction t as [|r rest IH]; [reflexivity|]. simpl.
    destruct (Hbad r (or_introl eq_refl)) as [e He].
    unfold _to_date. rewrite He. simpl. apply IH.
    intros r' Hr'. apply Hbad. now right. }
  fold (selected_df L st). unfold compute_forecast.
  split; [now intros ->|]. split.
  - intros Hne Herr. destruct (selected_df L st); [congruence|].
    destruct err; [reflexivity|congruence].
  - intros Hne ->. destruct (selected_df L st) as [|r0 rest] eqn:E; [congruence|].
    unfold bind, try_except, _call_gemini, gemini, lift, ret.
    destruct (generate_content S _ None) as [raw|e]; cbn [snd].
    + destruct (truthy (_parse_json_maybe L raw)) eqn:Ht.
      * rewrite Ht. cbn [negb].
        destruct (py_in "status" (_parse_json_maybe L raw)) as [[|]|]; reflexivity.
      * reflexivity.
    + reflexivity.
Qed.

(** X13. An answer that parses to a JSON object with a "status" field is
    returned as it is, whatever that status and the other fields are,
    together with the snapshot. *)
Theorem ai_verdict_returned_verbatim (st : session) (days today : Z)
    (log : list call) (text : string) (fields : list (string * json)) :
  selected_df L st <> [] ->
  let m := _last_n_days_metrics (selected_df L st) days today in
  generate_content S (PROMPT P m) None = Returns text ->
  _parse_json_maybe L text = JObj fields ->
  In "status" (map fst fields) ->
  fst (compute_forecast S L P None st days today log)
  = Returns (JObj fields, Snapshot m).
Proof.
  intros Hne m Ha Hp Hin. unfold compute_forecast.
  destruct (selected_df L st) as [|r0 rest] eqn:E; [congruence|].
  fold m. unfold bind, try_except, _call_gemini, gemini, lift, ret.
  rewrite Ha, Hp.
  assert (Ht : truthy (JObj fields) = true) by (destruct fields; [contradiction|reflexivity]).
  rewrite Ht. cbn [negb]. rewrite Ht. cbn [negb py_in].
  assert (Hex : existsb (fun kv => fst kv =? "status") fields = true).
  { apply existsb_exists. apply in_map_iff in Hin.
    destruct Hin as (kv & Hk & Hkv). exists kv. split; [exact Hkv|].
    rewrite Hk. apply String.eqb_refl. }
  rewrite Hex. reflexivity.
Qed.

End ForecastCalls.

(** ** Cutting the JSON object out of a longer answer *)

Section Extraction.

Import Effects Data PyStr Forecast.
Local Open Scope string_scope.

Lemma prefix_char c x r : prefix (String c EmptyString) (String x r) = Ascii.eqb x c.
Proof.
  cbn [prefix]. destruct (ascii_dec c x) as [<-|Hne].
  - rewrite Ascii.eqb_refl. now destruct r.
  - symmetry. apply Ascii.eqb_neq. congruence.
Qed.

Lemma prefix_char_nil c : prefix (String c EmptyString) EmptyString = false.
Proof. reflexivity. Qed.

Lemma find_char c pre rest i :
  lacks c pre = true ->
  find_from (String c EmptyString) (pre ++ String c rest) i
  = (i + Z.of_nat (length pre))%Z.
Proof.
  revert i. induction pre as [|x r IH]; intros i H.
  - cbn [append find_from length]. rewrite prefix_char, Ascii.eqb_refl. simpl. lia.
  - cbn [lacks all_chars] in H. apply andb_true_iff in H. destruct H as [Hx Hr].
    apply negb_true_iff in Hx.
    cbn [append find_from length]. rewrite prefix_char, Hx.
    rewrite (IH _ Hr). lia.
Qed.

Lemma rfind_none c post i best :
  lacks c post = true -> rfind_from (String c EmptyString) post i best = best.
Proof.
  revert i best. induction post as [|x r IH]; intros i best H.
  - reflexivity.
  - cbn [lacks all_chars] in H. apply andb_true_iff in H. destruct H as [Hx Hr].
    apply negb_true_iff in Hx.
    cbn [rfind_from]. rewrite prefix_char, Hx. now apply IH.
Qed.

Lemma rfind_char c a post i best :
  lacks c post = true ->
  rfind_from (String c EmptyString) (a ++ String c post) i best
  = (i + Z.of_nat (length a))%Z.
Proof.
  revert i best. induction a as [|x r IH]; intros i best H.
  - cbn [append rfind_from length]. rewrite prefix_char, Ascii.eqb_refl.
    rewrite (@rfind_none c post _ _ H). simpl. lia.
  - cbn [append rfind_from length]. rewrite (IH _ _ H). lia.
Qed.

Lemma substring_head body post :
  substring 0 (length body) (body ++ post) = body.
Proof.
  induction body as [|x r IH]; simpl.
  - now destruct post.
  - now rewrite IH.
Qed.

Lemma substring_middle pre body post :
  substring (length pre) (length body) (pre ++ body ++ post) = body.
Proof.
  induction pre as [|x r IH]; simpl; [apply substring_head|exact IH].
Qed.

Lemma string_length_app a b : length (a ++ b) = (length a + length b)%nat.
Proof.
  induction a as [|x r IH]; simpl; [reflexivity|]. now rewrite IH.
Qed.

Lemma string_app_assoc a b c : (a ++ b) ++ c = a ++ (b ++ c).
Proof.
  induction a as [|x r IH]; simpl; [reflexivity|]. now rewrite IH.
Qed.

Variable L : library.

(** X14. When an answer as a whole is not JSON but consists of some text
    without an opening brace, a part from an opening to a closing brace,
    and some text without a closing brace, the parser returns what
    [json.loads] makes of the part between the braces ([None] if that
    fails too). *)
Theorem parse_json_between_braces (pre mid post : string) :
  let body := "{" ++ mid ++ "}" in
  let text := pre ++ body ++ post in
  lacks "{" pre = true ->
  lacks "}" post = true ->
  json_loads L text = None ->
  _parse_json_maybe L text
  = match json_loads L body with
    | Some v => v
    | None => JNull
    end.
Proof.
  intros body text Hpre Hpost Hfail. unfold _parse_json_maybe. rewrite Hfail.
  assert (Hfind : find "{" text = Z.of_nat (length pre)).
  { unfold find, text, body. cbn [append]. now rewrite find_char. }
  assert (Hrfind : rfind "}" text = Z.of_nat (length pre + S (length mid))).
  { unfold rfind, text, body.
    replace (pre ++ ("{" ++ mid ++ "}") ++ post)
      with ((pre ++ "{" ++ mid) ++ String "}" post).
    - rewrite rfind_char by exact Hpost. rewrite string_length_app. simpl. lia.
    - rewrite !string_app_assoc. reflexivity. }
  cbv zeta. rewrite Hfind, Hrfind.
  assert (Hcond : negb (Z.of_nat (length pre) =? -1)%Z
                  && negb (Z.of_nat (length pre + S (length mid)) =? -1)%Z
                  && (Z.of_nat (length pre) <? Z.of_nat (length pre + S (length mid)))%Z
                  = true).
  { rewrite !andb_true_iff, !negb_true_iff, !Z.eqb_neq, Z.ltb_lt. lia. }
  rewrite Hcond.
  assert (Hslice : slice (Z.of_nat (length pre))
                     (Z.of_nat (length pre + S (length mid)) + 1) text = body).
  { unfold slice.
    replace (Z.to_nat (Z.of_nat (length pre))) with (length pre) by lia.
    replace (Z.to_nat (Z.of_nat (length pre + S (length mid)) + 1
                       - Z.of_nat (length pre)))
      with (length body).
    - apply substring_middle.
    - unfold body. cbn [append length]. rewrite string_length_app. simpl. lia. }
  now rewrite Hslice.
Qed.

End Extraction.

(** ** When the trend forecast answers, declines, or fails *)

Section ForecastOutcomes.

Import Effects Data Analytics.
Local Open Scope string_scope.

Variable L : library.




End ForecastOutcomes.

(** ** A steady spender *)

Section Steady.

Import Effects Data Analytics.
Local Open Scope Q_scope.





End Steady.

(** ** What the router sends out, and what it shows the model *)

Section RouterCalls.

Import Effects Data PyStr AiServices.
Local Open Scope string_scope.

Variable S : services.
Variable L : library.

Lemma string_leb_trans (a b c : string) :
  String.leb a b = true -> String.leb b c = true -> String.leb a c = true.
Proof.
  unfold String.leb. revert b c.
  induction a as [|x a IH]; intros [|y b] [|z c]; simpl; try congruence.
  unfold Ascii.compare.
  destruct (N.compare_spec (N_of_ascii x) (N_of_ascii y)) as [Exy|Hxy|Hxy];
    destruct (N.compare_spec (N_of_ascii y) (N_of_ascii z)) as [Eyz|Hyz|Hyz];
    try congruence; intros H1 H2.
  - rewrite Exy, Eyz, N.compare_refl. now apply (IH b c).
  - rewrite Exy. now rewrite (proj2 (N.compare_lt_iff _ _) Hyz).
  - rewrite <- Eyz. now rewrite (proj2 (N.compare_lt_iff _ _) Hxy).
  - now rewrite (proj2 (N.compare_lt_iff _ _) (N.lt_trans _ _ _ Hxy Hyz)).
Qed.

(** X17. For a table that is not empty the model is shown at most twenty
    rows, [min 20 (len df)] of them, latest date first (dates compared as
    the texts they are stored as); the rows shown and the rows left out
    are together the rows of the table, and no row left out has a later
    date than a row shown. *)
Theorem context_snippet_latest_twenty (df : table) :
  df <> [] ->
  exists shown hidden,
    context_snippet L df = df_to_string L shown
    /\ List.length shown = Nat.min 20 (List.length df)
    /\ Permutation (shown ++ hidden) df
    /\ StronglySorted latest_first shown
    /\ (forall x y, In x shown -> In y hidden -> latest_first x y).
Proof.
  intros Hne.
  set (before := fun x y : row => String.leb (date y) (date x)).
  assert (Htot : forall x y, before x y = true \/ before y x = true).
  { intros x y. unfold before. apply String.leb_total. }
  assert (Htr : forall x y z, before x y = true -> before y z = true -> before x z = true).
  { intros x y z H1 H2. unfold before in *. exact (string_leb_trans _ _ _ H2 H1). }
  destruct (@top_of_sort _ before Htot Htr 20 df) as (_ & Hs & Hp & Hsplit).
  exists (firstn 20 (sort before df)), (skipn 20 (sort before df)).
  split; [|split; [|split; [|split]]].
  - unfold context_snippet. destruct df; [congruence|reflexivity].
  - rewrite length_firstn, (@sort_length _ before). reflexivity.
  - exact Hp.
  - exact Hs.
  - exact Hsplit.
Qed.

(** X18. One run of the router sends the classification request first and
    at most one request after it.  A Granite request is made only when the
    classified intent contains CATEGORIZATION.  When the intent contains
    FORECASTING and not CATEGORIZATION no second request is made and the
    answer is the forecast's own text, or the apology for its exception.
    When the classification request raises, nothing else is sent. *)
Theorem router_call_budget (user_query : string) (df : table) (log : list call) :
  let asked := generate_content S (classifier_prompt user_query) (Some 20%N) in
  exists rest,
    snd (get_ai_response S L user_query df log)
    = (log ++ GeminiCall (classifier_prompt user_query) (Some 20%N) :: rest)%list
    /\ (List.length rest <= 1)%nat
    /\ (forall p a, In (GraniteCall p a) rest ->
          exists text, asked = Returns text
                       /\ contains "CATEGORIZATION" (upper (strip text)) = true)
    /\ (forall text, asked = Returns text ->
          contains "CATEGORIZATION" (upper (strip text)) = false ->
          contains "FORECASTING" (upper (strip text)) = true ->
          rest = []
          /\ fst (get_ai_response S L user_query df log)
             = match Analytics.get_forecast L df with
               | Returns s => Returns s
               | Raises e => Returns (apology e)
               end)
    /\ (forall e, asked = Raises e -> rest = []).
Proof.
  cbv zeta.
  unfold get_ai_response, try_except, bind, gemini, lift, ret.
  destruct (generate_content S (classifier_prompt user_query) (Some 20%N))
    as [text|e0] eqn:Hc.
  - destruct (contains "CATEGORIZATION" (upper (strip text))) eqn:Hcat.
    + unfold get_transaction_category, try_except, granite, ret.
      exists [GraniteCall (category_prompt (description_of user_query)) "/predict"].
      split.
      { destruct (predict S _ _); simpl; now rewrite <- app_assoc. }
      split; [simpl; lia|]. split; [|split].
      * intros p a _. exists text. now split.
      * intros t [= <-]. congruence.
      * discriminate.
    + destruct (contains "FORECASTING" (upper (strip text))) eqn:Hfor.
      * exists []. split.
        { now destruct (Analytics.get_forecast L df). }
        split; [simpl; lia|]. split; [|split].
        -- intros p a [].
        -- intros t [= <-] _ _. split; [reflexivity|].
           now destruct (Analytics.get_forecast L df).
        -- discriminate.
      * match goal with
        | |- context [generate_content S ?p None] =>
            exists [GeminiCall p None]; destruct (generate_content S p None)
        end.
        all: (split; [simpl; now rewrite <- app_assoc|]);
          (split; [simpl; lia|]); (split; [|split]);
          [ intros p0 a0 [H|[]]; discriminate
          | intros t [= <-]; congruence
          | discriminate ].
  - exists []. split; [reflexivity|]. split; [simpl; lia|]. split; [|split].
    + intros p a [].
    + discriminate.
    + reflexivity.
Qed.

End RouterCalls.

(** ** Market data *)

Section Market.

Import Effects Data PyStr StockMarket.
Local Open Scope string_scope.

Variable History : Type.
Variable Y : yfinance History.

(** X19. [get_stock_data] asks the data source only about the trimmed
    symbol, and asks nothing for a blank symbol or after a failed import.
    The price history is asked for only after the company info came back
    with a price entry.  A quote is returned only with the info the source
    gave, holding "currentPrice" or "regularMarketPrice", after both
    requests; an exception of either request comes back as the text
    "Error while fetching data: ..." in place of a quote. *)
Theorem get_stock_data_spec (ticker_symbol : string) :
  let symbol := strip ticker_symbol in
  let result := fst (get_stock_data Y ticker_symbol) in
  let fetched := snd (get_stock_data Y ticker_symbol) in
  (fetched = [] \/ fetched = [InfoFetch symbol]
   \/ fetched = [InfoFetch symbol; HistoryFetch symbol])
  /\ (symbol = EmptyString \/ yf_import Y <> None -> fetched = [])
  /\ (In (HistoryFetch symbol) fetched ->
      exists info, ticker_info Y symbol = Returns (Some info)
                   /\ (has_key "currentPrice" info
                       || has_key "regularMarketPrice" info) = true)
  /\ (forall info hist, result = Quote info hist ->
        ticker_info Y symbol = Returns (Some info)
        /\ (has_key "currentPrice" info || has_key "regularMarketPrice" info) = true
        /\ fetched = [InfoFetch symbol; HistoryFetch symbol]
        /\ exists h, ticker_history Y symbol = Returns h
                     /\ (hist = h \/ (nonempty_frame Y h = true
                                      /\ datetime_index Y h = Some hist)))
  /\ (forall e, yf_import Y = None -> symbol <> EmptyString ->
        ticker_info Y symbol = Raises e
        \/ (fetched = [InfoFetch symbol; HistoryFetch symbol]
            /\ ticker_history Y symbol = Raises e) ->
        result = NoData ("Error while fetching data: " ++ str_exn e)).
Proof.
  cbv zeta. unfold get_stock_data.
  destruct (yf_import Y) as [e0|] eqn:Himp.
  { cbn [fst snd]. repeat split; try tauto; try discriminate; try (intros []). }
  destruct (String.eqb_spec (strip ticker_symbol) EmptyString) as [Hs|Hs].
  { cbn [fst snd]. repeat split; try tauto; try discriminate; try (intros []);
      try (intros; congruence). }
  destruct (ticker_info Y (strip ticker_symbol)) as [i|e1] eqn:Hi.
  2:{ cbn [fst snd]. split; [tauto|]. split; [intros [H|H]; congruence|].
      split; [intros [H|[]]; discriminate|]. split; [discriminate|].
      intros e _ _ [[= <-]|[H _]]; [reflexivity|discriminate]. }
  set (info := match i with Some ((_ :: _) as d) => d | _ => [] end).
  destruct (has_key "currentPrice" info || has_key "regularMarketPrice" info) eqn:Hp;
    cbn [negb].
  2:{ cbn [fst snd]. split; [tauto|]. split; [intros [H|H]; congruence|].
      split; [intros [H|[]]; discriminate|]. split; [discriminate|].
      intros e _ _ [H|[H _]]; discriminate. }
  assert (Hinfo : i = Some info).
  { subst info. destruct i as [[|kv d]|]; try reflexivity; simpl in Hp; discriminate. }
  destruct (ticker_history Y (strip ticker_symbol)) as [h|e2] eqn:Hh; cbn [fst snd].
  - split; [tauto|]. split; [intros [H|H]; congruence|].
    split; [intros _; exists info; now rewrite Hinfo|].
    split.
    + intros info' hist [= <- <-]. rewrite Hinfo. repeat split; try assumption.
      exists h. split; [reflexivity|].
      destruct (nonempty_frame Y h); [|now left].
      destruct (datetime_index Y h); [now right|now left].
    + intros e _ _ [H|[_ H]]; discriminate.
  - split; [tauto|]. split; [intros [H|H]; congruence|].
    split; [intros _; exists info; now rewrite Hinfo|].
    split; [discriminate|].
    intros e _ _ [H|[_ [= <-]]]; [discriminate|reflexivity].
Qed.

(** [get_stock_analysis] calls the two-argument router with the prompt
    alone, so the call fails before any request is sent: for every company
    the analysis shown is the text of the final guard. *)
Remark get_stock_analysis_never_reaches_model
    (json_dumps : info_dict -> string) (info : info_dict) (log : list call) :
  get_stock_analysis json_dumps info log
  = (Returns ("An error occurred during AI analysis: "
              ++ "get_ai_response() missing 1 required positional argument: 'df'"),
     log).
Proof. reflexivity. Qed.

End Market.

(** ** Group totals add up *)

Section GroupTotals.

Import Data.
Local Open Scope Q_scope.

Variable K : Type.
Variable cmp : K -> K -> comparison.
Hypothesis cmp_eq : forall a b, cmp a b = Eq <-> a = b.
Hypothesis cmp_antisym : forall a b, cmp a b = CompOpp (cmp b a).
Hypothesis cmp_trans : forall a b c, cmp a b = Lt -> cmp b c = Lt -> cmp a c = Lt.

Let lt (a b : K) : Prop := cmp a b = Lt.

Lemma insert_key_sorted k keys :
  StronglySorted lt keys -> StronglySorted lt (insert_key cmp k keys).
Proof.
  induction 1 as [|k' r Hs IH Hall]; simpl; [repeat constructor|].
  destruct (cmp k k') eqn:E.
  - now constructor.
  - constructor; [now constructor|]. constructor; [exact E|].
    eapply Forall_impl; [|exact Hall]. intros z Hz. exact (cmp_trans E Hz).
  - constructor; [exact IH|].
    apply Forall_forall. intros z Hz. apply insert_key_In in Hz; [|exact cmp_eq].
    destruct Hz as [->|Hz].
    + unfold lt. rewrite cmp_antisym, E. reflexivity.
    + rewrite Forall_forall in Hall. now apply Hall.
Qed.

Lemma group_keys_sorted kvs : StronglySorted lt (group_keys cmp kvs).
Proof.
  unfold group_keys. induction (map fst kvs) as [|k r IH]; simpl; [constructor|].
  now apply insert_key_sorted.
Qed.

Lemma group_keys_NoDup kvs : NoDup (group_keys cmp kvs).
Proof.
  induction (group_keys_sorted kvs) as [|k r Hs IH Hall]; constructor; [|exact IH].
  intros Hin. rewrite Forall_forall in Hall. specialize (Hall k Hin).
  unfold lt in Hall. rewrite (proj2 (cmp_eq k k) eq_refl) in Hall. discriminate.
Qed.

Lemma Qsum_pointwise (A : Type) (f g h : A -> Q) l :
  (forall x, In x l -> f x == g x + h x) ->
  Qsum (map f l) == Qsum (map g l) + Qsum (map h l).
Proof.
  unfold Qsum. induction l as [|x r IH]; intros H; simpl; [ring|].
  assert (Hr := IH (fun y Hy => H y (or_intror Hy))).
  rewrite (H x (or_introl eq_refl)), Hr. ring.
Qed.

Lemma sum_indicator k v keys :
  NoDup keys ->
  Qsum (map (fun k' => if same_key cmp k k' then v else 0) keys)
  == if existsb (same_key cmp k) keys then v else 0.
Proof.
  induction 1 as [|k' r Hnot Hnd IH]; simpl; [reflexivity|].
  unfold Qsum in IH. rewrite IH.
  destruct (same_key cmp k k') eqn:E; simpl; [|ring].
  apply (same_key_eq cmp cmp_eq) in E. subst k'.
  destruct (existsb (same_key cmp k) r) eqn:Ex; [|ring].
  apply existsb_exists in Ex. destruct Ex as (z & Hz & Hkz).
  apply (same_key_eq cmp cmp_eq) in Hkz. subst z. contradiction.
Qed.

Lemma sum_group_totals kvs keys :
  NoDup keys ->
  (forall k, In k (map fst kvs) -> In k keys) ->
  Qsum (map (fun k => group_total cmp k kvs) keys) == Qsum (map snd kvs).
Proof.
  intros Hnd. induction kvs as [|[k v] r IH]; intros Hcover.
  - clear Hnd Hcover. unfold group_total, Qsum. simpl.
    induction keys as [|k r IHk]; simpl; [reflexivity|]. rewrite IHk. ring.
  - rewrite (@Qsum_pointwise _ _
               (fun k' => if same_key cmp k k' then v else 0)
               (fun k' => group_total cmp k' r)).
    + rewrite (sum_indicator k v Hnd), IH.
      * assert (Hex : existsb (same_key cmp k) keys = true).
        { apply existsb_exists. exists k. split; [apply Hcover; now left|].
          now apply (same_key_eq cmp cmp_eq). }
        rewrite Hex. reflexivity.
      * intros k' Hk'. apply Hcover. now right.
    + intros k' _. unfold group_total. cbn [filter fst].
      destruct (same_key cmp k k'); simpl; ring.
Qed.

Lemma groupby_sum_total kvs :
  Qsum (map snd (groupby_sum cmp kvs)) == Qsum (map snd kvs).
Proof.
  unfold groupby_sum. rewrite map_map. cbn [snd].
  apply sum_group_totals; [apply group_keys_NoDup|].
  intros k Hk. now apply (group_keys_In cmp cmp_eq).
Qed.

Lemma groupby_sum_NoDup kvs : NoDup (map fst (groupby_sum cmp kvs)).
Proof. rewrite groupby_sum_keys. apply group_keys_NoDup. Qed.

End GroupTotals.

Lemma Qsum_permutation (l l' : list Q) : Permutation l l' -> (Data.Qsum l == Data.Qsum l')%Q.
Proof.
  unfold Data.Qsum.
  induction 1 as [|x l l' _ IH|x y l|l l' l'' _ IH1 _ IH2]; simpl.
  - reflexivity.
  - now rewrite IH.
  - ring.
  - now rewrite IH1.
Qed.

Lemma string_compare_lt_trans (a b c : string) :
  String.compare a b = Lt -> String.compare b c = Lt -> String.compare a c = Lt.
Proof.
  revert b c.
  induction a as [|x a IH]; intros [|y b] [|z c]; simpl; try congruence.
  unfold Ascii.compare.
  destruct (N.compare_spec (N_of_ascii x) (N_of_ascii y)) as [Exy|Hxy|Hxy];
    destruct (N.compare_spec (N_of_ascii y) (N_of_ascii z)) as [Eyz|Hyz|Hyz];
    try congruence; intros H1 H2.
  - rewrite Exy, Eyz, N.compare_refl. now apply (IH b c).
  - rewrite Exy. now rewrite (proj2 (N.compare_lt_iff _ _) Hyz).
  - rewrite <- Eyz. now rewrite (proj2 (N.compare_lt_iff _ _) Hxy).
  - now rewrite (proj2 (N.compare_lt_iff _ _) (N.lt_trans _ _ _ Hxy Hyz)).
Qed.

(** ** The dashboard *)

Section Dashboard.

Import Effects Data PyStr Forecast Reports.
Local Open Scope Q_scope.

Variable L : library.

Lemma prep_amounts (mask : bool -> bool) (df : table) :
  map p_amount (filter (fun r => mask (is_income r)) (_prep_df L df))
  = map amount (filter (fun r => mask (income_row r)) (dated_rows L df)).
Proof.
  unfold _prep_df, dated_rows, _to_date, income_row.
  induction df as [|r rest IH]; simpl; [reflexivity|].
  destruct (to_datetime L (date r)); simpl; [|exact IH].
  destruct (mask _); simpl; now rewrite IH.
Qed.

Lemma prep_dates (df : table) p :
  In p (_prep_df L df) ->
  exists r, In r df /\ to_datetime L (date r) = Returns (p_date p).
Proof.
  unfold _prep_df, _to_date. rewrite in_flat_map. intros (r & Hr & Hp).
  exists r. split; [exact Hr|].
  destruct (to_datetime L (date r)); simpl in Hp; [|tauto].
  destruct Hp as [<-|[]]. reflexivity.
Qed.

Lemma filter_all (A : Type) (f : A -> bool) l :
  (forall x, In x l -> f x = true) -> filter f l = l.
Proof.
  induction l as [|x r IH]; intros H; simpl; [reflexivity|].
  rewrite (H x (or_introl eq_refl)), IH; [reflexivity|].
  intros y Hy. apply H. now right.
Qed.

Lemma Qsum_filter_split (A : Type) (f : A -> bool) (g : A -> Q) l :
  Qsum (map g (filter f l)) + Qsum (map g (filter (fun x => negb (f x)) l))
  == Qsum (map g l).
Proof.
  unfold Qsum. induction l as [|x r IH]; simpl; [ring|].
  destruct (f x); simpl; rewrite <- IH; ring.
Qed.

(** X20. On a table that is not empty the dashboard shows three figures.
    Total Income and Total Expenses together are the sum of the amounts of
    all rows whose date parses.  When every such date lies in the current
    window of the forecast snapshot, the three figures are the snapshot's
    income, expense and net. *)
Theorem dashboard_matches_snapshot (df : table) (days today : Z) :
  df <> [] ->
  exists k,
    dashboard_metrics L df = Some k
    /\ total_income k + total_expense k == Qsum (map amount (dated_rows L df))
    /\ net_savings k = total_income k - total_expense k
    /\ ((forall r d, In r df -> to_datetime L (date r) = Returns d ->
           (today - (days - 1) <= d <= today)%Z) ->
        let m := _last_n_days_metrics (_prep_df L df) days today in
        total_income k = income m
        /\ total_expense k = expense m
        /\ net_savings k = net m).
Proof.
  intros Hne. unfold dashboard_metrics.
  destruct df as [|r0 rest] eqn:Hdf; [congruence|]. rewrite <- Hdf. clear Hne.
  eexists. split; [reflexivity|]. cbn [total_income total_expense net_savings].
  split; [apply Qsum_filter_split|]. split; [reflexivity|].
  intros Hwin. cbv zeta.
  unfold _last_n_days_metrics. cbn [income expense net]. unfold sum_where.
  assert (Hall : _window (_prep_df L df) (today - (days - 1)) today = _prep_df L df).
  { unfold _window. apply filter_all. intros p Hp.
    destruct (prep_dates _ _ Hp) as (r & Hr & Hd).
    specialize (Hwin r (p_date p) Hr Hd).
    apply andb_true_iff. split; apply Z.leb_le; lia. }
  rewrite Hall.
  rewrite (prep_amounts (fun b => b)), (prep_amounts negb).
  repeat split.
Qed.

(** X21. The slices of the "Spending by Category" chart: one slice per
    category, each category that of some row counted as expense, larger
    slices first, and the slices add up to Total Expenses. *)
Theorem spending_slices_add_up (df : table) (k : key_metrics) :
  dashboard_metrics L df = Some k ->
  let slices := cat_sum L df in
  NoDup (map fst slices)
  /\ (forall c, In c (map fst slices) <->
                exists r, In r (dated_rows L df) /\ income_row r = false
                          /\ category r = c)
  /\ StronglySorted (fun x y => snd y <= snd x) slices
  /\ Qsum (map snd slices) == total_expense k.
Proof.
  unfold dashboard_metrics. destruct df as [|r0 rest] eqn:Hdf; [discriminate|].
  rewrite <- Hdf. intros [= <-]. cbv zeta. cbn [total_expense].
  unfold cat_sum.
  set (exp_only := filter (fun r => negb (income_row r)) (dated_rows L df)).
  set (kvs := map (fun r => (category r, amount r)) exp_only).
  pose proof (@sort_perm _ larger_first (groupby_sum String.compare kvs)) as Hperm.
  split; [|split; [|split]].
  - apply (Permutation_NoDup (l := map fst (groupby_sum String.compare kvs))).
    + symmetry. now apply Permutation_map.
    + apply groupby_sum_NoDup;
        [ exact string_compare_eq | exact String.compare_antisym
        | exact string_compare_lt_trans ].
  - intros c. split.
    + intros Hc. apply (Permutation_in _ (Permutation_map fst Hperm)) in Hc.
      rewrite groupby_sum_keys in Hc.
      apply (group_keys_In String.compare string_compare_eq) in Hc.
      unfold kvs in Hc. rewrite map_map in Hc. cbn [fst] in Hc.
      apply in_map_iff in Hc. destruct Hc as (r & Hr & Hin).
      unfold exp_only in Hin. apply filter_In in Hin. destruct Hin as [Hin Hinc].
      exists r. repeat split; try assumption. now apply negb_true_iff.
    + intros (r & Hin & Hinc & <-).
      apply (Permutation_in _ (Permutation_sym (Permutation_map fst Hperm))).
      rewrite groupby_sum_keys.
      apply (group_keys_In String.compare string_compare_eq).
      unfold kvs. rewrite map_map. cbn [fst].
      apply (in_map category). unfold exp_only. apply filter_In.
      split; [exact Hin|now rewrite Hinc].
  - eapply sorted_weaken; [|apply (@sort_sorted _ larger_first larger_first_total
                                     larger_first_trans)].
    intros x y H. unfold larger_first in H. now apply Qle_bool_iff.
  - rewrite (Qsum_permutation (Permutation_map snd Hperm)).
    rewrite (@groupby_sum_total _ String.compare string_compare_eq
               String.compare_antisym string_compare_lt_trans).
    unfold kvs. rewrite map_map. cbn [snd]. reflexivity.
Qed.

End Dashboard.

(** ** The tabs that call the router *)

Section Tabs.

Import Effects Data PyStr AiServices.
Local Open Scope string_scope.

Variable S : services.
Variable L : library.

(** The router returns, having sent one or two requests. *)
Lemma router_returns (user_query : string) (df : table) (log : list call) :
  exists answer sent,
    get_ai_response S L user_query df log = (Returns answer, (log ++ sent)%list)
    /\ (1 <= List.length sent <= 2)%nat.
Proof.
  unfold get_ai_response, try_except, bind, gemini, lift, ret.
  destruct (generate_content S (classifier_prompt user_query) (Some 20%N)) as [text|e].
  - destruct (contains "CATEGORIZATION" (upper (strip text))).
    + unfold get_transaction_category, try_except, granite, ret.
      destruct (predict S _ _); eexists; eexists; rewrite <- app_assoc;
        (split; [reflexivity|simpl; lia]).
    + destruct (contains "FORECASTING" (upper (strip text))).
      * destruct (Analytics.get_forecast L df); eexists; eexists;
          (split; [reflexivity|simpl; lia]).
      * match goal with
        | |- context [generate_content S ?p None] => destruct (generate_content S p None)
        end; eexists; eexists; rewrite <- app_assoc;
          (split; [reflexivity|simpl; lia]).
  - eexists; eexists. split; [reflexivity|simpl; lia].
Qed.

Section ChatTab.

Import Chat.

Lemma exchanges_app (tail : list message) :
  forall n ms, (List.length ms <= n)%nat -> exchanges ms = true ->
               exchanges (ms ++ tail) = exchanges tail.
Proof.
  induction n as [|n IH]; intros [|q [|a rest]] Hlen H; simpl in *;
    try reflexivity; try discriminate; try lia.
  apply andb_true_iff in H. destruct H as [H Hrest]. rewrite H. simpl.
  apply IH; [lia|exact Hrest].
Qed.

(** X22. One run of the chat tab raises nothing.  It either leaves the
    transcript as it is, sending no request, or appends one exchange: a
    prompt that is not empty, as the user's message, and the router's
    answer to it, as the assistant's.  A prompt waiting from an example
    button is used before the typed input and is cleared.  A transcript
    made of whole exchanges stays one. *)
Theorem chat_turn_spec (df : table) (clicked : click) (chat_input : option string)
    (st : chat_state) (log : list call) :
  exists st' log',
    render_chat_tab S L df clicked chat_input st log = (Returns st', log')
    /\ ((messages st' = messages st /\ log' = log)
        \/ exists prompt response,
             prompt <> EmptyString
             /\ get_ai_response S L prompt df log = (Returns response, log')
             /\ messages st'
                = (messages st
                   ++ [ {| role := "user"; content := prompt |};
                        {| role := "assistant"; content := response |} ])%list
             /\ (if nonempty_text (prompt_from_button st)
                 then prompt_from_button st = Some prompt
                      /\ prompt_from_button st' = None
                 else chat_input = Some prompt
                      /\ prompt_from_button st' = prompt_from_button st))
    /\ (exchanges (messages st) = true -> exchanges (messages st') = true).
Proof.
  unfold render_chat_tab.
  destruct (example_prompt st clicked) as [p|].
  { unfold ret. eexists; eexists. split; [reflexivity|]. simpl. split; [now left|tauto]. }
  set (pending := nonempty_text (prompt_from_button st)).
  set (prompt := if pending then prompt_from_button st else chat_input).
  set (button := if pending then None else prompt_from_button st).
  assert (Hquiet : forall log0,
             exists st' log',
               ret {| messages := messages st; prompt_from_button := button |} log0
               = (Returns st', log')
               /\ messages st' = messages st /\ log' = log0).
  { intros log0. unfold ret. eexists; eexists. repeat split. }
  destruct prompt as [[|c p]|] eqn:Hp.
  - destruct (Hquiet log) as (st' & log' & -> & Hm & Hl).
    exists st', log'. split; [reflexivity|]. split; [now left|now rewrite Hm].
  - destruct (router_returns (String c p) df log) as (answer & sent & Hr & _).
    unfold bind, ret. rewrite Hr.
    eexists; eexists. split; [reflexivity|]. cbn [messages prompt_from_button].
    split.
    + right. exists (String c p), answer.
      split; [discriminate|]. split; [exact Hr|]. split; [reflexivity|].
      subst prompt button. fold pending. destruct pending; now split.
    + intros Hex. rewrite (exchanges_app _ (n := List.length (messages st)))
        by (try lia; exact Hex).
      reflexivity.
  - destruct (Hquiet log) as (st' & log' & -> & Hm & Hl).
    exists st', log'. split; [reflexivity|]. split; [now left|now rewrite Hm].
Qed.

End ChatTab.

Section PlanningTab.

Import Planning.

(** X23. One run of the planning tab.  If the trend forecast raises, the
    tab raises the same exception before the budget button is looked at
    and sends no request.  Otherwise it shows the forecast text, and the
    budget plan entry changes only when the button is pressed while no
    plan is stored: then the router is asked once, with the fixed budget
    prompt, and its answer is stored.  A stored plan is never replaced,
    whatever the table has become, and no request is sent for it. *)
Theorem planning_tab_spec (budget_plan : option string) (clicked : bool)
    (df : table) (log : list call) :
  (forall e, Analytics.get_forecast L df = Raises e ->
     render_planning_tab S L budget_plan clicked df log = (Raises e, log))
  /\ (forall text, Analytics.get_forecast L df = Returns text ->
        exists plan' log',
          render_planning_tab S L budget_plan clicked df log
          = (Returns (plan', (text, plan_shown plan')), log')
          /\ (clicked = false \/ budget_plan <> None ->
              plan' = budget_plan /\ log' = log)
          /\ (clicked = true -> budget_plan = None ->
              exists answer,
                get_ai_response S L BUDGET_PROMPT df log = (Returns answer, log')
                /\ plan' = Some answer
                /\ (List.length log < List.length log' <= List.length log + 2)%nat)).
Proof.
  unfold render_planning_tab, generate_clicked, bind, lift, ret. split.
  - intros e ->. reflexivity.
  - intros text ->.
    destruct clicked.
    + destruct budget_plan as [plan|].
      * eexists; eexists. split; [reflexivity|]. split; [tauto|discriminate].
      * destruct (router_returns BUDGET_PROMPT df log) as (answer & sent & Hr & Hlen).
        rewrite Hr. eexists; eexists. split; [reflexivity|]. split.
        -- intros [H|H]; [discriminate|congruence].
        -- intros _ _. exists answer. split; [reflexivity|]. split; [reflexivity|].
           rewrite length_app. lia.
    + eexists; eexists. split; [reflexivity|]. split; [tauto|discriminate].
Qed.

End PlanningTab.

End Tabs.

(** ** The statements above at sample data *)

Lemma rising_bounded (q : string) :
  Projects.amounts_bounded (Sidebar.current_table (Demo.one_project Demo.rising) q).
Proof.
  unfold Sidebar.current_table, Demo.one_project. cbn [Data.projects Data.lookup].
  destruct (String.eqb q "Default"); [|constructor].
  unfold Sidebar._force_numeric, Demo.rising.
  repeat constructor; cbn [Data.amount]; unfold Qle; simpl; lia.
Qed.

Lemma slider_30000_in_range :
  Sidebar.amount_mode_of Samples.slider_30000 = Sidebar.UseSlider ->
  Sidebar.slider_in_range Samples.slider_30000.
Proof. intros _. split; vm_compute; discriminate. Qed.

Lemma slider_30000_block :
  Sidebar.amount_block Samples.slider_30000
  = Effects.Returns (Some (Dec.mk_decimal false 300000000000000 (-10))).
Proof. vm_compute. reflexivity. Qed.

Lemma sidebar_keeps_amounts_bounded_witness :
  Projects.amounts_bounded
    (Sidebar.current_table
       (Sidebar.set_table (Demo.one_project Demo.rising) "Default"
          (Sidebar._force_numeric (List.tl Demo.rising)))
       "Default").
Proof.
  apply (@sidebar_keeps_amounts_bounded (Demo.one_project Demo.rising) "Default"
           Samples.slider_30000 "2024-01-03" "Rent" EmptyString "Trip" 0
           _ (Sidebar.st_success "Transaction deleted.")
           slider_30000_in_range rising_bounded).
  right. right. left. reflexivity.
Defined.

Lemma add_then_delete_restores_witness :
  exists st2,
    Projects.delete_clicked
      (Sidebar.set_table (Demo.one_project Demo.rising) "Default"
         (Sidebar._append_transaction
            (Sidebar.current_table (Demo.one_project Demo.rising) "Default")
            "2024-01-03" "Rent" (Dec.mk_decimal false 300000000000000 (-10)) " flat "))
      "Default" 3
    = Effects.Returns (st2, Sidebar.st_success "Transaction deleted.")
    /\ Sidebar.current_table st2 "Default" = Demo.rising.
Proof.
  assert (Hadd : Sidebar.add_clicked (Demo.one_project Demo.rising) "Default"
                   Samples.slider_30000 "2024-01-03" "Rent" " flat "
                 = Effects.Returns
                     (Sidebar.set_table (Demo.one_project Demo.rising) "Default"
                        (Sidebar._append_transaction
                           (Sidebar.current_table (Demo.one_project Demo.rising) "Default")
                           "2024-01-03" "Rent"
                           (Dec.mk_decimal false 300000000000000 (-10)) " flat "),
                      Sidebar.st_success
                        ("Added ₹" ++ Fmt.money
                                        (Float.of_decimal
                                           (Dec.mk_decimal false 300000000000000 (-10)))))).
  { unfold Sidebar.add_clicked. rewrite slider_30000_block. reflexivity. }
  destruct (@add_then_delete_restores _ _ _ _ _ _ _ _ Hadd) as (st2 & Hdel & Hsame).
  exists st2. split; [exact Hdel|]. exact (Hsame "Default"%string).
Defined.

Lemma save_replaces_one_row_witness :
  List.length
    (Sidebar.current_table
       (Sidebar.set_table (Demo.one_project Demo.rising) "Default"
          (Sidebar._update_transaction
             (Sidebar.current_table (Demo.one_project Demo.rising) "Default") 1
             "2024-01-02" "Rent" (Dec.mk_decimal false 300000000000000 (-10)) "flat"))
       "Default")
  = 3%nat.
Proof.
  assert (Hsave : Sidebar.save_clicked (Demo.one_project Demo.rising) "Default" 1
                    Samples.slider_30000 "2024-01-02" "Rent" "flat"
                  = Effects.Returns
                      (Sidebar.set_table (Demo.one_project Demo.rising) "Default"
                         (Sidebar._update_transaction
                            (Sidebar.current_table (Demo.one_project Demo.rising) "Default") 1
                            "2024-01-02" "Rent"
                            (Dec.mk_decimal false 300000000000000 (-10)) "flat"),
                       Sidebar.st_success
                         ("Updated to ₹" ++ Fmt.money
                                             (Float.of_decimal
                                                (Dec.mk_decimal false 300000000000000 (-10)))))).
  { unfold Sidebar.save_clicked. rewrite slider_30000_block. reflexivity. }
  assert (Hidx : (1 < List.length
                        (Sidebar.current_table (Demo.one_project Demo.rising) "Default"))%nat)
    by (vm_compute; lia).
  destruct (@save_replaces_one_row _ _ _ _ _ _ _ _ _ Hsave Hidx) as (Hlen & _ & _).
  rewrite Hlen. reflexivity.
Defined.

Lemma delete_removes_one_row_witness :
  exists st',
    Projects.delete_clicked (Demo.one_project Demo.rising) "Default" 1
    = Effects.Returns (st', Sidebar.st_success "Transaction deleted.")
    /\ List.length (Sidebar.current_table st' "Default") = 2%nat.
Proof.
  destruct (@delete_removes_one_row (Demo.one_project Demo.rising) "Default" 1) as [H _].
  assert (Hidx : (1 < List.length
                        (Sidebar.current_table (Demo.one_project Demo.rising) "Default"))%nat)
    by (vm_compute; lia).
  destruct (H Hidx) as (st' & Hdel & _ & Hlen).
  exists st'. split; [exact Hdel|].
  change (List.length (Sidebar.current_table (Demo.one_project Demo.rising) "Default"))
    with 3%nat in Hlen.
  now injection Hlen as <-.
Defined.

Lemma actions_touch_one_project_witness :
  Data.selected_project
    (Sidebar.set_table (Demo.one_project Demo.rising) "Default"
       (Sidebar._force_numeric (List.tl Demo.rising)))
  = Some "Default"%string.
Proof.
  destruct (@actions_touch_one_project (Demo.one_project Demo.rising) "Default"
              Samples.slider_30000 "2024-01-03" "Rent" EmptyString 0
              (Sidebar.set_table (Demo.one_project Demo.rising) "Default"
                 (Sidebar._force_numeric (List.tl Demo.rising)))
              (Sidebar.st_success "Transaction deleted."))
    as (Hsel & _).
  - right. right. reflexivity.
  - exact Hsel.
Defined.

Lemma create_project_spec_witness :
  Data.selected_project
    (fst (Projects.create_clicked (Demo.one_project Demo.rising) "  Trip "))
  = Some "Trip"%string.
Proof.
  destruct (create_project_spec (Demo.one_project Demo.rising) "  Trip ") as [_ H].
  destruct H as (Hsel & _).
  - vm_compute. discriminate.
  - vm_compute. reflexivity.
  - rewrite Hsel. vm_compute. reflexivity.
Defined.

Lemma windows_partition_witness :
  Forecast.category_spikes
    (Forecast._last_n_days_metrics (Forecast._prep_df Iso.lib Demo.two_months) 0 Demo.jan3)
  = [].
Proof.
  destruct (windows_partition (Forecast._prep_df Iso.lib Demo.two_months) 0 Demo.jan3)
    as (_ & _ & _ & H).
  destruct H as (_ & _ & _ & _ & _ & _ & Hsp); [lia|exact Hsp].
Defined.

Lemma snapshot_totals_witness :
  (Forecast.savings_rate_pct
     (Forecast._last_n_days_metrics (Forecast._prep_df Iso.lib Demo.two_months)
        30 Demo.jan3)
   <= 100)%Q.
Proof.
  destruct (snapshot_totals (Forecast._prep_df Iso.lib Demo.two_months) 30 Demo.jan3)
    as [_ H].
  destruct H as (_ & _ & _ & Hrate & _); [|exact Hrate].
  assert (Hall : forallb (fun r => Qle_bool 0 (Forecast.p_amount r))
                   (Forecast._prep_df Iso.lib Demo.two_months) = true)
    by (vm_compute; reflexivity).
  intros r Hr. rewrite forallb_forall in Hall. now apply Qle_bool_iff, Hall.
Defined.

Lemma local_status_safety_witness :
  fst (Forecast._local_status Samples.deficit) = "LIGHT_SHOWERS"%string
  \/ fst (Forecast._local_status Samples.deficit) = "THUNDERSTORMS"%string.
Proof.
  destruct (local_status_safety Samples.deficit) as (_ & H & _).
  apply H. vm_compute. reflexivity.
Defined.

Lemma compute_forecast_requests_witness :
  Forecast.compute_forecast Demo.gemini_chatty Iso.lib Demo.plain_printers
    (Some "Missing GOOGLE_API_KEY."%string) (Demo.one_project Demo.rising) 30 Demo.jan3 []
  = (Effects.Returns
       (Forecast.local_verdict
          (Forecast._last_n_days_metrics
             (Forecast.selected_df Iso.lib (Demo.one_project Demo.rising)) 30 Demo.jan3),
        Forecast.Snapshot
          (Forecast._last_n_days_metrics
             (Forecast.selected_df Iso.lib (Demo.one_project Demo.rising)) 30 Demo.jan3)),
     []).
Proof.
  destruct (compute_forecast_requests Demo.gemini_chatty Iso.lib Demo.plain_printers
              (Some "Missing GOOGLE_API_KEY."%string) (Demo.one_project Demo.rising)
              30 Demo.jan3 [])
    as (_ & _ & _ & _ & H & _).
  apply H.
  - intros E. vm_compute in E. discriminate E.
  - discriminate.
Defined.

Lemma ai_verdict_returned_verbatim_witness :
  fst (Forecast.compute_forecast Samples.gemini_verdict Samples.verdict_lib
         Demo.plain_printers None (Demo.one_project Demo.rising) 30 Demo.jan3 [])
  = Effects.Returns
      (Data.JObj [("status"%string, Data.JStr "HURRICANE")],
       Forecast.Snapshot
         (Forecast._last_n_days_metrics
            (Forecast.selected_df Samples.verdict_lib (Demo.one_project Demo.rising))
            30 Demo.jan3)).
Proof.
  apply (@ai_verdict_returned_verbatim Samples.gemini_verdict Samples.verdict_lib
           Demo.plain_printers (Demo.one_project Demo.rising) 30 Demo.jan3 []
           Samples.verdict_answer).
  - intros E. vm_compute in E. discriminate E.
  - reflexivity.
  - vm_compute. reflexivity.
  - simpl. now left.
Defined.

Lemma parse_json_between_braces_witness :
  Forecast._parse_json_maybe Iso.lib "Answer: {} I hope this helps" = Data.JObj [].
Proof.
  apply (@parse_json_between_braces Iso.lib "Answer: " EmptyString " I hope this helps");
    vm_compute; reflexivity.
Defined.



Lemma context_snippet_latest_twenty_witness :
  exists shown hidden,
    AiServices.context_snippet Iso.lib Demo.rising = Data.df_to_string Iso.lib shown
    /\ List.length shown = Nat.min 20 (List.length Demo.rising)
    /\ Permutation (shown ++ hidden) Demo.rising
    /\ StronglySorted latest_first shown
    /\ (forall x y, In x shown -> In y hidden -> latest_first x y).
Proof.
  apply (@context_snippet_latest_twenty Iso.lib Demo.rising). discriminate.
Defined.

Lemma router_call_budget_witness :
  snd (AiServices.get_ai_response Demo.gemini_down Iso.lib "hello" Demo.rising [])
  = [Effects.GeminiCall (AiServices.classifier_prompt "hello") (Some 20%N)].
Proof.
  destruct (router_call_budget Demo.gemini_down Iso.lib "hello" Demo.rising [])
    as (rest & Hsnd & _ & _ & _ & Hraise).
  rewrite (Hraise _ eq_refl) in Hsnd. exact Hsnd.
Defined.

Lemma get_stock_data_spec_witness :
  snd (StockMarket.get_stock_data Samples.yahoo "   ") = [].
Proof.
  destruct (get_stock_data_spec Samples.yahoo "   ") as (_ & H & _).
  apply H. left. vm_compute. reflexivity.
Defined.

Lemma dashboard_matches_snapshot_witness :
  exists k,
    Reports.dashboard_metrics Iso.lib Demo.lowercase_income = Some k
    /\ Reports.total_income k
       = Forecast.income
           (Forecast._last_n_days_metrics
              (Forecast._prep_df Iso.lib Demo.lowercase_income) 30 Demo.jan3).
Proof.
  destruct (@dashboard_matches_snapshot Iso.lib Demo.lowercase_income 30 Demo.jan3)
    as (k & Hk & _ & _ & Hwin); [discriminate|].
  exists k. split; [exact Hk|].
  destruct Hwin as (Hi & _); [|exact Hi].
  intros r d [<-|[<-|[<-|[]]]] H; vm_compute in H; injection H as <-;
    unfold Demo.jan3; lia.
Defined.

Lemma spending_slices_add_up_witness :
  (Data.Qsum (map snd (Reports.cat_sum Iso.lib Demo.lowercase_income)) == 50)%Q.
Proof.
  destruct (@spending_slices_add_up Iso.lib Demo.lowercase_income _ eq_refl)
    as (_ & _ & _ & H).
  rewrite H. vm_compute. reflexivity.
Defined.

Lemma chat_turn_spec_witness :
  exists st' log',
    Chat.render_chat_tab Demo.gemini_down Iso.lib Demo.rising Chat.NoClick
      (Some "hello"%string) Samples.new_chat []
    = (Effects.Returns st', log')
    /\ Chat.exchanges (Chat.messages st') = true.
Proof.
  destruct (chat_turn_spec Demo.gemini_down Iso.lib Demo.rising Chat.NoClick
              (Some "hello"%string) Samples.new_chat [])
    as (st' & log' & Hrun & _ & Hex).
  exists st', log'. split; [exact Hrun|]. apply Hex. reflexivity.
Defined.

Lemma planning_tab_spec_witness :
  Planning.render_planning_tab Demo.gemini_chatty Iso.lib None true Samples.bad_date []
  = (Effects.Raises
       (Effects.PyException
          "Unknown datetime string format, unable to parse: yesterday"),
     []).
Proof.
  destruct (planning_tab_spec Demo.gemini_chatty Iso.lib None true Samples.bad_date [])
    as [H _].
  apply H. vm_compute. reflexivity.
Defined.
